(** * nightmare: a shallow embedding of the test-case core

    The development follows [src/nightmare/case.py] (the packaged module)
    and, in [Module Legacy], the parts of the older top-level [src/case.py]
    that differ from it.

    Python values are modelled as follows.
    - [str] is a Rocq [string]; one [ascii] stands for one code point below
      256.  [bytes] is a Rocq [string] too, one [ascii] per byte.
    - [int] is [Z].
    - An exception is a value [Raise e] of the result type [Res].
    - Console output ([logger.log], [print], [sys.stdout.write]) and the
      signals sent to processes are recorded as a list of [Event]s.
    - The operating system, the file system and the library modules [re],
      [difflib] and [eval] are the fields of a [Host].

    Modelled: [TestState], [Command], the expectation classes, the
    dispatch of [Test.check] with [lineComparison], [checkList] and
    [checkSet], [Test.pipeOutputStream], [Test.runCmd], [Test.run],
    [BadWord.run], [TestGroup.run] and [TestGroup.cmd], and from
    [src/pyTestGui/testGrid.py] the colours and the check button of a
    [TestRow] and the scrolling of a [TestGrid].  Not modelled: the
    [toString] methods, the constructors of [TestAll] and [TestAny], and
    the widgets of the grid. *)

From Stdlib Require Import String Ascii List ZArith Bool Lia QArith DecimalString.
Import ListNotations.
Local Open Scope string_scope.
Local Open Scope list_scope.
Local Open Scope Z_scope.

Set Implicit Arguments.
Set Warnings "-register-all".

(* ===================================================================== *)
(** * Python string methods *)
(* ===================================================================== *)

Module PyStr.

Definition code (c : ascii) : nat := nat_of_ascii c.

Definition one_of (l : list nat) (c : ascii) : bool :=
  existsb (Nat.eqb (code c)) l.

(** [str.isspace] for the code points below 256. *)
Definition is_space : ascii -> bool :=
  one_of [9; 10; 11; 12; 13; 28; 29; 30; 31; 32; 133; 160]%nat.

(** The line boundaries of [str.splitlines] below 256. *)
Definition is_linebreak : ascii -> bool :=
  one_of [10; 11; 12; 13; 28; 29; 30; 133]%nat.

(** ASCII whitespace: what [bytes.strip] removes. *)
Definition is_bspace : ascii -> bool :=
  one_of [9; 10; 11; 12; 13; 32]%nat.

(** [bytes.splitlines] only knows LF and CR. *)
Definition is_blinebreak : ascii -> bool :=
  one_of [10; 13]%nat.

Definition is_cr (c : ascii) : bool := Nat.eqb (code c) 13.
Definition is_lf (c : ascii) : bool := Nat.eqb (code c) 10.

Definition is_empty (s : string) : bool :=
  match s with EmptyString => true | String _ _ => false end.

Definition snoc (s : string) (c : ascii) : string := s ++ String c "".

(** [s.startswith(p)] *)
Definition startswith (s p : string) : bool := String.prefix p s.

(** [p in s] *)
Fixpoint contains (p s : string) : bool :=
  match s with
  | EmptyString => String.prefix p s
  | String _ s' => String.prefix p s || contains p s'
  end.

(** [s.replace(old, new)] for a non-empty [old]: matches are taken from
    the left and do not overlap.  [skip] counts the characters of the
    match in progress that are still to be dropped. *)
Fixpoint replace_from (old new : string) (skip : nat) (s : string) : string :=
  match s with
  | EmptyString => EmptyString
  | String c s' =>
      match skip with
      | S k => replace_from old new k s'
      | O =>
          if String.prefix old s
          then new ++ replace_from old new (Nat.pred (String.length old)) s'
          else String c (replace_from old new O s')
      end
  end.

Definition replace (old new s : string) : string := replace_from old new O s.

(** [s.rstrip()], [s.lstrip()], [s.strip()] for a given whitespace class. *)
Fixpoint rstrip_with (sp : ascii -> bool) (s : string) : string :=
  match s with
  | EmptyString => EmptyString
  | String c s' =>
      let r := rstrip_with sp s' in
      if is_empty r && sp c then EmptyString else String c r
  end.

Fixpoint lstrip_with (sp : ascii -> bool) (s : string) : string :=
  match s with
  | EmptyString => EmptyString
  | String c s' => if sp c then lstrip_with sp s' else s
  end.

Definition rstrip : string -> string := rstrip_with is_space.
Definition strip (s : string) : string := rstrip_with is_space (lstrip_with is_space s).
Definition bytes_strip (s : string) : string :=
  rstrip_with is_bspace (lstrip_with is_bspace s).

(** [s.splitlines()]: [cur] is the line read so far.  CR LF counts as one
    boundary; a last line is produced only when it is not empty. *)
Fixpoint splitlines_from (brk : ascii -> bool) (cur : string) (s : string) : list string :=
  match s with
  | EmptyString => if is_empty cur then [] else [cur]
  | String c s' =>
      if brk c then
        match s' with
        | String c2 s'' =>
            if is_cr c && is_lf c2
            then cur :: splitlines_from brk "" s''
            else cur :: splitlines_from brk "" s'
        | EmptyString => cur :: splitlines_from brk "" s'
        end
      else splitlines_from brk (snoc cur c) s'
  end.

Definition splitlines : string -> list string := splitlines_from is_linebreak "".
Definition bytes_splitlines : string -> list string := splitlines_from is_blinebreak "".

(** [str(n)] for an [int]. *)
Definition str_of_int (n : Z) : string := NilZero.string_of_int (Z.to_int n).

(** [text.encode("utf8", errors="ignore")] for code points below 256. *)
Fixpoint encode_utf8 (s : string) : string :=
  match s with
  | EmptyString => EmptyString
  | String c s' =>
      let n := code c in
      if Nat.ltb n 128 then String c (encode_utf8 s')
      else String (ascii_of_nat (192 + Nat.div n 64))
             (String (ascii_of_nat (128 + Nat.modulo n 64)) (encode_utf8 s'))
  end.

(** [repr(b)] of a [bytes] value, which is what [str(b)] gives. *)
Definition hex_digit (n : nat) : ascii :=
  if Nat.ltb n 10 then ascii_of_nat (48 + n) else ascii_of_nat (87 + n).

Definition squote : ascii := ascii_of_nat 39.
Definition dquote : ascii := ascii_of_nat 34.
Definition bslash : ascii := ascii_of_nat 92.

Fixpoint has_char (q : ascii) (s : string) : bool :=
  match s with
  | EmptyString => false
  | String c s' => Ascii.eqb c q || has_char q s'
  end.

Fixpoint repr_body (q : ascii) (s : string) : string :=
  match s with
  | EmptyString => EmptyString
  | String c s' =>
      let n := code c in
      let rest := repr_body q s' in
      if Ascii.eqb c q || Ascii.eqb c bslash then String bslash (String c rest)
      else if Nat.eqb n 9 then String bslash (String "t" rest)
      else if Nat.eqb n 10 then String bslash (String "n" rest)
      else if Nat.eqb n 13 then String bslash (String "r" rest)
      else if Nat.ltb n 32 || Nat.leb 127 n
           then String bslash (String "x"
                  (String (hex_digit (Nat.div n 16))
                     (String (hex_digit (Nat.modulo n 16)) rest)))
      else String c rest
  end.

Definition bytes_repr (s : string) : string :=
  let q := if has_char squote s && negb (has_char dquote s) then dquote else squote in
  String "b" (String q (repr_body q s ++ String q "")).

End PyStr.

(* ===================================================================== *)
(** * States, values, exceptions and effects *)
(* ===================================================================== *)

(** [class TestState(Enum)], in the order of the source. *)
Inductive TestState : Set :=
| Success | Fail | Error | Assertion | SegFault | InfoOnly
| Timeout | Waiting | Disabled | Clean | BadWord.

(** The [value] of each member. *)
Definition TestState_value (s : TestState) : Z :=
  match s with
  | Success => 0 | Fail => 1 | Error => 2 | Assertion => 3 | SegFault => 4
  | InfoOnly => 5 | Timeout => 6 | Waiting => 7 | Disabled => 8
  | Clean => 10 | BadWord => 11
  end.

Definition TestState_eqb (a b : TestState) : bool :=
  Z.eqb (TestState_value a) (TestState_value b).

Definition all_TestStates : list TestState :=
  [Success; Fail; Error; Assertion; SegFault; InfoOnly;
   Timeout; Waiting; Disabled; Clean; BadWord].

(** The Python exceptions that the modelled code can raise. *)
Inductive PyExc : Set :=
| TypeError | AttributeError | ValueError | SyntaxError | ReError
| OSError | CalledProcessError | ProcessLookupError | OtherError.

Inductive Res (A : Type) : Type :=
| Ok (a : A)
| Raise (e : PyExc).
Arguments Ok {A} a.
Arguments Raise {A} e.

(** [StreamOutput]: what a check is run against.  The source declares
    [Optional[Union[str, int]]]; in binary mode a stream is captured as
    [bytes]. *)
Inductive StreamOutput : Set :=
| OutNone
| OutStr (s : string)
| OutInt (n : Z)
| OutBytes (b : string).

(** A list of lines of text, or of [bytes] lines. *)
Inductive Lines : Set :=
| TextLines (l : list string)
| ByteLines (l : list string).

(** [ExpectationT]: the shapes of an expectation that [Test.check] tells
    apart.  A [set] is listed in its iteration order. *)
Inductive ExpectationT : Type :=
| ExpNone
| ExpStringifier (exp : string)
| ExpFunc (f : StreamOutput -> Res bool)
| ExpInt (n : Z)
| ExpList (l : list ExpectationT)
| ExpSet (l : list ExpectationT)
| ExpBytes (b : string)
| ExpStr (s : string)
| ExpOther.

Inductive Color : Set := White | Green | Red | Cyan | Yellow | Purple.
Inductive Stream : Set := Stdout | Stderr.
Inductive Signal : Set := SIGKILL | SIGTERM.

(** What the code does to the outside, in the order it does it. *)
Inductive Event : Type :=
| EvLog (col : Color) (line : string)
    (* logger.log(TermColor.colorText(line, col)) *)
| EvLogTest (nr : nat) (name : string) (descr : option string) (st : TestState)
    (* TestGroup.log_test *)
| EvLogHit (file : string) (lineno : nat) (text pattern : string)
    (* the line logged for one bad word hit *)
| EvPrint (line : string)
| EvWrite (to : Stream) (col : Color) (text : string)
    (* stream.write(TermColor.colorText(text, fg=col)) *)
| EvStopped (to : Stream) (bytes : Z)
    (* the "Stopped after ... Bytes" notice *)
| EvSpawn (cmd : string) (binary : bool) (timeout : Q)
    (* the thread running subprocess.Popen(cmd, shell=True) *)
| EvTaskkill (pid : Z)
| EvPgrep (pid : Z)
| EvKill (pid : Z) (sig : Signal).

(** ** Computations that log and may raise *)

Definition Chk (A : Type) : Type := (list Event * Res A)%type.

Definition Chk_ret {A} (a : A) : Chk A := ([], Ok a).

Definition Chk_bind {A B} (m : Chk A) (f : A -> Chk B) : Chk B :=
  match m with
  | (l1, Ok a) => let (l2, r) := f a in (l1 ++ l2, r)
  | (l1, Raise e) => (l1, Raise e)
  end.

Definition Chk_raise {A} (e : PyExc) : Chk A := ([], Raise e).
Definition Chk_emit (l : list Event) : Chk unit := (l, Ok tt).
Definition Chk_lift {A} (r : Res A) : Chk A := ([], r).

(** ** The same, threading the state of the world *)

Definition Run (W A : Type) : Type := W -> Chk (A * W).

Definition Run_ret {W A} (a : A) : Run W A := fun w => Chk_ret (a, w).

Definition Run_bind {W A B} (m : Run W A) (f : A -> Run W B) : Run W B :=
  fun w => Chk_bind (m w) (fun aw => f (fst aw) (snd aw)).

Definition Run_chk {W A} (c : Chk A) : Run W A :=
  fun w => Chk_bind c (fun a => Chk_ret (a, w)).

Declare Scope chk_scope.
Declare Scope run_scope.
Delimit Scope chk_scope with chk.
Delimit Scope run_scope with run.

Notation "x <- c ;; k" := (Chk_bind c (fun x => k))
  (at level 61, c at next level, right associativity) : chk_scope.
Notation "c ;;; k" := (Chk_bind c (fun _ => k))
  (at level 61, right associativity) : chk_scope.
Notation "x <- c ;; k" := (Run_bind c (fun x => k))
  (at level 61, c at next level, right associativity) : run_scope.
Notation "c ;;; k" := (Run_bind c (fun _ => k))
  (at level 61, right associativity) : run_scope.

(** Events and result of a computation. *)
Definition events {A} (m : Chk A) : list Event := fst m.
Definition result {A} (m : Chk A) : Res A := snd m.

(* ===================================================================== *)
(** * The host: platform, processes, files and library modules *)
(* ===================================================================== *)

(** What [Command.execute] observes of the thread and of the operating
    system, query by query:
    - [jv_proc]: [self.proc] once [thread.join(timeout)] has returned
      ([None] while [Popen] has not returned yet), as a process id;
    - [jv_poll]: the first [self.proc.poll()];
    - [jv_out], [jv_err], [jv_ret]: the fields of the [Command] after the
      join ([""], [""] and [0] until the thread has assigned them);
    - [jv_children]: the process ids that [pgrep -P pid] prints, one per
      line; [pgrep] exits with status 1 when there is none;
    - [jv_kill_child]: whether [os.kill(childProc, SIGKILL)] found the
      process;
    - [jv_poll2]: the second [self.proc.poll()];
    - [jv_kill_parent]: whether [os.kill(self.proc.pid, SIGTERM)] found the
      process. *)
Record JoinView : Set := {
  jv_proc : option Z;
  jv_poll : option Z;
  jv_out : StreamOutput;
  jv_err : StreamOutput;
  jv_ret : Z;
  jv_children : list Z;
  jv_kill_child : bool;
  jv_poll2 : option Z;
  jv_kill_parent : bool
}.

Record Host : Type := {
  (** [sys.platform == "win32"] and [os.linesep] *)
  win32 : bool;
  os_linesep : string;
  (** module [re]: [re.compile(pattern)] or, with [true],
      [re.compile(pattern, re.IGNORECASE)]; [r.match(s) != None];
      [r.search(s) is not None] *)
  regex : Type;
  re_compile : string -> bool -> Res regex;
  re_match : regex -> string -> bool;
  re_search : regex -> string -> bool;
  (** [difflib.unified_diff(a, b, fromfile, tofile)], as a list *)
  unified_diff : list string -> list string -> string -> string -> list string;
  (** [eval(text)] of a text starting with [lambda] *)
  py_eval : string -> Res (StreamOutput -> Res bool);
  (** processes: one run of a command line in a thread, joined after
      [timeout] *)
  World : Type;
  os_join : World -> string -> bool -> Q -> JoinView * World;
  (** files: [pathlib.Path(p).parent], [path.glob(pattern)],
      [open(f).readlines()], [os.path.relpath(f)] *)
  path_parent : string -> string;
  path_glob : World -> string -> string -> Res (list string);
  readlines : World -> string -> Res (list string);
  relpath : string -> string;
  (** files, as the older module reads them:
      [os.path.abspath(os.path.dirname(p))], [os.walk(top)] as the list of
      its [(dirpath, filenames)], [os.path.join(dirpath, file)] *)
  abs_dirname : string -> string;
  os_walk : World -> string -> list (string * list string);
  path_join : string -> string -> string
}.

(* ===================================================================== *)
(** * The test case: [class Test] *)
(* ===================================================================== *)

(** [Test.cmd]: [None], one command line, or a list of command lines. *)
Inductive CmdT : Set :=
| CmdNone
| CmdStr (c : string)
| CmdList (l : list string).

Record Test : Type := {
  name : string;
  descr : option string;
  cmd : CmdT;
  expectStdout : ExpectationT;
  expectStderr : ExpectationT;
  expectRetCode : ExpectationT;
  timeout : Q;
  DUT : option string;
  output : StreamOutput;
  error : StreamOutput;
  retCode : Z;
  state : TestState;
  pipe : bool;
  outputOnFail : bool;
  diff : bool;
  linesep : string;
  ignoreEmptyLines : bool;
  pipeLimit : Z;
  binary : bool
}.

Definition set_state (st : TestState) (t : Test) : Test :=
  {| name := name t; descr := descr t; cmd := cmd t;
     expectStdout := expectStdout t; expectStderr := expectStderr t;
     expectRetCode := expectRetCode t; timeout := timeout t; DUT := DUT t;
     output := output t; error := error t; retCode := retCode t;
     state := st;
     pipe := pipe t; outputOnFail := outputOnFail t; diff := diff t;
     linesep := linesep t; ignoreEmptyLines := ignoreEmptyLines t;
     pipeLimit := pipeLimit t; binary := binary t |}.

Definition set_captured (o e : StreamOutput) (r : Z) (t : Test) : Test :=
  {| name := name t; descr := descr t; cmd := cmd t;
     expectStdout := expectStdout t; expectStderr := expectStderr t;
     expectRetCode := expectRetCode t; timeout := timeout t; DUT := DUT t;
     output := o; error := e; retCode := r;
     state := state t;
     pipe := pipe t; outputOnFail := outputOnFail t; diff := diff t;
     linesep := linesep t; ignoreEmptyLines := ignoreEmptyLines t;
     pipeLimit := pipeLimit t; binary := binary t |}.

(** The arguments of [Test.__init__], and their defaults. *)
Record TestArgs : Type := {
  arg_DUT : option string;
  arg_name : string;
  arg_description : option string;
  arg_command : CmdT;
  arg_stdout : ExpectationT;
  arg_stderr : ExpectationT;
  arg_returnCode : ExpectationT;
  arg_timeout : Q;
  arg_outputOnFail : bool;
  arg_pipe : bool;
  arg_diff : bool;
  arg_state : TestState;
  arg_binary : bool
}.

Definition default_args : TestArgs :=
  {| arg_DUT := None; arg_name := ""; arg_description := Some "";
     arg_command := CmdNone; arg_stdout := ExpNone; arg_stderr := ExpNone;
     arg_returnCode := ExpNone; arg_timeout := 5%Q;
     arg_outputOnFail := false; arg_pipe := false; arg_diff := false;
     arg_state := Waiting; arg_binary := false |}.

(** The value a call [exp(out)] returns: a boolean, or the pair of line
    lists of a [Stringifier]. *)
Inductive PyVal : Set :=
| VBool (b : bool)
| VPair (expLines outLines : Lines).

(** Truth value: a pair is a non-empty tuple. *)
Definition truthy (v : PyVal) : bool :=
  match v with
  | VBool b => b
  | VPair _ _ => true
  end.

(** The type tests of [Test.check]. *)
Definition is_None (exp : ExpectationT) : bool :=
  match exp with ExpNone => true | _ => false end.

Definition isinstance_Stringifier (exp : ExpectationT) : bool :=
  match exp with ExpStringifier _ => true | _ => false end.

(** A [Stringifier] defines [__call__], so it is callable as well. *)
Definition callable (exp : ExpectationT) : bool :=
  match exp with ExpFunc _ | ExpStringifier _ => true | _ => false end.

(** [Expectation] objects are among the [ExpFunc]. *)
Definition isinstance_Expectation (exp : ExpectationT) : bool :=
  match exp with ExpFunc _ => true | _ => false end.

Definition isinstance_int (exp : ExpectationT) : bool :=
  match exp with ExpInt _ => true | _ => false end.

Definition out_is_int (out : StreamOutput) : bool :=
  match out with OutInt _ => true | _ => false end.

(** [exp == out] for an [int] or a [bytes] expectation. *)
Definition exp_eq_out (exp : ExpectationT) (out : StreamOutput) : bool :=
  match exp, out with
  | ExpInt n, OutInt m => Z.eqb n m
  | ExpBytes b, OutBytes c => String.eqb b c
  | _, _ => false
  end.

(** [str(out)] *)
Definition py_str (out : StreamOutput) : string :=
  match out with
  | OutNone => "None"
  | OutStr s => s
  | OutInt n => PyStr.str_of_int n
  | OutBytes b => PyStr.bytes_repr b
  end.

(** [exp[6:]] *)
Fixpoint str_drop (n : nat) (s : string) : string :=
  match n, s with
  | O, _ => s
  | S k, EmptyString => EmptyString
  | S k, String _ s' => str_drop k s'
  end.

(** [while lines.count("") > 0: lines.remove("")] *)
Fixpoint remove_first (x : string) (l : list string) : list string :=
  match l with
  | [] => []
  | y :: l' => if String.eqb y x then l' else y :: remove_first x l'
  end.

Definition remove_empty (l : list string) : list string :=
  Nat.iter (count_occ string_dec l "") (remove_first "") l.

(** A [bytes] line is never equal to [""], so nothing is removed. *)
Definition remove_empty_lines (l : Lines) : Lines :=
  match l with
  | TextLines l => TextLines (remove_empty l)
  | ByteLines l => ByteLines l
  end.

(** [difflib] refuses a non-empty list whose lines are not [str]. *)
Definition diff_input (l : Lines) : Res (list string) :=
  match l with
  | TextLines l => Ok l
  | ByteLines [] => Ok []
  | ByteLines (_ :: _) => Raise TypeError
  end.

(** [Stringifier.__call__] *)
Definition Stringifier_call (exp : string) (out : StreamOutput) : Res PyVal :=
  match out with
  | OutStr o =>
      Ok (VPair (TextLines (PyStr.splitlines (PyStr.strip exp)))
                (TextLines (PyStr.splitlines (PyStr.strip o))))
  | OutBytes b =>
      Ok (VPair (TextLines (PyStr.splitlines (PyStr.strip exp)))
                (ByteLines (PyStr.bytes_splitlines (PyStr.bytes_strip b))))
  | OutNone | OutInt _ => Raise AttributeError
  end.

(** [exp(out)] *)
Definition call (exp : ExpectationT) (out : StreamOutput) : Res PyVal :=
  match exp with
  | ExpFunc f =>
      match f out with
      | Ok b => Ok (VBool b)
      | Raise e => Raise e
      end
  | ExpStringifier e => Stringifier_call e out
  | _ => Raise TypeError
  end.

Section WithHost.

Variable H : Host.

Local Open Scope chk_scope.

(** [Test.__init__]: the [state] argument is accepted and not used. *)
Definition Test_init (a : TestArgs) : Test :=
  {| name := arg_name a;
     descr := arg_description a;
     cmd := arg_command a;
     expectStdout := arg_stdout a;
     expectStderr := arg_stderr a;
     expectRetCode := arg_returnCode a;
     timeout := arg_timeout a;
     DUT := arg_DUT a;
     output := OutStr "";
     error := OutStr "";
     retCode := 0;
     state := Waiting;
     pipe := arg_pipe a;
     outputOnFail := arg_outputOnFail a;
     diff := arg_diff a;
     linesep := os_linesep H;
     ignoreEmptyLines := false;
     pipeLimit := 2000;
     binary := arg_binary a |}.

(** The body of the loop of [Test.lineComparison] for one line of the
    diff: whether the line marks a difference, and its colour. *)
Definition diff_line_kind (line : string) : bool * Color :=
  if PyStr.startswith line "+" then (true, Green)
  else if PyStr.startswith line "-" then (true, Red)
  else if PyStr.startswith line "@" then (true, Cyan)
  else (false, White).

Fixpoint scan_diff (kind : string -> bool * Color) (show : bool)
         (lines : list string) (same : bool) : Chk bool :=
  match lines with
  | [] => Chk_ret same
  | line :: rest =>
      let (changed, col) := kind line in
      (if show then Chk_emit [EvLog col (PyStr.rstrip line)] else Chk_ret tt) ;;;
      scan_diff kind show rest (if changed then false else same)
  end.

(** [Test.lineComparison] *)
Definition lineComparison (t : Test) (expLines outLines : Lines)
           (stream : string) : Chk bool :=
  let expLines := if ignoreEmptyLines t then remove_empty_lines expLines else expLines in
  let outLines := if ignoreEmptyLines t then remove_empty_lines outLines else outLines in
  a <- Chk_lift (diff_input outLines) ;;
  b <- Chk_lift (diff_input expLines) ;;
  scan_diff diff_line_kind (diff t) (unified_diff H a b stream "expectation") true.

(** [lineComparison] applied to the unpacked pair that [exp(out)] returns *)
Definition lineComparison_star (t : Test) (v : PyVal) (stream : string) : Chk bool :=
  match v with
  | VPair e o => lineComparison t e o stream
  | VBool _ => Chk_raise TypeError
  end.

(** [Test.check], with the loops of [checkList] and [checkSet] in place.
    The tests are made in the order of the source. *)
Fixpoint check (t : Test) (exp : ExpectationT) (out : StreamOutput)
         (stream : string) {struct exp} : Chk bool :=
  if is_None exp then Chk_ret true
  else if isinstance_Stringifier exp then
    v <- Chk_lift (call exp out) ;; lineComparison_star t v stream
  else if callable exp || isinstance_Expectation exp then
    v <- Chk_lift (call exp out) ;; Chk_ret (truthy v)
  else if isinstance_int exp && out_is_int out then
    Chk_ret (exp_eq_out exp out)
  else
    match exp with
    | ExpList lst =>
        (fix checkList (lst : list ExpectationT) : Chk bool :=
           match lst with
           | [] => Chk_ret true
           | e :: rest =>
               ok <- check t e out "returnCode" ;;
               if ok then checkList rest else Chk_ret false
           end) lst
    | ExpSet st =>
        (fix checkSet (st : list ExpectationT) : Chk bool :=
           match st with
           | [] => Chk_ret false
           | e :: rest =>
               ok <- check t e out "returnCode" ;;
               if ok then Chk_ret true else checkSet rest
           end) st
    | ExpBytes _ => Chk_ret (exp_eq_out exp out)
    | ExpStr s =>
        if PyStr.startswith s "lambda" then
          f <- Chk_lift (py_eval H s) ;; Chk_lift (f out)
        else if PyStr.startswith s "regex:" then
          patCode <- Chk_lift
            (re_compile H (PyStr.replace "$n" (linesep t) (str_drop 6 s)) true) ;;
          Chk_ret (re_match H patCode (py_str out))
        else
          let expLines := PyStr.splitlines (PyStr.replace "$n" (linesep t) s) in
          let outLines := PyStr.splitlines (PyStr.rstrip (py_str out)) in
          lineComparison t (TextLines expLines) (TextLines outLines) stream
    | _ => Chk_ret false
    end.

(** [Test.checkList] *)
Fixpoint checkList (t : Test) (lst : list ExpectationT) (out : StreamOutput) : Chk bool :=
  match lst with
  | [] => Chk_ret true
  | e :: rest =>
      ok <- check t e out "returnCode" ;;
      if ok then checkList t rest out else Chk_ret false
  end.

(** [Test.checkSet] *)
Fixpoint checkSet (t : Test) (st : list ExpectationT) (out : StreamOutput) : Chk bool :=
  match st with
  | [] => Chk_ret false
  | e :: rest =>
      ok <- check t e out "returnCode" ;;
      if ok then Chk_ret true else checkSet t rest out
  end.

(* --------------------------------------------------------------------- *)
(** ** [class Command] *)

Record Command : Set := {
  c_cmd : string;
  c_out : StreamOutput;
  c_err : StreamOutput;
  c_ret : Z;
  c_killed : bool;
  c_binary : bool
}.

(** [Command.__init__] *)
Definition Command_init (cmd : string) (binary : bool) : Command :=
  {| c_cmd := cmd; c_out := OutStr ""; c_err := OutStr ""; c_ret := 0;
     c_killed := false; c_binary := binary |}.

(** [int(subprocess.check_output("pgrep -P pid", ...).strip())]:
    [check_output] raises [CalledProcessError] on the exit status 1 of a
    [pgrep] that found nothing; [int] raises [ValueError] on a text of
    several lines. *)
Definition pgrep_child (children : list Z) : Res Z :=
  match children with
  | [] => Raise CalledProcessError
  | [c] => Ok c
  | _ :: _ :: _ => Raise ValueError
  end.

(** [os.kill(pid, sig)] *)
Definition os_kill (pid : Z) (sig : Signal) (found : bool) : Chk unit :=
  Chk_emit [EvKill pid sig] ;;;
  if found then Chk_ret tt else Chk_raise ProcessLookupError.

(** The branch of [Command.execute] taken when the process still runs. *)
Definition kill_running (jv : JoinView) (pid : Z) : Chk unit :=
  if win32 H then Chk_emit [EvTaskkill pid]
  else
    Chk_emit [EvPgrep pid] ;;;
    childProc <- Chk_lift (pgrep_child (jv_children jv)) ;;
    os_kill childProc SIGKILL (jv_kill_child jv) ;;;
    match jv_poll2 jv with
    | None => os_kill pid SIGTERM (jv_kill_parent jv)
    | Some _ => Chk_ret tt
    end.

(** [Command.execute], after [self.thread.join(timeout)] has returned. *)
Definition execute_joined (jv : JoinView) : Chk TestState :=
  match jv_proc jv, jv_poll jv with
  | Some pid, None => kill_running jv pid ;;; Chk_ret Timeout
  | _, _ => Chk_ret Success
  end.

(** [Command.execute] *)
Definition Command_execute (c : Command) (timeout : Q)
  : Run (World H) (TestState * Command) :=
  fun w =>
    let (jv, w') := os_join H w (c_cmd c) (c_binary c) timeout in
    let c' := {| c_cmd := c_cmd c; c_out := jv_out jv; c_err := jv_err jv;
                 c_ret := jv_ret jv; c_killed := c_killed c;
                 c_binary := c_binary c |} in
    Chk_emit [EvSpawn (c_cmd c) (c_binary c) timeout] ;;;
    st <- execute_joined jv ;;
    Chk_ret ((st, c'), w').

(* --------------------------------------------------------------------- *)
(** ** Running one command line: [Test.runCmd] *)

(** [out.splitlines()] of a captured stream *)
Definition out_splitlines (out : StreamOutput) : Res Lines :=
  match out with
  | OutStr s => Ok (TextLines (PyStr.splitlines s))
  | OutBytes b => Ok (ByteLines (PyStr.bytes_splitlines b))
  | OutNone | OutInt _ => Raise AttributeError
  end.

Fixpoint pipe_text (limit : Z) (stream : Stream) (color : Color)
         (lines : list string) (bytes : Z) : Chk unit :=
  match lines with
  | [] => Chk_ret tt
  | line :: rest =>
      let bytes := bytes + Z.of_nat (String.length line) in
      Chk_emit [EvWrite stream color (line ++ " ")] ;;;
      if bytes >? limit then Chk_emit [EvStopped stream bytes]
      else pipe_text limit stream color rest bytes
  end.

(** [Test.pipeOutputStream]: [line + " "] is a [TypeError] on a [bytes]
    line. *)
Definition pipeOutputStream (t : Test) (stream : Stream) (lines : Lines)
           (color : Color) : Chk unit :=
  match lines with
  | TextLines l => pipe_text (pipeLimit t) stream color l 0
  | ByteLines [] => Chk_ret tt
  | ByteLines (_ :: _) => Chk_raise TypeError
  end.

(** The state of a run whose checks did not all pass.  The first test,
    ["Assertion" in self.error], is a [TypeError] unless [self.error] is
    text. *)
Definition failure_state (err : StreamOutput) (ret : Z) : Res TestState :=
  match err with
  | OutStr e =>
      Ok (if PyStr.contains "Assertion" e || PyStr.contains "assertion" e
          then Assertion
          else if PyStr.contains "stackdump" e
                  || PyStr.contains "coredump" e
                  || PyStr.contains "Segmentation Fault" e
                  || (ret <? 0)
          then SegFault
          else Fail)
  | _ => Raise TypeError
  end.

(** The echo of the captured output at the end of [runCmd]. *)
Definition pipe_streams (t : Test) : Chk unit :=
  Chk_emit [EvWrite Stdout Yellow (PyStr.str_of_int (retCode t))] ;;;
  ol <- Chk_lift (out_splitlines (output t)) ;;
  pipeOutputStream t Stdout ol Green ;;;
  el <- Chk_lift (out_splitlines (error t)) ;;
  pipeOutputStream t Stderr el Red.

(* --------------------------------------------------------------------- *)
(** ** The bad word search of [Test.run] *)

(** One hit: [(os.path.relpath(fname), nr, line.rstrip(), word.pattern)] *)
Definition Hit : Type := (string * nat * string * string)%type.

Definition log_hit (h : Hit) : Event :=
  let '(file, lineno, text, pattern) := h in EvLogHit file lineno text pattern.

(** The items of [for s in self.cmd]: iterating a [str] gives its
    characters, iterating [None] is a [TypeError]. *)
Fixpoint chars (s : string) : list string :=
  match s with
  | EmptyString => []
  | String c s' => String c EmptyString :: chars s'
  end.

Definition cmd_items (c : CmdT) : Res (list string) :=
  match c with
  | CmdNone => Raise TypeError
  | CmdStr s => Ok (chars s)
  | CmdList l => Ok l
  end.

(** [[re.compile(s) for s in self.cmd]], each regex with its pattern *)
Fixpoint compile_words (l : list string) : Res (list (string * regex H)) :=
  match l with
  | [] => Ok []
  | s :: rest =>
      match re_compile H s false with
      | Raise e => Raise e
      | Ok r =>
          match compile_words rest with
          | Raise e => Raise e
          | Ok rs => Ok ((s, r) :: rs)
          end
      end
  end.

(** A value that must not be [None] *)
Definition not_None {A} (o : option A) : Res A :=
  match o with
  | Some a => Ok a
  | None => Raise TypeError
  end.

(** The pattern of [searchpath.glob(self.descr)]: [glob] refuses [None]
    with [ValueError]. *)
Definition glob_pattern (o : option string) : Res string :=
  match o with
  | Some pattern => Ok pattern
  | None => Raise ValueError
  end.

Definition line_hits (words : list (string * regex H)) (fname : string)
           (nr : nat) (line : string) : list Hit :=
  flat_map (fun word =>
              if re_search H (snd word) line
              then [(relpath H fname, nr, PyStr.rstrip line, fst word)]
              else []) words.

Fixpoint lines_hits (words : list (string * regex H)) (fname : string)
         (nr : nat) (lines : list string) : list Hit :=
  match lines with
  | [] => []
  | line :: rest =>
      line_hits words fname nr line ++ lines_hits words fname (S nr) rest
  end.

Fixpoint files_hits (w : World H) (words : list (string * regex H))
         (files : list string) : Res (list Hit) :=
  match files with
  | [] => Ok []
  | fname :: rest =>
      match readlines H w fname with
      | Raise e => Raise e
      | Ok lines =>
          match files_hits w words rest with
          | Raise e => Raise e
          | Ok hs => Ok (lines_hits words fname 0 lines ++ hs)
          end
      end
  end.

(** The end of the bad word branch: log the hits and set the state. *)
Definition badword_verdict (t : Test) (hits : list Hit) : Chk Test :=
  if Nat.ltb 0 (List.length hits) then
    Chk_emit (map log_hit hits) ;;; Chk_ret (set_state BadWord t)
  else Chk_ret (set_state Clean t).

(** The bad word branch of [Test.run] in [nightmare/case.py] *)
Definition badword (t : Test) : Run (World H) Test :=
  fun w =>
    items <- Chk_lift (cmd_items (cmd t)) ;;
    words <- Chk_lift (compile_words items) ;;
    dut <- Chk_lift (not_None (DUT t)) ;;
    let searchpath := path_parent H dut in
    pattern <- Chk_lift (glob_pattern (descr t)) ;;
    files <- Chk_lift (path_glob H w searchpath pattern) ;;
    hits <- Chk_lift (files_hits w words files) ;;
    t' <- badword_verdict t hits ;;
    Chk_ret (t', w).

(* --------------------------------------------------------------------- *)
(** ** [Test.runCmd] and [Test.run]

    The two modules share this code word for word; they differ in [check]
    and in the bad word search, which are the variables of the section. *)

Section Runner.

Variable check_ : Test -> ExpectationT -> StreamOutput -> string -> Chk bool.
Variable badword_ : Test -> Run (World H) Test.

(** The three checks of [runCmd], joined by [and]. *)
Definition checks_pass (t : Test) : Chk bool :=
  rc <- check_ t (expectRetCode t) (OutInt (retCode t)) "returnCode" ;;
  if rc then
    so <- check_ t (expectStdout t) (output t) "stdout" ;;
    if so then check_ t (expectStderr t) (error t) "stderr"
    else Chk_ret false
  else Chk_ret false.

(** [Test.runCmd] from [cmdRet = _cmd.execute(self.timeout)] on. *)
Definition runCmd_command (t : Test) (c : Command) : Run (World H) Test :=
  fun w =>
    r <- Command_execute c (timeout t) w ;;
    let '((cmdRet, c'), w') := r in
    if TestState_eqb cmdRet Success then
      let t1 := set_captured (c_out c') (c_err c') (c_ret c') t in
      ok <- checks_pass t1 ;;
      st <- (if ok then Chk_ret Success
             else Chk_lift (failure_state (error t1) (retCode t1))) ;;
      let t2 := set_state st t1 in
      (if pipe t2 || (outputOnFail t2 && TestState_eqb (state t2) Fail)
       then pipe_streams t2 else Chk_ret tt) ;;;
      Chk_ret (t2, w')
    else Chk_ret (set_state cmdRet t, w').

(** [Test.runCmd] *)
Definition runCmd_with (t : Test) (command : string) : Run (World H) Test :=
  if PyStr.contains "$DUT" command then
    match DUT t with
    | None => Run_ret (set_state Error t)
    | Some dut =>
        runCmd_command t
          (Command_init (PyStr.replace "$DUT" dut command) (binary t))
    end
  else runCmd_command t (Command_init command false).

(** [for cmd_ in self.cmd: self.runCmd(cmd_)] *)
Fixpoint runCmds_with (t : Test) (l : list string) : Run (World H) Test :=
  match l with
  | [] => Run_ret t
  | c :: rest => Run_bind (runCmd_with t c) (fun t' => runCmds_with t' rest)
  end.

(** The text printed for an [InfoOnly] test *)
Definition info_line (t : Test) : string :=
  match descr t with
  | None => name t
  | Some d => name t ++ " - " ++ d
  end.

(** [Test.run]: the updated test and the state returned *)
Definition run_with (t : Test) : Run (World H) (Test * TestState) :=
  if TestState_eqb (state t) Disabled then Run_ret (t, Disabled)
  else if TestState_eqb (state t) InfoOnly then
    Run_bind (Run_chk (Chk_emit [EvPrint (info_line t)]))
             (fun _ => Run_ret (t, InfoOnly))
  else if String.eqb (name t) "Badword" then
    Run_bind (badword_ t) (fun t' => Run_ret (t', state t'))
  else
    match cmd t with
    | CmdList l =>
        Run_bind (runCmds_with t l) (fun t' => Run_ret (t', state t'))
    | CmdStr c =>
        Run_bind (runCmd_with t c) (fun t' => Run_ret (t', state t'))
    | CmdNone =>
        let t' := set_state Error t in Run_ret (t', state t')
    end.

End Runner.

Definition runCmd : Test -> string -> Run (World H) Test := runCmd_with check.
Definition runCmds : Test -> list string -> Run (World H) Test := runCmds_with check.
Definition Test_run : Test -> Run (World H) (Test * TestState) := run_with check badword.

End WithHost.

(* ===================================================================== *)
(** * Groups: [class TestGroup] *)
(* ===================================================================== *)

(** [all] and [any] over a list of booleans *)
Definition py_all (l : list bool) : bool := forallb (fun b => b) l.
Definition py_any (l : list bool) : bool := existsb (fun b => b) l.

(** A runnable node: a [Test], or a [TestGroup] with its fields [tests],
    [_name], [state] and [predicate]. *)
Inductive Node : Type :=
| Case (t : Test)
| Group (tests : list Node) (_name : option string) (gstate : TestState)
        (predicate : list bool -> bool).

(** [TestGroup.__init__]; the default of [predicate] is [all]. *)
Definition TestGroup_init (tests : list Node) (name : option string)
           (predicate : list bool -> bool) : Node :=
  Group tests name Waiting predicate.

(** The attributes [name], [descr] and [state] that [log_test] reads. *)
Definition node_name (n : Node) : string :=
  match n with
  | Case t => name t
  | Group tests None _ _ =>
      ("Group of " ++ PyStr.str_of_int (Z.of_nat (List.length tests)) ++ " tests")%string
  | Group _ (Some nm) _ _ => nm
  end.

Definition node_descr (n : Node) : option string :=
  match n with
  | Case t => descr t
  | Group _ _ _ _ => None
  end.

Definition node_state (n : Node) : TestState :=
  match n with
  | Case t => state t
  | Group _ _ st _ => st
  end.

(** [TestGroup.log_test] *)
Definition log_test (t : Node) (nr : nat) : Event :=
  EvLogTest nr (node_name t) (node_descr t) (node_state t).

(** The state a group takes from the results of its tests. *)
Definition group_state (predicate : list bool -> bool) (results : list TestState) : TestState :=
  if predicate (map (fun result => TestState_eqb result Success) results)
  then Success else Fail.

Section Groups.

Variable W : Type.

Section Loop.

(** [t.run()] for a node [t] of the group *)
Variable run : Node -> Run W (Node * TestState).

(** The loop of [TestGroup.run] from test number [nr] on: the updated
    tests and [results]. *)
Fixpoint run_tests (nr : nat) (ts : list Node) : Run W (list Node * list TestState) :=
  match ts with
  | [] => Run_ret ([], [])
  | t :: rest =>
      Run_bind (run t) (fun r =>
      Run_bind (Run_chk (Chk_emit [log_test (fst r) nr])) (fun _ =>
      Run_bind (run_tests (S nr) rest) (fun rr =>
      Run_ret (fst r :: fst rr, snd r :: snd rr))))
  end.

End Loop.

Variable test_run : Test -> Run W (Test * TestState).

(** [t.run()] for a node [t]: [Test.run] for a case and [TestGroup.run]
    for a group; the updated node and the state returned. *)
Fixpoint Node_run (n : Node) : Run W (Node * TestState) :=
  match n with
  | Case t =>
      Run_bind (test_run t) (fun r => Run_ret (Case (fst r), snd r))
  | Group tests nm st predicate =>
      Run_bind (run_tests Node_run O tests) (fun rr =>
        let st' := group_state predicate (snd rr) in
        Run_ret (Group (fst rr) nm st' predicate, st'))
  end.

(** [TestGroup.run] *)
Definition TestGroup_run (tests : list Node) (nm : option string)
           (predicate : list bool -> bool) : Run W (Node * TestState) :=
  Run_bind (run_tests Node_run O tests) (fun rr =>
    let st' := group_state predicate (snd rr) in
    Run_ret (Group (fst rr) nm st' predicate, st')).

End Groups.

(* ===================================================================== *)
(** * The older module [src/case.py] *)
(* ===================================================================== *)

Module Legacy.

Section WithHost.

Variable H : Host.

Local Open Scope chk_scope.

(** [Stringifier.__call__]: expectation and output are encoded, the lines
    are [bytes]. *)
Definition Stringifier_call (exp : string) (out : StreamOutput) : Res PyVal :=
  match out with
  | OutStr o =>
      Ok (VPair
            (ByteLines (PyStr.bytes_splitlines (PyStr.bytes_strip (PyStr.encode_utf8 exp))))
            (ByteLines (PyStr.bytes_splitlines (PyStr.bytes_strip (PyStr.encode_utf8 o)))))
  | OutNone | OutInt _ | OutBytes _ => Raise AttributeError
  end.

(** [exp(out)] *)
Definition call (exp : ExpectationT) (out : StreamOutput) : Res PyVal :=
  match exp with
  | ExpFunc f =>
      match f out with
      | Ok b => Ok (VBool b)
      | Raise e => Raise e
      end
  | ExpStringifier e => Stringifier_call e out
  | _ => Raise TypeError
  end.

(** The loop body of [lineComparison]: an inserted line is looked for
    under the prefix [" + "]. *)
Definition diff_line_kind (line : string) : bool * Color :=
  if PyStr.startswith line " + " then (true, Green)
  else if PyStr.startswith line "-" then (true, Red)
  else if PyStr.startswith line "@" then (true, Cyan)
  else (false, White).

(** [Test.lineComparison]: the diff runs from the expectation to the
    output. *)
Definition lineComparison (t : Test) (expLines outLines : Lines)
           (stream : string) : Chk bool :=
  let expLines := if ignoreEmptyLines t then remove_empty_lines expLines else expLines in
  let outLines := if ignoreEmptyLines t then remove_empty_lines outLines else outLines in
  a <- Chk_lift (diff_input expLines) ;;
  b <- Chk_lift (diff_input outLines) ;;
  scan_diff diff_line_kind (diff t) (unified_diff H a b stream "expectation") true.

Definition lineComparison_star (t : Test) (v : PyVal) (stream : string) : Chk bool :=
  match v with
  | VPair e o => lineComparison t e o stream
  | VBool _ => Chk_raise TypeError
  end.

(** [Test.check]: the callable test comes before the [Stringifier] test.
    The boolean is the truth value of what [check] returns. *)
Fixpoint check (t : Test) (exp : ExpectationT) (out : StreamOutput)
         (stream : string) {struct exp} : Chk bool :=
  if is_None exp then Chk_ret true
  else if callable exp || isinstance_Expectation exp then
    v <- Chk_lift (call exp out) ;; Chk_ret (truthy v)
  else if isinstance_Stringifier exp then
    v <- Chk_lift (call exp out) ;; lineComparison_star t v stream
  else if isinstance_int exp && out_is_int out then
    Chk_ret (exp_eq_out exp out)
  else
    match exp with
    | ExpList lst =>
        (fix checkList (lst : list ExpectationT) : Chk bool :=
           match lst with
           | [] => Chk_ret true
           | e :: rest =>
               ok <- check t e out "returnCode" ;;
               if ok then checkList rest else Chk_ret false
           end) lst
    | ExpSet st =>
        (fix checkSet (st : list ExpectationT) : Chk bool :=
           match st with
           | [] => Chk_ret false
           | e :: rest =>
               ok <- check t e out "returnCode" ;;
               if ok then Chk_ret true else checkSet rest
           end) st
    | ExpBytes _ => Chk_ret (exp_eq_out exp out)
    | ExpStr s =>
        if PyStr.startswith s "lambda" then
          f <- Chk_lift (py_eval H s) ;; Chk_lift (f out)
        else if PyStr.startswith s "regex:" then
          patCode <- Chk_lift
            (re_compile H (PyStr.replace "$n" (linesep t) (str_drop 6 s)) true) ;;
          Chk_ret (re_match H patCode (py_str out))
        else
          let expLines := PyStr.splitlines (PyStr.replace "$n" (linesep t) s) in
          let outLines := PyStr.splitlines (PyStr.rstrip (py_str out)) in
          lineComparison t (TextLines expLines) (TextLines outLines) stream
    | _ => Chk_ret false
    end.

(** [Test.checkList] *)
Fixpoint checkList (t : Test) (lst : list ExpectationT) (out : StreamOutput) : Chk bool :=
  match lst with
  | [] => Chk_ret true
  | e :: rest =>
      ok <- check t e out "returnCode" ;;
      if ok then checkList t rest out else Chk_ret false
  end.

(** [Test.checkSet] *)
Fixpoint checkSet (t : Test) (st : list ExpectationT) (out : StreamOutput) : Chk bool :=
  match st with
  | [] => Chk_ret false
  | e :: rest =>
      ok <- check t e out "returnCode" ;;
      if ok then Chk_ret true else checkSet t rest out
  end.

(** The files that the walk selects: every file under [searchpath] whose
    name the pattern matches. *)
Definition walk_files (w : World H) (searchpath : string)
           (searchpattern : regex H) : list string :=
  flat_map (fun entry =>
              map (path_join H (fst entry))
                  (filter (re_match H searchpattern) (snd entry)))
           (os_walk H w searchpath).

(** The bad word branch of [Test.run] in [src/case.py] *)
Definition badword (t : Test) : Run (World H) Test :=
  fun w =>
    items <- Chk_lift (cmd_items (cmd t)) ;;
    words <- Chk_lift (compile_words H items) ;;
    dut <- Chk_lift (not_None (DUT t)) ;;
    let searchpath := abs_dirname H dut in
    pattern <- Chk_lift (not_None (descr t)) ;;
    searchpattern <- Chk_lift (re_compile H pattern false) ;;
    hits <- Chk_lift (files_hits H w words (walk_files w searchpath searchpattern)) ;;
    t' <- badword_verdict t hits ;;
    Chk_ret (t', w).

Definition runCmd : Test -> string -> Run (World H) Test := runCmd_with H check.
Definition Test_run : Test -> Run (World H) (Test * TestState) := run_with H check badword.

End WithHost.

End Legacy.

(* ===================================================================== *)
(** * Notions used in the statements *)
(* ===================================================================== *)

(** Every event of a computation satisfies [Q]. *)
Definition all_events {A} (Q : Event -> Prop) (m : Chk A) : Prop :=
  Forall Q (events m).

(** The line of a diff, which is all a check writes. *)
Definition is_log (ev : Event) : Prop :=
  match ev with EvLog _ _ => True | _ => False end.

(** The line logged for a bad word hit, which is all the bad word search
    writes. *)
Definition is_hit (ev : Event) : Prop :=
  match ev with EvLogHit _ _ _ _ => True | _ => False end.

(** Anything but a [print], which only an [InfoOnly] test does. *)
Definition not_print (ev : Event) : Prop :=
  match ev with EvPrint _ => False | _ => True end.

(** The states that a run of a command line can leave. *)
Definition post_run (s : TestState) : Prop :=
  s = Success \/ s = Fail \/ s = Error \/ s = Assertion \/ s = SegFault \/ s = Timeout.

(** The command line that [runCmd] hands to the shell and the capture
    mode; [None] when [$DUT] is asked for and no DUT is set. *)
Definition command_line (t : Test) (command : string) : option (string * bool) :=
  if PyStr.contains "$DUT" command then
    match DUT t with
    | Some dut => Some (PyStr.replace "$DUT" dut command, binary t)
    | None => None
    end
  else Some (command, false).

(** A list with an element *)
Definition nonempty {A} (l : list A) : bool :=
  match l with [] => false | _ :: _ => true end.

(** The members of [TestState] as the specification lists them. *)
Definition spec_TestStates : list TestState :=
  [Waiting; Disabled; InfoOnly; Success; Fail; Error; Assertion; SegFault; Timeout].

(** The lines of every file of a list, as [open(fname).readlines()] gives
    them. *)
Fixpoint read_all (H : Host) (w : World H) (files : list string) : Res (list (list string)) :=
  match files with
  | [] => Ok []
  | fname :: rest =>
      match readlines H w fname with
      | Raise e => Raise e
      | Ok lines =>
          match read_all H w rest with
          | Raise e => Raise e
          | Ok ls => Ok (lines :: ls)
          end
      end
  end.

(** Some word is found in some line of some file. *)
Definition has_match (H : Host) (words : list (string * regex H))
           (contents : list (list string)) : bool :=
  existsb (fun lines =>
             existsb (fun line =>
                        existsb (fun word => re_search H (snd word) line) words)
                     lines)
          contents.

(** The tests of a group are run one after the other, in the order of the
    list; after each run the test is logged under its number, with the
    state it has then.  [log] is all that is logged, [tests'] are the
    tests after their runs and [results] what the runs returned. *)
Inductive runs_in_order (W : Type) (run : Node -> Run W (Node * TestState))
  : nat -> list Node -> W -> list Event -> list Node -> list TestState -> W -> Prop :=
| runs_nil : forall nr w, runs_in_order run nr [] w [] [] [] w
| runs_cons : forall nr t ts w l1 t' r w1 l2 ts' rs w2,
    run t w = (l1, Ok ((t', r), w1)) ->
    runs_in_order run (S nr) ts w1 l2 ts' rs w2 ->
    runs_in_order run nr (t :: ts) w
                  (l1 ++ EvLogTest nr (node_name t') (node_descr t') (node_state t') :: l2)
                  (t' :: ts') (r :: rs) w2.

(* ===================================================================== *)
(** * A reference host

    A small host on which the definitions above can be evaluated.
    - Patterns are literal texts: [match] is a prefix test and [search] a
      substring test, which is what [re] does for a pattern without
      special characters (case apart).
    - [unified_diff] yields nothing for equal inputs and otherwise one hunk
      that replaces all of [a] by all of [b]; this is the output of
      [difflib] when the inputs are equal or have no line in common.
    - [eval] knows the texts used in the examples below.
    - The world is the list of what the next commands will be seen to do,
      and a directory of text files that every pattern selects. *)
(* ===================================================================== *)

Module Ref.

Definition LF : string := String (ascii_of_nat 10) EmptyString.

Definition str_of_nat (n : nat) : string := PyStr.str_of_int (Z.of_nat n).

(** [difflib._format_range_unified] *)
Definition format_range_unified (start stop : nat) : string :=
  let beginning := S start in
  let length := (stop - start)%nat in
  if Nat.eqb length 1 then str_of_nat beginning
  else
    let beginning := if Nat.eqb length 0 then Nat.pred beginning else beginning in
    (str_of_nat beginning ++ "," ++ str_of_nat length)%string.

Definition diff_lines (a b : list string) (fromfile tofile : string) : list string :=
  if list_eq_dec string_dec a b then []
  else
    ("--- " ++ fromfile ++ LF)%string
      :: ("+++ " ++ tofile ++ LF)%string
      :: ("@@ -" ++ format_range_unified 0 (List.length a)
            ++ " +" ++ format_range_unified 0 (List.length b) ++ " @@" ++ LF)%string
      :: map (String.append "-") a ++ map (String.append "+") b.

Definition eval_text (text : string) : Res (StreamOutput -> Res bool) :=
  if String.eqb text "lambda out: False" then Ok (fun _ => Ok false)
  else if String.eqb text "lambda out: True" then Ok (fun _ => Ok true)
  else Raise SyntaxError.

Record Env : Set := {
  script : list JoinView;
  files : list (string * list string)
}.

(** A command that has exited by the time the thread is joined. *)
Definition exited (out err : string) (ret : Z) : JoinView :=
  {| jv_proc := Some 4242; jv_poll := Some ret;
     jv_out := OutStr out; jv_err := OutStr err; jv_ret := ret;
     jv_children := []; jv_kill_child := true;
     jv_poll2 := Some ret; jv_kill_parent := true |}.

(** A command that still runs when the timeout has passed; [children] are
    the processes that [pgrep] finds under the shell. *)
Definition running (children : list Z) : JoinView :=
  {| jv_proc := Some 4242; jv_poll := None;
     jv_out := OutStr ""; jv_err := OutStr ""; jv_ret := 0;
     jv_children := children; jv_kill_child := true;
     jv_poll2 := None; jv_kill_parent := true |}.

Definition join (w : Env) (cmd : string) (binary : bool) (timeout : Q)
  : JoinView * Env :=
  match script w with
  | [] => (exited "" "" 0, w)
  | jv :: rest => (jv, {| script := rest; files := files w |})
  end.

Fixpoint lookup (f : string) (l : list (string * list string)) : Res (list string) :=
  match l with
  | [] => Raise OSError
  | (g, lines) :: rest => if String.eqb f g then Ok lines else lookup f rest
  end.

Definition host : Host :=
  {| win32 := false;
     os_linesep := LF;
     regex := string;
     re_compile := fun pattern _ => Ok pattern;
     re_match := fun r s => String.prefix r s;
     re_search := fun r s => PyStr.contains r s;
     unified_diff := diff_lines;
     py_eval := eval_text;
     World := Env;
     os_join := join;
     path_parent := fun _ => ".";
     path_glob := fun w _ _ => Ok (map fst (files w));
     readlines := fun w f => lookup f (files w);
     relpath := fun f => f;
     abs_dirname := fun _ => "/";
     os_walk := fun w top => [(top, map fst (files w))];
     path_join := fun _ f => f |}.

Definition world (script : list JoinView) : Env :=
  {| script := script; files := [] |}.

(** [Test(name=..., command=..., stdout=..., stderr=..., returnCode=...,
    diff=..., state=...)], the other arguments at their defaults *)
Definition args (name : string) (command : CmdT) (stdout stderr returnCode : ExpectationT)
           (diff : bool) (state : TestState) : TestArgs :=
  {| arg_DUT := None; arg_name := name; arg_description := Some "";
     arg_command := command; arg_stdout := stdout; arg_stderr := stderr;
     arg_returnCode := returnCode; arg_timeout := 5%Q;
     arg_outputOnFail := false; arg_pipe := false; arg_diff := diff;
     arg_state := state; arg_binary := false |}.

(** A directory with one source file, and the same world without any file *)
Definition tree : Env :=
  {| script := []; files := [("main.c", ["int x;"; "/* TODO remove */"; "return x;"])] |}.

(** [Test(DUT="./dut", name="Badword", description="*.c", command=["TODO"])] *)
Definition badword_case : Test :=
  Test_init host
    {| arg_DUT := Some "./dut"; arg_name := "Badword"; arg_description := Some "*.c";
       arg_command := CmdList ["TODO"]; arg_stdout := ExpNone; arg_stderr := ExpNone;
       arg_returnCode := ExpNone; arg_timeout := 5%Q;
       arg_outputOnFail := false; arg_pipe := false; arg_diff := false;
       arg_state := Waiting; arg_binary := false |}.


(** [Test(name="greeting", command="echo hullo", stdout="hello", returnCode=0)] *)
Definition greeting : Test :=
  Test_init host (args "greeting" (CmdStr "echo hullo") (ExpStr "hello") ExpNone (ExpInt 0) false Waiting).

(** [Test(diff=True)] and [Test()] *)
Definition diffing : Test := Test_init host (args "" CmdNone ExpNone ExpNone ExpNone true Waiting).
Definition plain : Test := Test_init host default_args.

(** A command run with [binary=True] that has exited: the streams are
    [bytes]. *)
Definition exited_bytes (out err : string) (ret : Z) : JoinView :=
  {| jv_proc := Some 4242; jv_poll := Some ret;
     jv_out := OutBytes out; jv_err := OutBytes err; jv_ret := ret;
     jv_children := []; jv_kill_child := true;
     jv_poll2 := Some ret; jv_kill_parent := true |}.

(** [Test(DUT="./dut", name="binary", command="$DUT", stdout="hello",
    binary=True)] *)
Definition binary_case : Test :=
  Test_init host
    {| arg_DUT := Some "./dut"; arg_name := "binary"; arg_description := Some "";
       arg_command := CmdStr "$DUT"; arg_stdout := ExpStr "hello";
       arg_stderr := ExpNone; arg_returnCode := ExpNone; arg_timeout := 5%Q;
       arg_outputOnFail := false; arg_pipe := false; arg_diff := false;
       arg_state := Waiting; arg_binary := true |}.

(** [Test(name="greeting", command="echo hullo", stdout="hello",
    returnCode=0, outputOnFail=True)] *)
Definition on_fail : Test :=
  Test_init host
    {| arg_DUT := None; arg_name := "greeting"; arg_description := Some "";
       arg_command := CmdStr "echo hullo"; arg_stdout := ExpStr "hello";
       arg_stderr := ExpNone; arg_returnCode := ExpInt 0; arg_timeout := 5%Q;
       arg_outputOnFail := true; arg_pipe := false; arg_diff := false;
       arg_state := Waiting; arg_binary := false |}.

End Ref.

(* ===================================================================== *)
(** * More of [nightmare/case.py]: the expectation classes *)
(* ===================================================================== *)

(** [class Expectation]: the base class, whose [__call__] returns [True] *)
Definition Expectation_base : ExpectationT := ExpFunc (fun _ => Ok true).

(** [class ExpectFile], for a file that holds the bytes [content]:
    [__call__] is [self.exp == out]. *)
Definition ExpectFile (content : string) : ExpectationT :=
  ExpFunc (fun out => Ok (exp_eq_out (ExpBytes content) out)).

(** [text in out]: a [TypeError] unless [out] is text *)
Definition text_in (text : string) (out : StreamOutput) : Res bool :=
  match out with
  | OutStr s => Ok (PyStr.contains text s)
  | OutNone | OutInt _ | OutBytes _ => Raise TypeError
  end.

(** [all(test(text) for text in texts)]: the tests are made in order up to
    the first that is false. *)
Fixpoint all_texts (test : string -> Res bool) (texts : list string) : Res bool :=
  match texts with
  | [] => Ok true
  | text :: rest =>
      match test text with
      | Raise e => Raise e
      | Ok false => Ok false
      | Ok true => all_texts test rest
      end
  end.

Definition Res_negb (r : Res bool) : Res bool :=
  match r with
  | Ok b => Ok (negb b)
  | Raise e => Raise e
  end.

(** [class Contains]: [all(text in out for text in self.texts)] *)
Definition Contains (texts : list string) : ExpectationT :=
  ExpFunc (fun out => all_texts (fun text => text_in text out) texts).

(** [class ContainsNot]: [all(text not in out for text in self.texts)] *)
Definition ContainsNot (texts : list string) : ExpectationT :=
  ExpFunc (fun out => all_texts (fun text => Res_negb (text_in text out)) texts).

(** [class Startswith]: [out.startswith(self.text)]; [bytes.startswith]
    refuses a [str], an [int] and [None] have no such method. *)
Definition Startswith (text : string) : ExpectationT :=
  ExpFunc (fun out =>
             match out with
             | OutStr s => Ok (PyStr.startswith s text)
             | OutBytes _ => Raise TypeError
             | OutNone | OutInt _ => Raise AttributeError
             end).

(** [int(out)].  A text or a [bytes] value is stripped of whitespace and
    must then be an optional sign and decimal digits, with single
    underscores allowed between digits. *)
Definition is_digit (c : ascii) : bool :=
  Nat.leb 48 (PyStr.code c) && Nat.leb (PyStr.code c) 57.

Definition digit_value (c : ascii) : Z := Z.of_nat (PyStr.code c - 48).

Fixpoint digits_value (acc : Z) (after_digit : bool) (s : string) : option Z :=
  match s with
  | EmptyString => if after_digit then Some acc else None
  | String c s' =>
      if is_digit c then digits_value (10 * acc + digit_value c) true s'
      else if Ascii.eqb c "_" && after_digit then digits_value acc false s'
      else None
  end.

Definition literal_value (s : string) : Res Z :=
  let parse (negative : bool) (digits : string) :=
    match digits_value 0 false digits with
    | Some n => Ok (if negative then - n else n)
    | None => Raise ValueError
    end in
  match s with
  | String "-" s' => parse true s'
  | String "+" s' => parse false s'
  | _ => parse false s
  end.

(** The whitespace that [int] skips around the literal of a text: the ASCII
    whitespace and, of the other code points below 256, the two that are
    spaces, NEL and the no-break space; not the separators 28 to 31, which
    [str.strip] removes. *)
Definition is_int_space : ascii -> bool :=
  PyStr.one_of [9; 10; 11; 12; 13; 32; 133; 160]%nat.

Definition py_int (out : StreamOutput) : Res Z :=
  match out with
  | OutInt n => Ok n
  | OutStr s =>
      literal_value (PyStr.rstrip_with is_int_space (PyStr.lstrip_with is_int_space s))
  | OutBytes b => literal_value (PyStr.bytes_strip b)
  | OutNone => Raise TypeError
  end.

(** [class NonZero]: [int(out) != 0] *)
Definition NonZero : ExpectationT :=
  ExpFunc (fun out =>
             match py_int out with
             | Ok n => Ok (negb (Z.eqb n 0))
             | Raise e => Raise e
             end).

(** [class Negative]: [int(out) < 0] *)
Definition Negative : ExpectationT :=
  ExpFunc (fun out =>
             match py_int out with
             | Ok n => Ok (Z.ltb n 0)
             | Raise e => Raise e
             end).

(** [Test.diff = value] *)
Definition set_diff (value : bool) (t : Test) : Test :=
  {| name := name t; descr := descr t; cmd := cmd t;
     expectStdout := expectStdout t; expectStderr := expectStderr t;
     expectRetCode := expectRetCode t; timeout := timeout t; DUT := DUT t;
     output := output t; error := error t; retCode := retCode t;
     state := state t;
     pipe := pipe t; outputOnFail := outputOnFail t; diff := value;
     linesep := linesep t; ignoreEmptyLines := ignoreEmptyLines t;
     pipeLimit := pipeLimit t; binary := binary t |}.

Section MoreCode.

Variable H : Host.

Local Open Scope chk_scope.

(** [class Regex]: the pattern is compiled by [__init__]; [__call__] is
    [self.regex.match(str(out)) != None]. *)
Definition Regex_call (r : regex H) : ExpectationT :=
  ExpFunc (fun out => Ok (re_match H r (py_str out))).

Definition Regex (pattern : string) : Res ExpectationT :=
  match re_compile H pattern true with
  | Ok r => Ok (Regex_call r)
  | Raise e => Raise e
  end.

(* --------------------------------------------------------------------- *)
(** ** [class BadWord] *)

(** The attributes that [BadWord.__init__] sets, and [DUT], which it does
    not set: [None] here when the object has no such attribute. *)
Record BadWordT : Set := {
  bw_name : string;
  bw_descr : string;
  bw_pattern : string;
  bw_path : option string;
  bw_words : list string;
  bw_DUT : option string
}.

(** [BadWord.__init__]; the defaults are [description=""], [path=None],
    [pattern=""] and [words=[]]. *)
Definition BadWord_init (name description : string) (path : option string)
           (pattern : string) (words : list string) : BadWordT :=
  {| bw_name := name; bw_descr := description; bw_pattern := pattern;
     bw_path := path; bw_words := words; bw_DUT := None |}.

(** [self.path = value] *)
Definition set_path (value : option string) (b : BadWordT) : BadWordT :=
  {| bw_name := bw_name b; bw_descr := bw_descr b; bw_pattern := bw_pattern b;
     bw_path := value; bw_words := bw_words b; bw_DUT := bw_DUT b |}.

(** The choice of the directory in [BadWord.run]: [pathlib.Path(None)] is
    a [TypeError]. *)
Definition BadWord_searchpath (b : BadWordT) : Res string :=
  match bw_path b with
  | None => Raise TypeError
  | Some _ =>
      match bw_DUT b with
      | Some dut => Ok (path_parent H dut)
      | None => Ok "."
      end
  end.

(** [BadWord.run]: the state that it sets and returns *)
Definition BadWord_run (b : BadWordT) : Run (World H) TestState :=
  fun w =>
    words <- Chk_lift (compile_words H (bw_words b)) ;;
    searchpath <- Chk_lift (BadWord_searchpath b) ;;
    files <- Chk_lift (path_glob H w searchpath (bw_pattern b)) ;;
    hits <- Chk_lift (files_hits H w words files) ;;
    if Nat.ltb 0 (List.length hits) then
      Chk_emit (map log_hit hits) ;;; Chk_ret (BadWord, w)
    else Chk_ret (Clean, w).

End MoreCode.

(* --------------------------------------------------------------------- *)
(** ** The attribute [cmd] of a node *)

(** [sep.join(items)] *)
Fixpoint join (sep : string) (items : list string) : string :=
  match items with
  | [] => EmptyString
  | [x] => x
  | x :: rest => x ++ sep ++ join sep rest
  end.

(** [t.cmd]: the field of a case, the property of a group, which is
    [" --> ".join(t.cmd for t in self.tests)]; [join] raises [TypeError]
    on an item that is not a [str]. *)
Fixpoint node_cmd (n : Node) : Res CmdT :=
  match n with
  | Case t => Ok (cmd t)
  | Group tests _ _ _ =>
      match
        (fix items (ts : list Node) : Res (list string) :=
           match ts with
           | [] => Ok []
           | t :: rest =>
               match node_cmd t with
               | Ok (CmdStr c) =>
                   match items rest with
                   | Ok cs => Ok (c :: cs)
                   | Raise e => Raise e
                   end
               | Ok _ => Raise TypeError
               | Raise e => Raise e
               end
           end) tests
      with
      | Ok cs => Ok (CmdStr (join " --> " cs))
      | Raise e => Raise e
      end
  end.

(** The items that the [join] of a group is given. *)
Fixpoint cmd_strings (ts : list Node) : Res (list string) :=
  match ts with
  | [] => Ok []
  | t :: rest =>
      match node_cmd t with
      | Ok (CmdStr c) =>
          match cmd_strings rest with
          | Ok cs => Ok (c :: cs)
          | Raise e => Raise e
          end
      | Ok _ => Raise TypeError
      | Raise e => Raise e
      end
  end.

(* ===================================================================== *)
(** * [src/pyTestGui/testGrid.py]: the rows and the scrolling of the grid *)
(* ===================================================================== *)

Module Grid.

(** [class TestRow]: the test of the row, the two colours and the
    variable of the check button.

    Modelled from the spec: the [TestState] that the file imports from
    [pyTestCore.testState], a module that is not in the sources; it is
    taken to be the enumeration of [case.py], of which the file names
    [Success], [Fail], [Error], [Waiting] and [Disabled]. *)
Record TestRow : Type := {
  row_test : Test;
  row_bgcol : string;
  row_fgcol : string;
  row_state : bool
}.

(** [TestRow.setColor]: a state without a branch keeps the colours. *)
Definition setColor (r : TestRow) : TestRow :=
  let colours :=
    if TestState_eqb (state (row_test r)) Success then ("#0D0", "#000")
    else if TestState_eqb (state (row_test r)) Fail then ("#D00", "#FFF")
    else if TestState_eqb (state (row_test r)) Error then ("#DD0", "#000")
    else if TestState_eqb (state (row_test r)) Waiting then ("#FFF", "#000")
    else if TestState_eqb (state (row_test r)) Disabled then ("#FFF", "#888")
    else (row_bgcol r, row_fgcol r) in
  {| row_test := row_test r; row_bgcol := fst colours; row_fgcol := snd colours;
     row_state := row_state r |}.

(** [TestRow.__init__] *)
Definition TestRow_init (test : Test) : TestRow :=
  setColor {| row_test := test; row_bgcol := "#FFF"; row_fgcol := "#000";
              row_state := false |}.



(** [class TestGrid]: the rows, the window [_visible] and the rows that
    are packed, that is shown, from top to bottom. *)
Record TestGrid (A : Type) : Type := {
  rows : list A;
  visible : Z * Z;
  packed : list A
}.
Arguments rows {A} t.
Arguments visible {A} t.
Arguments packed {A} t.

Section Scrolling.

Variable A : Type.

(** [TestGrid.__init__] *)
Definition TestGrid_init : TestGrid A :=
  {| rows := []; visible := (0, 9); packed := [] |}.

(** [l[i]]: a negative index counts from the end; [None] stands for
    [IndexError]. *)
Definition getitem (l : list A) (i : Z) : option A :=
  let n := Z.of_nat (List.length l) in
  if (i <? - n) || (n <=? i) then None
  else nth_error l (Z.to_nat (if i <? 0 then i + n else i)).

(** [range(a, b)] *)
Definition range (a b : Z) : list Z :=
  map (fun k => a + Z.of_nat k) (seq 0 (Z.to_nat (b - a))).

Fixpoint getitems (l : list A) (indices : list Z) : option (list A) :=
  match indices with
  | [] => Some []
  | i :: rest =>
      match getitem l i with
      | None => None
      | Some x =>
          match getitems l rest with
          | None => None
          | Some xs => Some (x :: xs)
          end
      end
  end.

(** [TestGrid.scroll]: every row is unpacked and the rows of the window
    are packed; [None] when an index is out of range. *)
Definition scroll (g : TestGrid A) : option (TestGrid A) :=
  let (lower, upper) := visible g in
  let len := Z.of_nat (List.length (rows g)) in
  let upper := if upper >? len then len - 1 else upper in
  match getitems (rows g) (range lower (upper + 1)) with
  | None => None
  | Some shown => Some {| rows := rows g; visible := visible g; packed := shown |}
  end.

(** [TestGrid.scrollUp] *)
Definition scrollUp (g : TestGrid A) : option (TestGrid A) :=
  let (lower, upper) := visible g in
  if upper <? Z.of_nat (List.length (rows g)) - 1 then
    scroll {| rows := rows g; visible := (lower + 1, upper + 1); packed := packed g |}
  else Some g.

(** [TestGrid.scrollDown] *)
Definition scrollDown (g : TestGrid A) : option (TestGrid A) :=
  let (lower, upper) := visible g in
  if lower >? 0 then
    scroll {| rows := rows g; visible := (lower - 1, upper - 1); packed := packed g |}
  else Some g.

(** [TestGrid.addRow], for the row made of the test *)
Definition addRow (row : A) (g : TestGrid A) : TestGrid A :=
  {| rows := rows g ++ [row]; visible := visible g; packed := packed g |}.

(** [TestGrid.clear]: the rows are unpacked and destroyed; [_visible] is
    left as it is. *)
Definition clear (g : TestGrid A) : TestGrid A :=
  {| rows := []; visible := visible g; packed := [] |}.

(** What the buttons and [addRow] can do to a grid. *)
Inductive step : TestGrid A -> TestGrid A -> Prop :=
| step_up : forall g g', scrollUp g = Some g' -> step g g'
| step_down : forall g g', scrollDown g = Some g' -> step g g'
| step_add : forall g row, step g (addRow row g).

Inductive reachable : TestGrid A -> Prop :=
| reach_init : reachable TestGrid_init
| reach_step : forall g g', reachable g -> step g g' -> reachable g'.

End Scrolling.

End Grid.

(* ===================================================================== *)
(** * Further notions used in the statements *)
(* ===================================================================== *)

(** [difflib.unified_diff] yields no line for equal inputs, and for
    different inputs its first line is the header of the first file. *)
Definition diff_empty_on_equal (H : Host) : Prop :=
  forall a fromfile tofile, unified_diff H a a fromfile tofile = [].

Definition diff_header_on_unequal (H : Host) : Prop :=
  forall a b fromfile tofile,
    a <> b ->
    exists rest,
      unified_diff H a b fromfile tofile
      = ("--- " ++ fromfile ++ String (ascii_of_nat 10) EmptyString)%string :: rest.

(** The lines that [lineComparison] compares. *)
Definition compared_lines (t : Test) (l : list string) : list string :=
  if ignoreEmptyLines t
  then filter (fun line => negb (String.eqb line EmptyString)) l
  else l.

(** The sum of the lengths of lines *)
Definition total_length (lines : list string) : Z :=
  fold_right (fun line n => Z.of_nat (String.length line) + n) 0 lines.

(** The cases of a node, from left to right *)
Fixpoint cases (n : Node) : list Test :=
  match n with
  | Case t => [t]
  | Group tests _ _ _ =>
      (fix all (ts : list Node) : list Test :=
         match ts with
         | [] => []
         | t :: rest => cases t ++ all rest
         end) tests
  end.

(** What the echo at the end of [runCmd] writes to [sys.stdout] and
    [sys.stderr]. *)
Definition is_write (ev : Event) : bool :=
  match ev with
  | EvWrite _ _ _ | EvStopped _ _ => true
  | _ => false
  end.

(** The states of a command line that was started and has run to its
    end. *)
Definition ran_to_end (s : TestState) : bool :=
  negb (TestState_eqb s Timeout || TestState_eqb s Error).

(** Two tests that differ at most in what a run of a command writes:
    [output], [error], [retCode] and [state]. *)
Definition same_setup (t1 t2 : Test) : Prop :=
  set_state Waiting (set_captured OutNone OutNone 0 t1)
  = set_state Waiting (set_captured OutNone OutNone 0 t2).

(** What a caller of [run] sees of a run of command lines: the state and
    the world it leaves. *)
Definition verdict {W} (r : Res (Test * W)) : Res (TestState * W) :=
  match r with
  | Ok (t, w) => Ok (state t, w)
  | Raise e => Raise e
  end.

(** [Test(name="file", command="echo hello", stdout=ExpectFile(f))] for a
    file [f] that holds the line [hello] *)
Definition file_case : Test :=
  Test_init Ref.host
    (Ref.args "file" (CmdStr "echo hello") (ExpectFile ("hello" ++ Ref.LF)) ExpNone ExpNone
              false Waiting).

(** The event of writing one line of captured output *)
Definition write_line (stream : Stream) (color : Color) (line : string) : Event :=
  EvWrite stream color (line ++ " ").

(** A command that is one command line, a [str] *)
Definition is_CmdStr (c : CmdT) : bool :=
  match c with CmdStr _ => true | _ => false end.

(** The ten rows of the window that starts at row number [lower] *)
Definition window {A} (rows : list A) (lower : Z) : list A :=
  firstn 10 (skipn (Z.to_nat lower) rows).

(** What holds of every grid that [addRow] and the two buttons lead to:
    the window spans ten row numbers from zero or above; either no scroll
    has packed anything yet, and the window is where it was at first, or
    the rows packed are the ten rows of the window. *)
Definition grid_invariant {A} (g : Grid.TestGrid A) : Prop :=
  exists lower,
    Grid.visible g = (lower, lower + 9) /\ 0 <= lower /\
    ((lower = 0 /\ Grid.packed g = [])
     \/ (lower + 9 < Z.of_nat (List.length (Grid.rows g)) /\
         Grid.packed g = window (Grid.rows g) lower)).

(** A grid after [addRow] for each row of a list *)
Definition addRows {A} (l : list A) (g : Grid.TestGrid A) : Grid.TestGrid A :=
  fold_left (fun g row => Grid.addRow row g) l g.

(* ===================================================================== *)
(** * Basic facts *)
(* ===================================================================== *)

Lemma TestState_eqb_eq (a b : TestState) : TestState_eqb a b = true <-> a = b.
Proof.
  split.
  - destruct a, b; unfold TestState_eqb; simpl; intro E; try reflexivity; discriminate E.
  - intros ->. unfold TestState_eqb. apply Z.eqb_refl.
Qed.

Lemma TestState_eqb_refl (a : TestState) : TestState_eqb a a = true.
Proof. apply TestState_eqb_eq. reflexivity. Qed.

Lemma TestState_eqb_neq (a b : TestState) : TestState_eqb a b = false <-> a <> b.
Proof.
  split.
  - intros E ->. rewrite TestState_eqb_refl in E. discriminate.
  - intro N. destruct (TestState_eqb a b) eqn:E; [|reflexivity].
    apply TestState_eqb_eq in E. contradiction.
Qed.

(** ** Inversion of computations *)

Lemma Chk_bind_result_Ok {A B} (m : Chk A) (f : A -> Chk B) (b : B) :
  result (Chk_bind m f) = Ok b ->
  exists a, result m = Ok a /\ result (f a) = Ok b.
Proof.
  destruct m as [l [a|e]]; simpl.
  - destruct (f a) as [l2 r] eqn:E. simpl. intros ->. exists a. rewrite E. auto.
  - discriminate.
Qed.

Lemma Chk_bind_Ok {A B} (m : Chk A) (f : A -> Chk B) (l : list Event) (b : B) :
  Chk_bind m f = (l, Ok b) ->
  exists l1 a l2, m = (l1, Ok a) /\ f a = (l2, Ok b) /\ l = l1 ++ l2.
Proof.
  destruct m as [l1 [a|e]]; simpl.
  - destruct (f a) as [l2 r] eqn:E. intros [= <- ->]. exists l1, a, l2. auto.
  - discriminate.
Qed.

Lemma Chk_bind_ok {A B} l (a : A) (f : A -> Chk B) :
  Chk_bind (l, Ok a) f = (let (l2, r) := f a in (l ++ l2, r)).
Proof. reflexivity. Qed.

Lemma Chk_bind_raised {A B} l e (f : A -> Chk B) :
  Chk_bind (l, Raise e) f = (l, Raise e).
Proof. reflexivity. Qed.

Lemma Chk_bind_ret {A B} (a : A) (f : A -> Chk B) : Chk_bind (Chk_ret a) f = f a.
Proof. unfold Chk_bind, Chk_ret. destruct (f a). reflexivity. Qed.

Lemma Chk_bind_lift_ok {A B} (a : A) (f : A -> Chk B) :
  Chk_bind (Chk_lift (Ok a)) f = f a.
Proof. unfold Chk_bind, Chk_lift. destruct (f a). reflexivity. Qed.

Lemma Chk_bind_lift_raise {A B} e (f : A -> Chk B) :
  Chk_bind (Chk_lift (Raise e)) f = ([], Raise e).
Proof. reflexivity. Qed.

Lemma Chk_bind_emit {B} l (f : unit -> Chk B) :
  Chk_bind (Chk_emit l) f = (let (l2, r) := f tt in (l ++ l2, r)).
Proof. reflexivity. Qed.

Lemma Chk_bind_raise {A B} e (f : A -> Chk B) :
  Chk_bind (Chk_raise e) f = ([], Raise e).
Proof. reflexivity. Qed.

Arguments Chk_bind : simpl never.

(** ** The loops of [check] are [checkList] and [checkSet] *)

Lemma check_ExpList (H : Host) t lst out stream :
  check H t (ExpList lst) out stream = checkList H t lst out.
Proof.
  induction lst as [|e rest IH]; [reflexivity|].
  simpl in *. destruct (check H t e out "returnCode") as [l [[|]|x]];
    rewrite ?Chk_bind_ok, ?Chk_bind_raised; try reflexivity.
  rewrite IH. reflexivity.
Qed.

Lemma check_ExpSet (H : Host) t st out stream :
  check H t (ExpSet st) out stream = checkSet H t st out.
Proof.
  induction st as [|e rest IH]; [reflexivity|].
  simpl in *. destruct (check H t e out "returnCode") as [l [[|]|x]];
    rewrite ?Chk_bind_ok, ?Chk_bind_raised; try reflexivity.
  rewrite IH. reflexivity.
Qed.

Lemma Legacy_check_ExpList (H : Host) t lst out stream :
  Legacy.check H t (ExpList lst) out stream = Legacy.checkList H t lst out.
Proof.
  induction lst as [|e rest IH]; [reflexivity|].
  simpl in *. destruct (Legacy.check H t e out "returnCode") as [l [[|]|x]];
    rewrite ?Chk_bind_ok, ?Chk_bind_raised; try reflexivity.
  rewrite IH. reflexivity.
Qed.

Lemma Legacy_check_ExpSet (H : Host) t st out stream :
  Legacy.check H t (ExpSet st) out stream = Legacy.checkSet H t st out.
Proof.
  induction st as [|e rest IH]; [reflexivity|].
  simpl in *. destruct (Legacy.check H t e out "returnCode") as [l [[|]|x]];
    rewrite ?Chk_bind_ok, ?Chk_bind_raised; try reflexivity.
  rewrite IH. reflexivity.
Qed.

Lemma failure_state_post_run err ret st :
  failure_state err ret = Ok st -> st = Assertion \/ st = SegFault \/ st = Fail.
Proof.
  destruct err as [|e| |]; simpl; try discriminate.
  intros [= <-].
  destruct (_ || _); [auto|]. destruct (_ || _); auto.
Qed.

Lemma execute_joined_state (H : Host) jv st :
  result (execute_joined H jv) = Ok st -> st = Success \/ st = Timeout.
Proof.
  unfold execute_joined.
  destruct (jv_proc jv) as [pid|]; [destruct (jv_poll jv)|]; simpl;
    try (intros [= <-]; auto).
  intro E. apply Chk_bind_result_Ok in E. destruct E as (_ & _ & E).
  inversion E. auto.
Qed.

Lemma Command_execute_state (H : Host) c q w st c' w' :
  result (Command_execute H c q w) = Ok ((st, c'), w') ->
  st = Success \/ st = Timeout.
Proof.
  unfold Command_execute. destruct (os_join H w (c_cmd c) (c_binary c) q) as [jv w1].
  intro E. apply Chk_bind_result_Ok in E. destruct E as (_ & _ & E).
  apply Chk_bind_result_Ok in E. destruct E as (st0 & E1 & E2).
  inversion E2; subst. eapply execute_joined_state; eauto.
Qed.

Section RunnerFacts.

Variable H : Host.
Variable check_ : Test -> ExpectationT -> StreamOutput -> string -> Chk bool.

Lemma runCmd_command_state t c w t' w' :
  result (runCmd_command H check_ t c w) = Ok (t', w') -> post_run (state t').
Proof.
  unfold runCmd_command. intro E.
  apply Chk_bind_result_Ok in E. destruct E as ([[st c'] w1] & E1 & E).
  apply Command_execute_state in E1.
  destruct E1 as [-> | ->]; simpl in E.
  - apply Chk_bind_result_Ok in E. destruct E as (ok & _ & E).
    apply Chk_bind_result_Ok in E. destruct E as (st & Est & E).
    apply Chk_bind_result_Ok in E. destruct E as (_ & _ & E).
    inversion E; subst; simpl. unfold post_run.
    destruct ok.
    + inversion Est. auto.
    + simpl in Est. apply failure_state_post_run in Est. intuition.
  - inversion E; subst; simpl. unfold post_run. auto 10.
Qed.

Lemma runCmd_with_state t command w t' w' :
  result (runCmd_with H check_ t command w) = Ok (t', w') -> post_run (state t').
Proof.
  unfold runCmd_with.
  destruct (PyStr.contains "$DUT" command).
  - destruct (DUT t).
    + apply runCmd_command_state.
    + simpl. intros [= <- <-]. simpl. unfold post_run. auto 10.
  - apply runCmd_command_state.
Qed.

Lemma runCmds_with_state l : forall t w t' w',
  result (runCmds_with H check_ t l w) = Ok (t', w') ->
  (l = [] /\ t' = t) \/ post_run (state t').
Proof.
  induction l as [|c rest IH]; intros t w t' w' E.
  - left. simpl in E. inversion E. auto.
  - right. simpl in E. unfold Run_bind in E.
    apply Chk_bind_result_Ok in E. destruct E as ([t1 w1] & E1 & E). simpl in E.
    apply runCmd_with_state in E1.
    apply IH in E. destruct E as [[-> ->] | E]; assumption.
Qed.

End RunnerFacts.

(** ** Which events a computation can produce *)

Lemma all_events_bind {A B} (Q : Event -> Prop) (m : Chk A) (f : A -> Chk B) :
  all_events Q m -> (forall a, all_events Q (f a)) -> all_events Q (Chk_bind m f).
Proof.
  unfold all_events, Chk_bind. destruct m as [l1 [a|e]]; simpl; intros Hm Hf; [|exact Hm].
  specialize (Hf a). destruct (f a) as [l2 r]. simpl in *.
  apply Forall_app. split; assumption.
Qed.

Lemma all_events_ret {A} (Q : Event -> Prop) (a : A) : all_events Q (Chk_ret a).
Proof. constructor. Qed.

Lemma all_events_lift {A} (Q : Event -> Prop) (r : Res A) : all_events Q (Chk_lift r).
Proof. constructor. Qed.

Lemma all_events_raise {A} (Q : Event -> Prop) e : all_events Q (@Chk_raise A e).
Proof. constructor. Qed.

Lemma all_events_emit (Q : Event -> Prop) l : Forall Q l -> all_events Q (Chk_emit l).
Proof. intro F. exact F. Qed.

Lemma all_events_if {A} (Q : Event -> Prop) (b : bool) (m1 m2 : Chk A) :
  all_events Q m1 -> all_events Q m2 -> all_events Q (if b then m1 else m2).
Proof. destruct b; auto. Qed.

Create HintDb evs.
#[local] Hint Resolve all_events_ret all_events_lift all_events_raise : evs.

(** Nested induction over expectations. *)
Section ExpectationT_nested.

Variable P : ExpectationT -> Prop.
Hypothesis PNone : P ExpNone.
Hypothesis PStringifier : forall e, P (ExpStringifier e).
Hypothesis PFunc : forall f, P (ExpFunc f).
Hypothesis PInt : forall n, P (ExpInt n).
Hypothesis PList : forall l, Forall P l -> P (ExpList l).
Hypothesis PSet : forall l, Forall P l -> P (ExpSet l).
Hypothesis PBytes : forall b, P (ExpBytes b).
Hypothesis PStr : forall s, P (ExpStr s).
Hypothesis POther : P ExpOther.

Fixpoint ExpectationT_nested_ind (e : ExpectationT) : P e :=
  match e with
  | ExpNone => PNone
  | ExpStringifier x => PStringifier x
  | ExpFunc f => PFunc f
  | ExpInt n => PInt n
  | ExpList l =>
      PList ((fix all (l : list ExpectationT) : Forall P l :=
                match l with
                | [] => Forall_nil P
                | x :: r => Forall_cons x (ExpectationT_nested_ind x) (all r)
                end) l)
  | ExpSet l =>
      PSet ((fix all (l : list ExpectationT) : Forall P l :=
               match l with
               | [] => Forall_nil P
               | x :: r => Forall_cons x (ExpectationT_nested_ind x) (all r)
               end) l)
  | ExpBytes b => PBytes b
  | ExpStr s => PStr s
  | ExpOther => POther
  end.

End ExpectationT_nested.

Lemma scan_diff_log kind show lines : forall same,
  all_events is_log (scan_diff kind show lines same).
Proof.
  induction lines as [|line rest IH]; intro same; simpl; [constructor|].
  destruct (kind line) as [changed col].
  apply all_events_bind; [|intros _; apply IH].
  destruct show; [|constructor]. apply all_events_emit. repeat constructor.
Qed.

Lemma lineComparison_log (H : Host) t e o stream :
  all_events is_log (lineComparison H t e o stream).
Proof.
  unfold lineComparison.
  apply all_events_bind; [auto with evs|intro a].
  apply all_events_bind; [auto with evs|intro b].
  apply scan_diff_log.
Qed.

Lemma Legacy_lineComparison_log (H : Host) t e o stream :
  all_events is_log (Legacy.lineComparison H t e o stream).
Proof.
  unfold Legacy.lineComparison.
  apply all_events_bind; [auto with evs|intro a].
  apply all_events_bind; [auto with evs|intro b].
  apply scan_diff_log.
Qed.

Lemma check_log (H : Host) t exp : forall out stream,
  all_events is_log (check H t exp out stream).
Proof.
  induction exp using ExpectationT_nested_ind; intros out stream;
    try (simpl; auto with evs; fail).
  - simpl. apply all_events_bind; [auto with evs|intros [b|e1 o1]]; simpl;
      [auto with evs|apply lineComparison_log].
  - simpl. apply all_events_bind; auto with evs.
  - simpl. destruct (out_is_int out); auto with evs.
  - rewrite check_ExpList. induction H0 as [|x r Hx Hr IH]; simpl; [auto with evs|].
    apply all_events_bind; [apply Hx|intros [|]; auto with evs].
  - rewrite check_ExpSet. induction H0 as [|x r Hx Hr IH]; simpl; [auto with evs|].
    apply all_events_bind; [apply Hx|intros [|]; auto with evs].
  - simpl. destruct (PyStr.startswith s "lambda").
    + apply all_events_bind; auto with evs.
    + destruct (PyStr.startswith s "regex:").
      * apply all_events_bind; auto with evs.
      * apply lineComparison_log.
Qed.

Lemma Legacy_check_log (H : Host) t exp : forall out stream,
  all_events is_log (Legacy.check H t exp out stream).
Proof.
  induction exp using ExpectationT_nested_ind; intros out stream;
    try (simpl; auto with evs; fail).
  - simpl. apply all_events_bind; auto with evs.
  - simpl. apply all_events_bind; auto with evs.
  - simpl. destruct (out_is_int out); auto with evs.
  - rewrite Legacy_check_ExpList. induction H0 as [|x r Hx Hr IH]; simpl; [auto with evs|].
    apply all_events_bind; [apply Hx|intros [|]; auto with evs].
  - rewrite Legacy_check_ExpSet. induction H0 as [|x r Hx Hr IH]; simpl; [auto with evs|].
    apply all_events_bind; [apply Hx|intros [|]; auto with evs].
  - simpl. destruct (PyStr.startswith s "lambda").
    + apply all_events_bind; auto with evs.
    + destruct (PyStr.startswith s "regex:").
      * apply all_events_bind; auto with evs.
      * apply Legacy_lineComparison_log.
Qed.

Lemma all_events_impl {A} (Q Q' : Event -> Prop) (m : Chk A) :
  (forall ev, Q ev -> Q' ev) -> all_events Q m -> all_events Q' m.
Proof. intros I F. eapply Forall_impl; eauto. Qed.

Lemma badword_verdict_hits t hits : all_events is_hit (badword_verdict t hits).
Proof.
  unfold badword_verdict. destruct (Nat.ltb 0 (List.length hits)); [|auto with evs].
  apply all_events_bind; [|auto with evs].
  apply all_events_emit. apply Forall_forall. intros ev I.
  apply in_map_iff in I. destruct I as ([[[f n] x] p] & <- & _). exact I.
Qed.

Lemma badword_hits (H : Host) t w : all_events is_hit (badword H t w).
Proof.
  unfold badword.
  repeat (apply all_events_bind; [solve [auto with evs]|intro]).
  apply all_events_bind; [apply badword_verdict_hits|auto with evs].
Qed.

Lemma Legacy_badword_hits (H : Host) t w : all_events is_hit (Legacy.badword H t w).
Proof.
  unfold Legacy.badword.
  repeat (apply all_events_bind; [solve [auto with evs]|intro]).
  apply all_events_bind; [apply badword_verdict_hits|auto with evs].
Qed.

Lemma execute_joined_not_print (H : Host) jv : all_events not_print (execute_joined H jv).
Proof.
  unfold execute_joined.
  destruct (jv_proc jv) as [pid|]; [destruct (jv_poll jv)|]; auto with evs.
  apply all_events_bind; [|auto with evs].
  unfold kill_running. destruct (win32 H).
  - apply all_events_emit. repeat constructor.
  - apply all_events_bind; [apply all_events_emit; repeat constructor|intros _].
    apply all_events_bind; [auto with evs|intro c].
    assert (K : forall p s b, all_events not_print (os_kill p s b)).
    { intros p s b. unfold os_kill. apply all_events_bind.
      - apply all_events_emit. repeat constructor.
      - intros _. destruct b; auto with evs. }
    apply all_events_bind; [apply K|intros _].
    destruct (jv_poll2 jv); [auto with evs|apply K].
Qed.

Lemma Command_execute_not_print (H : Host) c q w :
  all_events not_print (Command_execute H c q w).
Proof.
  unfold Command_execute. destruct (os_join H w (c_cmd c) (c_binary c) q) as [jv w'].
  apply all_events_bind; [apply all_events_emit; repeat constructor|intros _].
  apply all_events_bind; [apply execute_joined_not_print|auto with evs].
Qed.

Lemma pipe_text_not_print limit stream color lines : forall bytes,
  all_events not_print (pipe_text limit stream color lines bytes).
Proof.
  induction lines as [|line rest IH]; intro bytes; simpl; [auto with evs|].
  apply all_events_bind; [apply all_events_emit; repeat constructor|intros _].
  destruct (_ >? _); [apply all_events_emit; repeat constructor|apply IH].
Qed.

Lemma pipe_streams_not_print t : all_events not_print (pipe_streams t).
Proof.
  assert (P : forall s l c, all_events not_print (pipeOutputStream t s l c)).
  { intros s [l|[|x l]] c; simpl; auto with evs. apply pipe_text_not_print. }
  unfold pipe_streams.
  apply all_events_bind; [apply all_events_emit; repeat constructor|intros _].
  apply all_events_bind; [auto with evs|intro ol].
  apply all_events_bind; [apply P|intros _].
  apply all_events_bind; [auto with evs|intro el]. apply P.
Qed.

Section RunnerEvents.

Variable H : Host.
Variable check_ : Test -> ExpectationT -> StreamOutput -> string -> Chk bool.
Variable badword_ : Test -> Run (World H) Test.
Hypothesis check_logs : forall t exp out stream, all_events is_log (check_ t exp out stream).
Hypothesis badword_logs : forall t w, all_events is_hit (badword_ t w).

Lemma checks_pass_not_print t : all_events not_print (checks_pass check_ t).
Proof.
  assert (C : forall t exp out stream, all_events not_print (check_ t exp out stream)).
  { intros. eapply all_events_impl; [|apply check_logs]. intros [] L; simpl in *; auto. }
  unfold checks_pass.
  apply all_events_bind; [apply C|intros [|]; [|auto with evs]].
  apply all_events_bind; [apply C|intros [|]; [|auto with evs]]. apply C.
Qed.

Lemma runCmd_command_not_print t c w :
  all_events not_print (runCmd_command H check_ t c w).
Proof.
  unfold runCmd_command.
  apply all_events_bind; [apply Command_execute_not_print|intros [[st c'] w']].
  destruct (TestState_eqb st Success); [|auto with evs].
  apply all_events_bind; [apply checks_pass_not_print|intro ok].
  apply all_events_bind; [destruct ok; auto with evs|intro st'].
  apply all_events_bind; [|auto with evs].
  apply all_events_if; [apply pipe_streams_not_print|auto with evs].
Qed.

Lemma runCmd_with_not_print t command w :
  all_events not_print (runCmd_with H check_ t command w).
Proof.
  unfold runCmd_with. destruct (PyStr.contains "$DUT" command).
  - destruct (DUT t); [apply runCmd_command_not_print|].
    unfold Run_ret. auto with evs.
  - apply runCmd_command_not_print.
Qed.

Lemma runCmds_with_not_print l : forall t w,
  all_events not_print (runCmds_with H check_ t l w).
Proof.
  induction l as [|c rest IH]; intros t w; simpl.
  - unfold Run_ret. auto with evs.
  - unfold Run_bind. apply all_events_bind; [apply runCmd_with_not_print|].
    intros [t' w']. apply IH.
Qed.

Lemma run_with_not_print t w :
  state t <> InfoOnly -> all_events not_print (run_with H check_ badword_ t w).
Proof.
  intro N. unfold run_with.
  destruct (TestState_eqb (state t) Disabled); [unfold Run_ret; auto with evs|].
  apply TestState_eqb_neq in N. rewrite N.
  destruct (String.eqb (name t) "Badword").
  - unfold Run_bind, Run_ret. apply all_events_bind; [|auto with evs].
    eapply all_events_impl; [|apply badword_logs]. intros [] L; simpl in *; auto.
  - destruct (cmd t); unfold Run_bind, Run_ret; auto with evs.
    + apply all_events_bind; [apply runCmd_with_not_print|auto with evs].
    + apply all_events_bind; [apply runCmds_with_not_print|auto with evs].
Qed.

(** The state that [run] returns, for a test that is not skipped. *)
Hypothesis badword_state : forall t w t' w',
  result (badword_ t w) = Ok (t', w') -> state t' = Clean \/ state t' = BadWord.

Lemma run_with_state t w t' s w' :
  result (run_with H check_ badword_ t w) = Ok ((t', s), w') ->
  s = state t' /\
  (state t = Disabled -> s = Disabled) /\
  (state t = InfoOnly -> s = InfoOnly) /\
  (state t <> Disabled -> state t <> InfoOnly ->
   (name t = "Badword" -> s = Clean \/ s = BadWord) /\
   (name t <> "Badword" -> post_run s \/ (cmd t = CmdList [] /\ s = state t))).
Proof.
  unfold run_with.
  destruct (TestState_eqb (state t) Disabled) eqn:D.
  { apply TestState_eqb_eq in D. unfold Run_ret. simpl. intros [= <- <- <-].
    rewrite D. repeat split; intros; auto; congruence. }
  destruct (TestState_eqb (state t) InfoOnly) eqn:I.
  { apply TestState_eqb_eq in I. unfold Run_bind, Run_ret, Run_chk. simpl.
    intros [= <- <- <-]. rewrite I. repeat split; intros; auto; congruence. }
  apply TestState_eqb_neq in D, I.
  destruct (String.eqb (name t) "Badword") eqn:B.
  { apply String.eqb_eq in B. unfold Run_bind, Run_ret. intro E.
    apply Chk_bind_result_Ok in E. destruct E as ([t1 w1] & E1 & E).
    simpl in E. inversion E; subst. apply badword_state in E1.
    repeat split; intros; auto; congruence. }
  apply String.eqb_neq in B.
  assert (G : forall s0, post_run s0 \/ (cmd t = CmdList [] /\ s0 = state t) ->
    (state t = Disabled -> s0 = Disabled) /\
    (state t = InfoOnly -> s0 = InfoOnly) /\
    (state t <> Disabled -> state t <> InfoOnly ->
     (name t = "Badword" -> s0 = Clean \/ s0 = BadWord) /\
     (name t <> "Badword" -> post_run s0 \/ (cmd t = CmdList [] /\ s0 = state t)))).
  { intros s0 P. repeat split; intros; auto; congruence. }
  destruct (cmd t) as [|c|l] eqn:C; unfold Run_bind, Run_ret.
  - simpl. intros [= <- <- <-]. split; [reflexivity|]. apply G. left.
    unfold post_run. auto.
  - intro E. apply Chk_bind_result_Ok in E. destruct E as ([t1 w1] & E1 & E).
    simpl in E. inversion E; subst. split; [reflexivity|]. apply G. left.
    eapply runCmd_with_state; eauto.
  - intro E. apply Chk_bind_result_Ok in E. destruct E as ([t1 w1] & E1 & E).
    simpl in E. inversion E; subst. split; [reflexivity|]. apply G.
    apply runCmds_with_state in E1. destruct E1 as [[-> ->]|P]; auto.
Qed.

End RunnerEvents.

Lemma badword_verdict_cases t hits :
  (hits = [] /\ badword_verdict t hits = ([], Ok (set_state Clean t))) \/
  (hits <> [] /\ badword_verdict t hits = (map log_hit hits, Ok (set_state BadWord t))).
Proof.
  unfold badword_verdict. destruct hits as [|h hits]; simpl.
  - left. auto.
  - right. split; [discriminate|]. rewrite Chk_bind_emit. unfold Chk_ret.
    rewrite app_nil_r. reflexivity.
Qed.

(** The bad word search, step by step. *)
Lemma badword_Ok (H : Host) t w l t' w' :
  badword H t w = (l, Ok (t', w')) ->
  exists items words dut pattern files hits,
    cmd_items (cmd t) = Ok items /\
    compile_words H items = Ok words /\
    DUT t = Some dut /\ descr t = Some pattern /\
    path_glob H w (path_parent H dut) pattern = Ok files /\
    files_hits H w words files = Ok hits /\
    w' = w /\ badword_verdict t hits = (l, Ok t').
Proof.
  unfold badword.
  destruct (cmd_items (cmd t)) as [items|] eqn:E1;
    [rewrite Chk_bind_lift_ok|rewrite Chk_bind_lift_raise; discriminate].
  destruct (compile_words H items) as [words|] eqn:E2;
    [rewrite Chk_bind_lift_ok|rewrite Chk_bind_lift_raise; discriminate].
  destruct (DUT t) as [dut|] eqn:E3; simpl not_None;
    [rewrite Chk_bind_lift_ok|rewrite Chk_bind_lift_raise; discriminate].
  destruct (descr t) as [pattern|] eqn:E4; simpl glob_pattern;
    [rewrite Chk_bind_lift_ok|rewrite Chk_bind_lift_raise; discriminate].
  destruct (path_glob H w (path_parent H dut) pattern) as [files|] eqn:E5;
    [rewrite Chk_bind_lift_ok|rewrite Chk_bind_lift_raise; discriminate].
  destruct (files_hits H w words files) as [hits|] eqn:E6;
    [rewrite Chk_bind_lift_ok|rewrite Chk_bind_lift_raise; discriminate].
  intro E. apply Chk_bind_Ok in E. destruct E as (l1 & t1 & l2 & V & R & ->).
  unfold Chk_ret in R. inversion R; subst. rewrite app_nil_r.
  exists items, words, dut, pattern, files, hits. auto 10.
Qed.

Lemma Legacy_badword_Ok (H : Host) t w l t' w' :
  Legacy.badword H t w = (l, Ok (t', w')) ->
  exists items words dut pattern searchpattern hits,
    cmd_items (cmd t) = Ok items /\
    compile_words H items = Ok words /\
    DUT t = Some dut /\ descr t = Some pattern /\
    re_compile H pattern false = Ok searchpattern /\
    files_hits H w words
      (Legacy.walk_files H w (abs_dirname H dut) searchpattern) = Ok hits /\
    w' = w /\ badword_verdict t hits = (l, Ok t').
Proof.
  unfold Legacy.badword.
  destruct (cmd_items (cmd t)) as [items|] eqn:E1;
    [rewrite Chk_bind_lift_ok|rewrite Chk_bind_lift_raise; discriminate].
  destruct (compile_words H items) as [words|] eqn:E2;
    [rewrite Chk_bind_lift_ok|rewrite Chk_bind_lift_raise; discriminate].
  destruct (DUT t) as [dut|] eqn:E3; simpl not_None;
    [rewrite Chk_bind_lift_ok|rewrite Chk_bind_lift_raise; discriminate].
  destruct (descr t) as [pattern|] eqn:E4; simpl not_None;
    [rewrite Chk_bind_lift_ok|rewrite Chk_bind_lift_raise; discriminate].
  destruct (re_compile H pattern false) as [searchpattern|] eqn:E5;
    [rewrite Chk_bind_lift_ok|rewrite Chk_bind_lift_raise; discriminate].
  destruct (files_hits H w words _) as [hits|] eqn:E6;
    [rewrite Chk_bind_lift_ok|rewrite Chk_bind_lift_raise; discriminate].
  intro E. apply Chk_bind_Ok in E. destruct E as (l1 & t1 & l2 & V & R & ->).
  unfold Chk_ret in R. inversion R; subst. rewrite app_nil_r.
  exists items, words, dut, pattern, searchpattern, hits. auto 10.
Qed.

Lemma badword_verdict_state t hits l t' :
  badword_verdict t hits = (l, Ok t') -> state t' = Clean \/ state t' = BadWord.
Proof.
  destruct (badword_verdict_cases t hits) as [[_ ->]|[_ ->]];
    intros [= <- <-]; simpl; auto.
Qed.

Lemma badword_state (H : Host) t w t' w' :
  result (badword H t w) = Ok (t', w') -> state t' = Clean \/ state t' = BadWord.
Proof.
  destruct (badword H t w) as [l r] eqn:E. simpl. intros ->.
  apply badword_Ok in E. destruct E as (? & ? & ? & ? & ? & ? & E).
  decompose [and] E. eapply badword_verdict_state; eauto.
Qed.

Lemma Legacy_badword_state (H : Host) t w t' w' :
  result (Legacy.badword H t w) = Ok (t', w') -> state t' = Clean \/ state t' = BadWord.
Proof.
  destruct (Legacy.badword H t w) as [l r] eqn:E. simpl. intros ->.
  apply Legacy_badword_Ok in E. destruct E as (? & ? & ? & ? & ? & ? & E).
  decompose [and] E. eapply badword_verdict_state; eauto.
Qed.

(* ===================================================================== *)
(** * The constructor and the state argument *)
(* ===================================================================== *)

Lemma post_run_not_skipped s : post_run s -> s <> Disabled /\ s <> InfoOnly.
Proof. unfold post_run. intuition; subst; discriminate. Qed.

Lemma run_with_Waiting (H : Host) check_ badword_ t w t' s w' :
  (forall t w t' w', result (badword_ t w) = Ok (t', w') ->
                     state t' = Clean \/ state t' = BadWord) ->
  state t = Waiting ->
  result (run_with H check_ badword_ t w) = Ok ((t', s), w') ->
  s <> Disabled /\ s <> InfoOnly.
Proof.
  intros B W E. apply run_with_state in E; [|exact B].
  destruct E as (_ & _ & _ & E). rewrite W in E.
  destruct E as [E1 E2]; try discriminate.
  destruct (string_dec (name t) "Badword") as [N|N].
  - destruct (E1 N) as [-> | ->]; split; discriminate.
  - destruct (E2 N) as [P|[_ ->]]; [apply post_run_not_skipped; exact P|].
    split; discriminate.
Qed.

(** C9.  A test built by [Test.__init__] is in state [Waiting] whatever
    the [state] argument is.  So a run of it, in either module, prints
    nothing (the [InfoOnly] branch is the only one that prints) and, when
    it returns, returns neither [Disabled] nor [InfoOnly]: the two early
    returns of [run] are not taken. *)
Theorem C9_constructor_ignores_state_argument :
  forall (H : Host) (a : TestArgs) (w : World H),
    state (Test_init H a) = Waiting /\
    all_events not_print (Test_run H (Test_init H a) w) /\
    all_events not_print (Legacy.Test_run H (Test_init H a) w) /\
    (forall t' s w',
        result (Test_run H (Test_init H a) w) = Ok ((t', s), w') ->
        s <> Disabled /\ s <> InfoOnly) /\
    (forall t' s w',
        result (Legacy.Test_run H (Test_init H a) w) = Ok ((t', s), w') ->
        s <> Disabled /\ s <> InfoOnly).
Proof.
  intros H a w. split; [reflexivity|].
  split; [|split; [|split]].
  - apply run_with_not_print; [apply check_log|apply badword_hits|discriminate].
  - apply run_with_not_print;
      [apply Legacy_check_log|apply Legacy_badword_hits|discriminate].
  - intros t' s w' E. eapply run_with_Waiting; [apply badword_state| |exact E].
    reflexivity.
  - intros t' s w' E. eapply run_with_Waiting; [apply Legacy_badword_state| |exact E].
    reflexivity.
Qed.

(** [Test(command="make check", state=TestState.Disabled).run()] runs the
    command. *)
Example Disabled_argument_still_runs :
  Test_run Ref.host
    (Test_init Ref.host (Ref.args "t" (CmdStr "make check") ExpNone ExpNone ExpNone false Disabled))
    (Ref.world [Ref.exited "" "" 0])
  = ([EvSpawn "make check" false 5],
     Ok ((set_state Success
            (Test_init Ref.host
               (Ref.args "t" (CmdStr "make check") ExpNone ExpNone ExpNone false Disabled)),
          Success),
         Ref.world [])).
Proof. reflexivity. Qed.

(* ===================================================================== *)
(** * The place of [Stringifier] in the dispatch of [check] *)
(* ===================================================================== *)

(** In [nightmare/case.py] a [Stringifier], callable as it is, goes to the
    line comparison. *)
Lemma check_Stringifier (H : Host) t e out stream :
  callable (ExpStringifier e) = true /\
  check H t (ExpStringifier e) out stream =
    Chk_bind (Chk_lift (Stringifier_call e out))
             (fun v => lineComparison_star H t v stream).
Proof. split; reflexivity. Qed.

Lemma check_Stringifier_text (H : Host) t e o stream :
  check H t (ExpStringifier e) (OutStr o) stream =
    lineComparison H t (TextLines (PyStr.splitlines (PyStr.strip e)))
                   (TextLines (PyStr.splitlines (PyStr.strip o))) stream.
Proof.
  destruct (check_Stringifier H t e (OutStr o) stream) as [_ ->].
  simpl Stringifier_call. rewrite Chk_bind_lift_ok. reflexivity.
Qed.

(** In [src/case.py] the callable test comes first: the [Stringifier] is
    called, the pair it returns is taken for the verdict, and a pair is
    true.  No line is compared and nothing is logged. *)
Lemma Legacy_check_Stringifier (H : Host) t e o stream :
  Legacy.check H t (ExpStringifier e) (OutStr o) stream = ([], Ok true).
Proof. reflexivity. Qed.

(** C3.  [check(Stringifier("expected"), "actual")]: the older module
    calls the [Stringifier] as a predicate and answers true without any
    comparison; the packaged module compares the lines and answers false. *)
Theorem C3_legacy_check_calls_Stringifier_as_predicate :
  callable (ExpStringifier "expected") = true /\
  Legacy.check Ref.host Ref.diffing (ExpStringifier "expected") (OutStr "actual") "stdout"
    = ([], Ok true) /\
  check Ref.host Ref.diffing (ExpStringifier "expected") (OutStr "actual") "stdout"
    = ([EvLog Red "--- stdout"; EvLog Green "+++ expectation";
        EvLog Cyan "@@ -1 +1 @@"; EvLog Red "-actual"; EvLog Green "+expected"],
       Ok false).
Proof. repeat split; reflexivity. Qed.

(* ===================================================================== *)
(** * [Command.execute] *)
(* ===================================================================== *)

(** A process that has exited when the thread is joined: [Success]. *)
Lemma execute_joined_exited (H : Host) jv rc :
  jv_poll jv = Some rc -> execute_joined H jv = ([], Ok Success).
Proof. unfold execute_joined. intros ->. destruct (jv_proc jv); reflexivity. Qed.

(** A process that still runs and has exactly one child: the child is
    killed, then the shell if it still runs, and the answer is [Timeout]. *)
Lemma execute_joined_one_child (H : Host) jv pid c :
  win32 H = false -> jv_proc jv = Some pid -> jv_poll jv = None ->
  jv_children jv = [c] -> jv_kill_child jv = true ->
  (jv_poll2 jv = None -> jv_kill_parent jv = true) ->
  execute_joined H jv =
    ([EvPgrep pid; EvKill c SIGKILL]
       ++ match jv_poll2 jv with None => [EvKill pid SIGTERM] | Some _ => [] end,
     Ok Timeout).
Proof.
  intros W P Q C K K2. unfold execute_joined, kill_running, os_kill.
  rewrite P, Q, W, C, K. destruct (jv_poll2 jv); [|rewrite K2 by reflexivity]; reflexivity.
Qed.

(** On Windows the process tree is handed to [taskkill]. *)
Lemma execute_joined_win32 (H : Host) jv pid :
  win32 H = true -> jv_proc jv = Some pid -> jv_poll jv = None ->
  execute_joined H jv = ([EvTaskkill pid], Ok Timeout).
Proof.
  intros W P Q. unfold execute_joined, kill_running. rewrite P, Q, W. reflexivity.
Qed.

(** A process that still runs, with no child or with several: [execute]
    raises before any signal is sent. *)
Lemma execute_joined_raises (H : Host) jv pid :
  win32 H = false -> jv_proc jv = Some pid -> jv_poll jv = None ->
  (jv_children jv = [] ->
   execute_joined H jv = ([EvPgrep pid], Raise CalledProcessError)) /\
  (forall c1 c2 cs, jv_children jv = c1 :: c2 :: cs ->
   execute_joined H jv = ([EvPgrep pid], Raise ValueError)).
Proof.
  intros W P Q. unfold execute_joined, kill_running. rewrite P, Q, W.
  split; [intros ->|intros c1 c2 cs ->]; reflexivity.
Qed.

(** C8.  A command that still runs at the timeout, under a shell that has
    no child process (for instance a loop of the shell itself) or two
    (for instance a pipeline): [execute] raises [CalledProcessError], or
    [ValueError], after [pgrep]; no process is killed, [Timeout] is not
    returned, and the exception leaves [Test.run]. *)
Theorem C8_execute_raises_unless_one_child :
  execute_joined Ref.host (Ref.running []) = ([EvPgrep 4242], Raise CalledProcessError) /\
  execute_joined Ref.host (Ref.running [4243; 4244]) = ([EvPgrep 4242], Raise ValueError) /\
  Test_run Ref.host
    (Test_init Ref.host (Ref.args "t" (CmdStr "while :; do :; done") ExpNone ExpNone ExpNone false Waiting))
    (Ref.world [Ref.running []])
  = ([EvSpawn "while :; do :; done" false 5; EvPgrep 4242], Raise CalledProcessError).
Proof. repeat split; reflexivity. Qed.

(* ===================================================================== *)
(** * Lists and sets of expectations *)
(* ===================================================================== *)

Lemma result_bind {A B} (m : Chk A) (f : A -> Chk B) :
  result (Chk_bind m f) =
    match result m with
    | Ok a => result (f a)
    | Raise e => Raise e
    end.
Proof.
  unfold Chk_bind. destruct m as [l [a|e]]; simpl; [|reflexivity].
  destruct (f a). reflexivity.
Qed.

Section ListsAndSets.

Variable H : Host.
Variable t : Test.
Variable out : StreamOutput.

Let verdict (e : ExpectationT) : Res bool := result (check H t e out "returnCode").

Lemma checkList_true lst :
  result (checkList H t lst out) = Ok true <-> (forall e, In e lst -> verdict e = Ok true).
Proof.
  induction lst as [|e rest IH]; simpl.
  - split; [intros _ e []|reflexivity].
  - rewrite result_bind. fold (verdict e). split.
    + intros E x [<-|I].
      * destruct (verdict e) as [[|]|]; try discriminate; reflexivity.
      * destruct (verdict e) as [[|]|]; try discriminate. apply IH; assumption.
    + intro A. rewrite (A e) by (left; reflexivity). apply IH.
      intros x I. apply A. right. exact I.
Qed.

Lemma checkSet_true_inv st :
  result (checkSet H t st out) = Ok true -> exists e, In e st /\ verdict e = Ok true.
Proof.
  induction st as [|e rest IH]; simpl; [discriminate|].
  rewrite result_bind. fold (verdict e).
  destruct (verdict e) as [[|]|] eqn:V; try discriminate.
  - intros _. exists e. auto.
  - intro E. destruct (IH E) as (x & I & T). exists x. auto.
Qed.

Lemma checkSet_true st :
  (forall e, In e st -> exists b, verdict e = Ok b) ->
  (result (checkSet H t st out) = Ok true <-> exists e, In e st /\ verdict e = Ok true).
Proof.
  intro R. split; [apply checkSet_true_inv|].
  induction st as [|e rest IH]; intros (x & I & T); [destruct I|].
  simpl. rewrite result_bind. fold (verdict e).
  destruct (R e (or_introl eq_refl)) as [[|] V]; rewrite V; [reflexivity|].
  apply IH.
  - intros y J. apply R. right. exact J.
  - destruct I as [<-|I]; [congruence|]. exists x. auto.
Qed.

(** A set passes at its first element that passes, if none before it
    raises. *)
Lemma checkSet_first_true st :
  result (checkSet H t st out) = Ok true <->
  exists pre e post,
    st = pre ++ e :: post /\
    (forall x, In x pre -> verdict x = Ok false) /\ verdict e = Ok true.
Proof.
  induction st as [|x rest IH]; simpl.
  - split; [discriminate|]. intros (pre & e & post & E & _). destruct pre; discriminate.
  - rewrite result_bind. fold (verdict x). split.
    + destruct (verdict x) as [[|]|] eqn:V; try discriminate.
      * intros _. exists [], x, rest. repeat split; auto. intros y [].
      * intro E. apply IH in E. destruct E as (pre & e & post & -> & F & T).
        exists (x :: pre), e, post. repeat split; auto.
        intros y [<-|I]; auto.
    + intros (pre & e & post & E & F & T). destruct pre as [|y pre]; simpl in E.
      * inversion E; subst. rewrite T. reflexivity.
      * inversion E; subst. rewrite (F y) by (left; reflexivity).
        apply IH. exists pre, e, post. repeat split; auto.
        intros z I. apply F. right. exact I.
Qed.

(** With verdicts given for every element, the list is their conjunction
    and the set their disjunction. *)
Lemma checkList_checkSet_verdicts lst bs :
  Forall2 (fun e b => verdict e = Ok b) lst bs ->
  result (checkList H t lst out) = Ok (forallb (fun b => b) bs) /\
  result (checkSet H t lst out) = Ok (existsb (fun b => b) bs).
Proof.
  induction 1 as [|e b rest bs' V F [IH1 IH2]]; simpl; [auto|].
  rewrite !result_bind. fold (verdict e). rewrite V. destruct b; simpl; auto.
Qed.

(** The list stops at its first element that fails. *)
Lemma checkList_stops pre e post l1 l2 :
  checkList H t pre out = (l1, Ok true) ->
  check H t e out "returnCode" = (l2, Ok false) ->
  checkList H t (pre ++ e :: post) out = (l1 ++ l2, Ok false).
Proof.
  revert l1. induction pre as [|x pre IH]; intros l1 P E; simpl in *.
  - inversion P; subst. rewrite E. rewrite Chk_bind_ok. unfold Chk_ret.
    rewrite app_nil_r. reflexivity.
  - destruct (check H t x out "returnCode") as [lx [[|]|ex]] eqn:X.
    + rewrite Chk_bind_ok in *.
      destruct (checkList H t pre out) as [lp rp] eqn:C.
      inversion P; subst. rewrite (IH lp eq_refl E). rewrite app_assoc. reflexivity.
    + rewrite Chk_bind_ok in P. unfold Chk_ret in P. discriminate.
    + rewrite Chk_bind_raised in P. discriminate.
Qed.

Lemma Legacy_checkList_stops pre e post l1 l2 :
  Legacy.checkList H t pre out = (l1, Ok true) ->
  Legacy.check H t e out "returnCode" = (l2, Ok false) ->
  Legacy.checkList H t (pre ++ e :: post) out = (l1 ++ l2, Ok false).
Proof.
  revert l1. induction pre as [|x pre IH]; intros l1 P E; simpl in *.
  - inversion P; subst. rewrite E. rewrite Chk_bind_ok. unfold Chk_ret.
    rewrite app_nil_r. reflexivity.
  - destruct (Legacy.check H t x out "returnCode") as [lx [[|]|ex]] eqn:X.
    + rewrite Chk_bind_ok in *.
      destruct (Legacy.checkList H t pre out) as [lp rp] eqn:C.
      inversion P; subst. rewrite (IH lp eq_refl E). rewrite app_assoc. reflexivity.
    + rewrite Chk_bind_ok in P. unfold Chk_ret in P. discriminate.
    + rewrite Chk_bind_raised in P. discriminate.
Qed.

End ListsAndSets.

(** C5 as amended.  For a list, [check] returns true exactly when
    [check(element, out)] returns true for every element.  For a set, taken
    in its iteration order, [check] returns true exactly when some element
    returns true and every element before it returns false; an element that
    raises before that makes the check of the set raise.  So for a set none
    of whose elements raises, [check] returns true exactly when
    [check(element, out)] returns true for at least one element. *)
Theorem C5_list_is_conjunction_set_stops_at_first_true :
  forall (H : Host) (t : Test) (elements : list ExpectationT)
         (out : StreamOutput) (stream : string),
    (result (check H t (ExpList elements) out stream) = Ok true <->
     forall e, In e elements -> result (check H t e out "returnCode") = Ok true) /\
    (result (check H t (ExpSet elements) out stream) = Ok true <->
     exists pre e post,
       elements = pre ++ e :: post /\
       (forall x, In x pre -> result (check H t x out "returnCode") = Ok false) /\
       result (check H t e out "returnCode") = Ok true) /\
    ((forall e, In e elements ->
                exists b, result (check H t e out "returnCode") = Ok b) ->
     (result (check H t (ExpSet elements) out stream) = Ok true <->
      exists e, In e elements /\ result (check H t e out "returnCode") = Ok true)).
Proof.
  intros H t elements out stream. split; [|split].
  - rewrite check_ExpList. apply checkList_true.
  - rewrite check_ExpSet. apply checkSet_first_true.
  - intro R. rewrite check_ExpSet. apply checkSet_true. exact R.
Qed.

(** C5 as stated fails for a set.  In [{Stringifier("x"), None}], checked
    against the return code [0], the element [None] passes; when the
    [Stringifier] comes first in the iteration, its check raises
    [AttributeError] (an [int] has no [strip]) and so does the check of the
    set.  In the other order the set passes. *)
Lemma C5_set_raises_before_its_true_element :
  In ExpNone [ExpStringifier "x"; ExpNone] /\
  result (check Ref.host Ref.plain ExpNone (OutInt 0) "returnCode") = Ok true /\
  check Ref.host Ref.plain (ExpSet [ExpStringifier "x"; ExpNone]) (OutInt 0) "returnCode"
    = ([], Raise AttributeError) /\
  check Ref.host Ref.plain (ExpSet [ExpNone; ExpStringifier "x"]) (OutInt 0) "returnCode"
    = ([], Ok true).
Proof. repeat split; try reflexivity. right. left. reflexivity. Qed.

(** C4 as amended.  In both modules a list is checked element by element
    and left at the first element that fails, with the diff flag on or off:
    when the elements of [pre] pass and [e] fails, the verdict and the
    lines logged are those of [pre] and [e], whatever follows [e]. *)
Theorem C4_list_stops_at_first_failure :
  (forall (H : Host) (t : Test) (pre : list ExpectationT) (e : ExpectationT)
          (post : list ExpectationT) (out : StreamOutput) (stream : string) l1 l2,
      check H t (ExpList pre) out stream = (l1, Ok true) ->
      check H t e out "returnCode" = (l2, Ok false) ->
      check H t (ExpList (pre ++ e :: post)) out stream = (l1 ++ l2, Ok false)) /\
  (forall (H : Host) (t : Test) (pre : list ExpectationT) (e : ExpectationT)
          (post : list ExpectationT) (out : StreamOutput) (stream : string) l1 l2,
      Legacy.check H t (ExpList pre) out stream = (l1, Ok true) ->
      Legacy.check H t e out "returnCode" = (l2, Ok false) ->
      Legacy.check H t (ExpList (pre ++ e :: post)) out stream = (l1 ++ l2, Ok false)).
Proof.
  split; intros H t pre e post out stream l1 l2.
  - rewrite !check_ExpList. apply checkList_stops.
  - rewrite !Legacy_check_ExpList. apply Legacy_checkList_stops.
Qed.

Lemma C4_witness :
  check Ref.host Ref.diffing (ExpList ([ExpNone] ++ ExpStr "a" :: [ExpStr "b"]))
        (OutStr "c") "stdout"
  = ([] ++ [EvLog Red "--- returnCode"; EvLog Green "+++ expectation";
            EvLog Cyan "@@ -1 +1 @@"; EvLog Red "-c"; EvLog Green "+a"],
     Ok false).
Proof.
  apply (proj1 C4_list_stops_at_first_failure Ref.host Ref.diffing
           [ExpNone] (ExpStr "a") [ExpStr "b"] (OutStr "c") "stdout"); reflexivity.
Defined.

(** C4 as stated fails.  [Test(diff=True).check(["a", "b"], "c")]: both
    elements fail and each would log a diff of its own, but the list logs
    the diff of ["a"] alone; the line [+b] is never printed. *)
Lemma C4_second_diff_not_printed :
  diff Ref.diffing = true /\
  result (check Ref.host Ref.diffing (ExpStr "a") (OutStr "c") "returnCode") = Ok false /\
  check Ref.host Ref.diffing (ExpStr "b") (OutStr "c") "returnCode"
    = ([EvLog Red "--- returnCode"; EvLog Green "+++ expectation";
        EvLog Cyan "@@ -1 +1 @@"; EvLog Red "-c"; EvLog Green "+b"],
       Ok false) /\
  check Ref.host Ref.diffing (ExpList [ExpStr "a"; ExpStr "b"]) (OutStr "c") "stdout"
    = ([EvLog Red "--- returnCode"; EvLog Green "+++ expectation";
        EvLog Cyan "@@ -1 +1 @@"; EvLog Red "-c"; EvLog Green "+a"],
       Ok false) /\
  Legacy.check Ref.host Ref.diffing (ExpList [ExpStr "a"; ExpStr "b"]) (OutStr "c") "stdout"
    = ([EvLog Red "--- returnCode"; EvLog White "+++ expectation";
        EvLog Cyan "@@ -1 +1 @@"; EvLog Red "-a"; EvLog White "+c"],
       Ok false).
Proof. repeat split; reflexivity. Qed.

(* ===================================================================== *)
(** * A text compared with itself *)
(* ===================================================================== *)

Lemma replace_absent old new s :
  PyStr.contains old s = false -> PyStr.replace old new s = s.
Proof.
  unfold PyStr.replace. induction s as [|c s IH]; intro C; [reflexivity|].
  cbn [PyStr.contains] in C. apply orb_false_iff in C. destruct C as [P C].
  cbn [PyStr.replace_from]. rewrite P. rewrite (IH C). reflexivity.
Qed.


Lemma check_ExpStr_plain (H : Host) t s out stream :
  PyStr.startswith s "lambda" = false ->
  PyStr.startswith s "regex:" = false ->
  check H t (ExpStr s) out stream =
    lineComparison H t
      (TextLines (PyStr.splitlines (PyStr.replace "$n" (linesep t) s)))
      (TextLines (PyStr.splitlines (PyStr.rstrip (py_str out)))) stream.
Proof. intros L R. cbn [check is_None isinstance_Stringifier callable
                         isinstance_Expectation isinstance_int orb andb].
  rewrite L, R. reflexivity.
Qed.

(** A text that starts with [lambda] is evaluated and called. *)
Lemma check_ExpStr_lambda (H : Host) t s out stream f :
  PyStr.startswith s "lambda" = true ->
  py_eval H s = Ok f ->
  check H t (ExpStr s) out stream = ([], f out).
Proof.
  intros L E. cbn [check is_None isinstance_Stringifier callable
                     isinstance_Expectation isinstance_int orb andb].
  rewrite L, E, Chk_bind_lift_ok. reflexivity.
Qed.



Lemma Ref_diff_same a f g : unified_diff Ref.host a a f g = [].
Proof.
  simpl. unfold Ref.diff_lines.
  destruct (list_eq_dec string_dec a a) as [_|N]; [reflexivity|].
  exfalso. apply N. reflexivity.
Qed.



(** A text that ends in a blank does not match itself either: the output
    is stripped on the right and the expectation is not, although [Test]
    is documented to ignore leading and trailing whitespace and a
    [Stringifier] strips both.  The amended claim leaves these texts
    out. *)
Example text_with_trailing_blank :
  check Ref.host Ref.plain (ExpStr "hello ") (OutStr "hello ") "stdout" = ([], Ok false) /\
  check Ref.host Ref.plain (ExpStringifier "hello ") (OutStr "hello ") "stdout"
    = ([], Ok true).
Proof. split; reflexivity. Qed.

(* ===================================================================== *)
(** * The state of a run whose checks fail *)
(* ===================================================================== *)

(** [check] reads three fields of the test: [diff], [linesep] and
    [ignoreEmptyLines]. *)
Lemma lineComparison_same_config (H : Host) t1 t2 e o stream :
  diff t1 = diff t2 -> ignoreEmptyLines t1 = ignoreEmptyLines t2 ->
  lineComparison H t1 e o stream = lineComparison H t2 e o stream.
Proof. intros D I. unfold lineComparison. rewrite D, I. reflexivity. Qed.

Lemma check_same_config (H : Host) t1 t2 exp :
  diff t1 = diff t2 -> linesep t1 = linesep t2 ->
  ignoreEmptyLines t1 = ignoreEmptyLines t2 ->
  forall out stream, check H t1 exp out stream = check H t2 exp out stream.
Proof.
  intros D L I.
  induction exp using ExpectationT_nested_ind; intros out stream;
    try reflexivity.
  - cbn [check is_None isinstance_Stringifier].
    destruct (call (ExpStringifier e) out) as [[b|e1 o1]|x];
      rewrite ?Chk_bind_lift_ok, ?Chk_bind_lift_raise; try reflexivity.
    simpl. apply lineComparison_same_config; assumption.
  - rewrite !check_ExpList. induction H0 as [|x r Hx Hr IH]; [reflexivity|].
    simpl. rewrite Hx.
    destruct (check H t2 x out "returnCode") as [l [[|]|ex]];
      rewrite ?Chk_bind_ok, ?Chk_bind_raised; try reflexivity.
    rewrite IH. reflexivity.
  - rewrite !check_ExpSet. induction H0 as [|x r Hx Hr IH]; [reflexivity|].
    simpl. rewrite Hx.
    destruct (check H t2 x out "returnCode") as [l [[|]|ex]];
      rewrite ?Chk_bind_ok, ?Chk_bind_raised; try reflexivity.
    rewrite IH. reflexivity.
  - cbn [check is_None isinstance_Stringifier callable
           isinstance_Expectation isinstance_int orb andb].
    rewrite L. destruct (PyStr.startswith s "lambda"); [reflexivity|].
    destruct (PyStr.startswith s "regex:"); [reflexivity|].
    apply lineComparison_same_config; assumption.
Qed.

(** Echoing captured text never raises. *)
Lemma pipe_text_result limit stream color lines : forall bytes,
  result (pipe_text limit stream color lines bytes) = Ok tt.
Proof.
  induction lines as [|line rest IH]; intro bytes; [reflexivity|].
  simpl. rewrite result_bind. simpl.
  destruct (_ >? _); [reflexivity|apply IH].
Qed.

Lemma pipe_streams_text t o e :
  output t = OutStr o -> error t = OutStr e -> result (pipe_streams t) = Ok tt.
Proof.
  intros O E. unfold pipe_streams. rewrite O, E.
  rewrite result_bind. simpl.
  rewrite result_bind. simpl.
  rewrite result_bind. rewrite pipe_text_result.
  rewrite result_bind. simpl. apply pipe_text_result.
Qed.

Lemma runCmd_with_command_line (H : Host) check_ t command cmdline bin :
  command_line t command = Some (cmdline, bin) ->
  runCmd_with H check_ t command = runCmd_command H check_ t (Command_init cmdline bin).
Proof.
  unfold command_line, runCmd_with.
  destruct (PyStr.contains "$DUT" command).
  - destruct (DUT t); [|discriminate]. intros [= <- <-]. reflexivity.
  - intros [= <- <-]. reflexivity.
Qed.

(** The result of [runCmd] once the command has been run in time. *)
Lemma runCmd_command_result (H : Host) check_ t c w jv w1 :
  os_join H w (c_cmd c) (c_binary c) (timeout t) = (jv, w1) ->
  result (execute_joined H jv) = Ok Success ->
  let t1 := set_captured (jv_out jv) (jv_err jv) (jv_ret jv) t in
  result (runCmd_command H check_ t c w) =
    match result (checks_pass check_ t1) with
    | Raise x => Raise x
    | Ok ok =>
        match (if ok then Ok Success else failure_state (jv_err jv) (jv_ret jv)) with
        | Raise x => Raise x
        | Ok st =>
            let t2 := set_state st t1 in
            match result (if pipe t2 || (outputOnFail t2 && TestState_eqb st Fail)
                          then pipe_streams t2 else Chk_ret tt) with
            | Raise x => Raise x
            | Ok _ => Ok (t2, w1)
            end
        end
    end.
Proof.
  intros J E t1. unfold runCmd_command, Command_execute. rewrite J.
  rewrite !result_bind. rewrite E.
  cbn [result Chk_emit Chk_ret snd c_out c_err c_ret error retCode state
       set_state set_captured].
  rewrite TestState_eqb_refl. rewrite !result_bind. fold t1.
  destruct (result (checks_pass check_ t1)) as [ok|x]; [|reflexivity].
  destruct ok.
  - rewrite Chk_bind_ret, result_bind.
    match goal with |- match ?r with _ => _ end = _ => destruct r end; reflexivity.
  - destruct (failure_state (jv_err jv) (jv_ret jv)) as [st|x].
    + rewrite Chk_bind_lift_ok, result_bind.
      match goal with |- match ?r with _ => _ end = _ => destruct r end; reflexivity.
    + rewrite Chk_bind_lift_raise. reflexivity.
Qed.

Lemma checks_pass_verdicts check_ t b1 b2 b3 :
  result (check_ t (expectRetCode t) (OutInt (retCode t)) "returnCode") = Ok b1 ->
  result (check_ t (expectStdout t) (output t) "stdout") = Ok b2 ->
  result (check_ t (expectStderr t) (error t) "stderr") = Ok b3 ->
  result (checks_pass check_ t) = Ok (b1 && b2 && b3).
Proof.
  intros E1 E2 E3. unfold checks_pass. rewrite result_bind, E1.
  destruct b1; [|reflexivity]. rewrite result_bind, E2.
  destruct b2; [|reflexivity]. rewrite E3. reflexivity.
Qed.

(** With binary capture stderr is [bytes]: when the checks do not all
    pass, the first test of the classification raises [TypeError]. *)
Lemma runCmd_command_bytes_stderr (H : Host) t c w jv w1 b :
  os_join H w (c_cmd c) (c_binary c) (timeout t) = (jv, w1) ->
  result (execute_joined H jv) = Ok Success ->
  jv_err jv = OutBytes b ->
  result (checks_pass (check H)
            (set_captured (jv_out jv) (jv_err jv) (jv_ret jv) t)) = Ok false ->
  result (runCmd_command H (check H) t c w) = Raise TypeError.
Proof.
  intros J E B P.
  rewrite (@runCmd_command_result H (check H) t c w jv w1 J E).
  cbv zeta. rewrite P, B. reflexivity.
Qed.

(** With text capture the state is the one of the classification. *)
Lemma runCmd_command_text_failure (H : Host) t c w jv w1 out err :
  os_join H w (c_cmd c) (c_binary c) (timeout t) = (jv, w1) ->
  result (execute_joined H jv) = Ok Success ->
  jv_out jv = OutStr out -> jv_err jv = OutStr err ->
  result (checks_pass (check H)
            (set_captured (jv_out jv) (jv_err jv) (jv_ret jv) t)) = Ok false ->
  exists t',
    result (runCmd_command H (check H) t c w) = Ok (t', w1) /\
    output t' = OutStr out /\ error t' = OutStr err /\ retCode t' = jv_ret jv /\
    state t' =
      (if PyStr.contains "Assertion" err || PyStr.contains "assertion" err
       then Assertion
       else if PyStr.contains "stackdump" err
               || PyStr.contains "coredump" err
               || PyStr.contains "Segmentation Fault" err
               || (jv_ret jv <? 0)
       then SegFault
       else Fail).
Proof.
  intros J E O Er P.
  rewrite (@runCmd_command_result H (check H) t c w jv w1 J E).
  cbv zeta. rewrite P. rewrite Er. cbn [failure_state].
  set (t1 := set_captured (jv_out jv) (OutStr err) (jv_ret jv) t).
  set (st0 := if PyStr.contains "Assertion" err || PyStr.contains "assertion" err
              then Assertion else _).
  assert (Q : result (if pipe (set_state st0 t1)
                         || outputOnFail (set_state st0 t1) && TestState_eqb st0 Fail
                      then pipe_streams (set_state st0 t1) else Chk_ret tt) = Ok tt).
  { destruct (pipe _ || _); [|reflexivity].
    apply (@pipe_streams_text (set_state st0 t1) out err); simpl; auto. }
  rewrite Q. exists (set_state st0 t1). simpl. rewrite O. auto.
Qed.

(** C2.  Let the command of a case be run and exit within the timeout,
    and let the three checks, joined by [and] as [runCmd] joins them, not
    all pass: a check that is not reached because an earlier one has failed
    is not evaluated.  If the streams were captured as text, [runCmd]
    returns and the state is [Assertion] if stderr contains [Assertion] or
    [assertion]; else [SegFault] if stderr contains [stackdump],
    [coredump] or [Segmentation Fault], or the exit code is negative; else
    [Fail].  If stderr was captured as [bytes], which is what [binary=True]
    asks for, the first test of the classification raises [TypeError], the
    exception leaves [runCmd] and no state is set. *)
Theorem C2_failure_classification_raises_on_bytes :
  forall (H : Host) (t : Test) (command cmdline : string) (bin : bool)
         (w w1 : World H) (jv : JoinView),
    command_line t command = Some (cmdline, bin) ->
    os_join H w cmdline bin (timeout t) = (jv, w1) ->
    result (execute_joined H jv) = Ok Success ->
    result (checks_pass (check H)
              (set_captured (jv_out jv) (jv_err jv) (jv_ret jv) t)) = Ok false ->
    (forall out err,
        jv_out jv = OutStr out -> jv_err jv = OutStr err ->
        exists t',
          result (runCmd H t command w) = Ok (t', w1) /\
          output t' = OutStr out /\ error t' = OutStr err /\ retCode t' = jv_ret jv /\
          state t' =
            (if PyStr.contains "Assertion" err || PyStr.contains "assertion" err
             then Assertion
             else if PyStr.contains "stackdump" err
                     || PyStr.contains "coredump" err
                     || PyStr.contains "Segmentation Fault" err
                     || (jv_ret jv <? 0)
             then SegFault
             else Fail)) /\
    (forall b, jv_err jv = OutBytes b ->
               result (runCmd H t command w) = Raise TypeError).
Proof.
  intros H t command cmdline bin w w1 jv CL J E P.
  unfold runCmd. rewrite (@runCmd_with_command_line H (check H) t command cmdline bin CL).
  split.
  - intros out err O Er.
    apply (@runCmd_command_text_failure H t (Command_init cmdline bin) w jv w1 out err);
      assumption.
  - intros b B.
    apply (@runCmd_command_bytes_stderr H t (Command_init cmdline bin) w jv w1 b);
      assumption.
Qed.

(** [Test(DUT="./dut", command="$DUT", stdout="hello", binary=True)], run
    where the DUT writes [hullo] to stdout and [Assertion failed] to stderr
    and exits with status 1: the state is not set to [Assertion], the run
    raises [TypeError]. *)
Lemma C2_witness :
  result (Test_run Ref.host Ref.binary_case (Ref.world [Ref.exited_bytes "hullo" "Assertion failed" 1]))
  = Raise TypeError /\
  result (runCmd Ref.host Ref.binary_case "$DUT"
            (Ref.world [Ref.exited_bytes "hullo" "Assertion failed" 1]))
  = Raise TypeError.
Proof.
  split; [reflexivity|].
  exact (proj2 (@C2_failure_classification_raises_on_bytes Ref.host Ref.binary_case
                  "$DUT" "./dut" true
                  (Ref.world [Ref.exited_bytes "hullo" "Assertion failed" 1])
                  (Ref.world [])
                  (Ref.exited_bytes "hullo" "Assertion failed" 1)
                  eq_refl eq_refl eq_refl eq_refl)
           "Assertion failed" eq_refl).
Defined.

(** The three outcomes, on runs whose stdout does not match. *)
Example classification_examples :
  (let '(_, r) := Test_run Ref.host Ref.greeting
                    (Ref.world [Ref.exited "hullo" "Assertion failed" 0]) in
   match r with Ok ((_, s), _) => s | Raise _ => Error end) = Assertion /\
  (let '(_, r) := Test_run Ref.host Ref.greeting
                    (Ref.world [Ref.exited "hullo" "cygwin stackdump" 0]) in
   match r with Ok ((_, s), _) => s | Raise _ => Error end) = SegFault /\
  (let '(_, r) := Test_run Ref.host Ref.greeting
                    (Ref.world [Ref.exited "hullo" "" (-11)]) in
   match r with Ok ((_, s), _) => s | Raise _ => Error end) = SegFault /\
  (let '(_, r) := Test_run Ref.host Ref.greeting
                    (Ref.world [Ref.exited "hullo" "" 0]) in
   match r with Ok ((_, s), _) => s | Raise _ => Error end) = Fail /\
  (let '(_, r) := Test_run Ref.host Ref.greeting
                    (Ref.world [Ref.exited "hello" "" 0]) in
   match r with Ok ((_, s), _) => s | Raise _ => Error end) = Success.
Proof. repeat split; reflexivity. Qed.

(* ===================================================================== *)
(** * The states of [TestState] and the state after a run *)
(* ===================================================================== *)

Lemma all_TestStates_complete (s : TestState) : In s all_TestStates.
Proof. destruct s; simpl; auto 12. Qed.

Lemma all_TestStates_NoDup : NoDup all_TestStates.
Proof.
  unfold all_TestStates.
  repeat (constructor; [simpl; intuition discriminate|]). constructor.
Qed.

(** C6 as amended.  [TestState] has eleven members: the nine of the
    specification, [Clean] and [BadWord].  A run that returns leaves the
    case in the state it returns.  A [Disabled] or [InfoOnly] case keeps
    its state.  Any other case ends in [Clean] or [BadWord] when its name
    is [Badword], and otherwise, when its command is not the empty list,
    in one of [Success], [Fail], [Error], [Assertion], [SegFault] and
    [Timeout]. *)
Theorem C6_states_after_run :
  (forall s : TestState, In s all_TestStates) /\
  NoDup all_TestStates /\
  List.length all_TestStates = 11%nat /\
  (forall s, In s all_TestStates <-> In s spec_TestStates \/ s = Clean \/ s = BadWord) /\
  (forall (H : Host) (t : Test) (w : World H) t' s w',
      result (Test_run H t w) = Ok ((t', s), w') ->
      s = state t' /\
      (state t = Disabled -> s = Disabled) /\
      (state t = InfoOnly -> s = InfoOnly) /\
      (state t <> Disabled -> state t <> InfoOnly ->
       (name t = "Badword" -> s = Clean \/ s = BadWord) /\
       (name t <> "Badword" -> cmd t <> CmdList [] -> post_run s))).
Proof.
  split; [exact all_TestStates_complete|].
  split; [exact all_TestStates_NoDup|].
  split; [reflexivity|].
  split.
  - intro s. split; [|intros _; apply all_TestStates_complete].
    intros _. destruct s; simpl; auto 12.
  - intros H t w t' s w' E. unfold Test_run in E.
    apply run_with_state in E; [|apply badword_state].
    destruct E as (E1 & E2 & E3 & E4). repeat split; auto.
    + intro N. apply (proj1 (E4 H0 H1)). exact N.
    + intros N C. destruct (proj2 (E4 H0 H1) N) as [P|[C' _]]; [exact P|contradiction].
Qed.

(** C6 as stated fails.  A case named [Badword], run where no file holds
    a bad word, ends in [Clean], which is not one of the nine states of
    the specification; nor is [BadWord]. *)
Lemma C6_Badword_case_ends_Clean :
  Test_run Ref.host Ref.badword_case (Ref.world [])
    = ([], Ok ((set_state Clean Ref.badword_case, Clean), Ref.world [])) /\
  existsb (TestState_eqb Clean) spec_TestStates = false /\
  existsb (TestState_eqb BadWord) spec_TestStates = false.
Proof. repeat split; reflexivity. Qed.

(** [Test(command=[]).run()] runs nothing and leaves the state as it
    was. *)
Example empty_command_list :
  Test_run Ref.host
    (Test_init Ref.host (Ref.args "t" (CmdList []) ExpNone ExpNone ExpNone false Waiting))
    (Ref.world [])
  = ([], Ok ((Test_init Ref.host (Ref.args "t" (CmdList []) ExpNone ExpNone ExpNone false Waiting),
              Waiting),
             Ref.world [])).
Proof. reflexivity. Qed.

(* ===================================================================== *)
(** * The bad word search *)
(* ===================================================================== *)

Lemma nonempty_app {A} (a b : list A) : nonempty (a ++ b) = nonempty a || nonempty b.
Proof. destruct a; reflexivity. Qed.

Lemma nonempty_length {A} (l : list A) : Nat.ltb 0 (List.length l) = nonempty l.
Proof. destruct l; reflexivity. Qed.

Lemma line_hits_nonempty (H : Host) words fname nr line :
  nonempty (line_hits H words fname nr line)
  = existsb (fun word => re_search H (snd word) line) words.
Proof.
  unfold line_hits. induction words as [|word rest IH]; [reflexivity|].
  simpl. rewrite nonempty_app, IH.
  destruct (re_search H (snd word) line); reflexivity.
Qed.

Lemma lines_hits_nonempty (H : Host) words fname lines : forall nr,
  nonempty (lines_hits H words fname nr lines)
  = existsb (fun line => existsb (fun word => re_search H (snd word) line) words) lines.
Proof.
  induction lines as [|line rest IH]; intro nr; [reflexivity|].
  simpl. rewrite nonempty_app, line_hits_nonempty, IH. reflexivity.
Qed.

Lemma files_hits_read_all (H : Host) w words files : forall contents,
  read_all H w files = Ok contents ->
  exists hits, files_hits H w words files = Ok hits /\
               nonempty hits = has_match H words contents.
Proof.
  induction files as [|fname rest IH]; intros contents R; simpl in *.
  - inversion R. exists []. auto.
  - destruct (readlines H w fname) as [lines|]; [|discriminate].
    destruct (read_all H w rest) as [ls|]; [|discriminate].
    inversion R; subst. destruct (IH ls eq_refl) as (hs & -> & N).
    eexists. split; [reflexivity|].
    rewrite nonempty_app, lines_hits_nonempty, N. reflexivity.
Qed.


Lemma run_with_Badword (H : Host) check_ badword_ t :
  name t = "Badword" -> state t <> Disabled -> state t <> InfoOnly ->
  run_with H check_ badword_ t
  = Run_bind (badword_ t) (fun t' => Run_ret (t', state t')).
Proof.
  intros N D I. unfold run_with.
  apply TestState_eqb_neq in D, I. rewrite D, I, N. reflexivity.
Qed.




(** What the run of the example logs. *)
Example Badword_case_log :
  events (Test_run Ref.host Ref.badword_case Ref.tree)
  = [EvLogHit "main.c" 1 "/* TODO remove */" "TODO"].
Proof. reflexivity. Qed.

(* ===================================================================== *)
(** * Groups *)
(* ===================================================================== *)

Lemma Run_bind_Ok {W A B} (m : Run W A) (f : A -> Run W B) w l b w' :
  Run_bind m f w = (l, Ok (b, w')) ->
  exists l1 a w1 l2,
    m w = (l1, Ok (a, w1)) /\ f a w1 = (l2, Ok (b, w')) /\ l = l1 ++ l2.
Proof.
  unfold Run_bind. intro E. apply Chk_bind_Ok in E.
  destruct E as (l1 & [a w1] & l2 & E1 & E2 & ->).
  exists l1, a, w1, l2. auto.
Qed.

Lemma Run_bind_intro {W A B} (m : Run W A) (f : A -> Run W B) w l1 a w1 l2 r :
  m w = (l1, Ok (a, w1)) -> f a w1 = (l2, r) -> Run_bind m f w = (l1 ++ l2, r).
Proof.
  intros E1 E2. unfold Run_bind. rewrite E1, Chk_bind_ok. simpl. rewrite E2. reflexivity.
Qed.

Lemma Run_chk_emit {W} (l : list Event) (w : W) :
  Run_chk (Chk_emit l) w = (l, Ok (tt, w)).
Proof. unfold Run_chk. rewrite Chk_bind_emit. simpl. rewrite app_nil_r. reflexivity. Qed.

Lemma runs_in_order_length {W} (run : Node -> Run W (Node * TestState))
      nr ts w l ts' rs w' :
  runs_in_order run nr ts w l ts' rs w' ->
  List.length ts' = List.length ts /\ List.length rs = List.length ts.
Proof. induction 1 as [|? ? ? ? ? ? ? ? ? ? ? ? _ _ [IH1 IH2]]; simpl; auto. Qed.

Section GroupFacts.

Variable W : Type.
Variable run : Node -> Run W (Node * TestState).

(** The loop of [TestGroup.run] does what [runs_in_order] says. *)
Lemma run_tests_runs_in_order ts : forall nr w log ts' rs w',
  run_tests run nr ts w = (log, Ok ((ts', rs), w')) <->
  runs_in_order run nr ts w log ts' rs w'.
Proof.
  induction ts as [|t rest IH]; intros nr w log ts' rs w'.
  - split.
    + intros [= <- <- <- <-]. constructor.
    + intro R. inversion R; subst. reflexivity.
  - cbn [run_tests]. split.
    + intro E. apply Run_bind_Ok in E.
      destruct E as (l1 & [t1 r] & w1 & l2 & E1 & E & ->).
      apply Run_bind_Ok in E. destruct E as (l3 & [] & w2 & l4 & E2 & E & ->).
      rewrite Run_chk_emit in E2. inversion E2; subst.
      apply Run_bind_Ok in E. destruct E as (l5 & [ts1 rs1] & w3 & l6 & E3 & E & ->).
      unfold Run_ret, Chk_ret in E. inversion E; subst.
      apply IH in E3. simpl. rewrite app_nil_r.
      apply runs_cons with (w1 := w2); assumption.
    + intro R. inversion R; subst.
      match goal with Hr : runs_in_order _ _ rest _ _ _ _ _ |- _ => apply IH in Hr; rename Hr into E3 end.
      eapply Run_bind_intro; [eassumption|].
      change (EvLogTest nr (node_name t') (node_descr t') (node_state t') :: l2)
        with ([log_test t' nr] ++ l2).
      eapply Run_bind_intro; [apply Run_chk_emit|].
      rewrite <- (app_nil_r l2).
      eapply Run_bind_intro; [exact E3|]. reflexivity.
Qed.

(** The loop raises exactly when one of the tests does: the tests before
    it have been run and logged, and none after it is run. *)
Lemma run_tests_raises ts : forall nr w log e,
  run_tests run nr ts w = (log, Raise e) <->
  exists pre t post log1 pre' rs w1 l2,
    ts = pre ++ t :: post /\
    runs_in_order run nr pre w log1 pre' rs w1 /\
    run t w1 = (l2, Raise e) /\
    log = log1 ++ l2.
Proof.
  induction ts as [|t rest IH]; intros nr w log e.
  - split; [discriminate|].
    intros (pre & t & post & _ & _ & _ & _ & _ & E & _). destruct pre; discriminate.
  - cbn [run_tests]. unfold Run_bind at 1.
    destruct (run t w) as [l1 [[[t' r] w1]|x]] eqn:E.
    + rewrite Chk_bind_ok. cbn [fst snd]. unfold Run_bind at 1.
      rewrite Run_chk_emit, Chk_bind_ok. cbn [fst snd]. unfold Run_bind at 1.
      destruct (run_tests run (S nr) rest w1) as [l3 [[[ts1 rs1] w3]|x]] eqn:RT.
      * rewrite Chk_bind_ok. unfold Run_ret, Chk_ret. cbn [fst snd].
        split; [discriminate|].
        intros (pre & t0 & post & log1 & pre' & rs & w2 & l2 & Sp & R & X & _).
        destruct pre as [|p pre]; simpl in Sp; inversion Sp; subst.
        -- inversion R; subst. rewrite E in X. discriminate.
        -- inversion R as [|? ? ? ? la ta ra wa lb tsb rsb wb Ha Hb]; subst.
           rewrite E in Ha. inversion Ha; subst.
           assert (C : run_tests run (S nr) (pre ++ t0 :: post) wa = (lb ++ l2, Raise e)).
           { apply IH. do 8 eexists. repeat split; eauto. }
           rewrite RT in C. discriminate.
      * rewrite Chk_bind_raised. split.
        -- intros [= <- <-].
           destruct (proj1 (IH (S nr) w1 l3 x) RT)
             as (pre & t0 & post & log1 & pre' & rs & w2 & l2 & -> & R & X & ->).
           exists (t :: pre), t0, post, (l1 ++ log_test t' nr :: log1), (t' :: pre'),
                  (r :: rs), w2, l2.
           repeat split; auto.
           ++ apply runs_cons with (w1 := w1); assumption.
           ++ rewrite <- app_assoc. reflexivity.
        -- intros (pre & t0 & post & log1 & pre' & rs & w2 & l2 & Sp & R & X & ->).
           destruct pre as [|p pre]; simpl in Sp; inversion Sp; subst.
           ++ inversion R; subst. rewrite E in X. discriminate.
           ++ inversion R as [|? ? ? ? la ta ra wa lb tsb rsb wb Ha Hb]; subst.
              rewrite E in Ha. inversion Ha; subst.
              assert (C : run_tests run (S nr) (pre ++ t0 :: post) wa = (lb ++ l2, Raise e)).
              { apply IH. do 8 eexists. repeat split; eauto. }
              rewrite RT in C. inversion C; subst.
              rewrite <- app_assoc. reflexivity.
    + rewrite Chk_bind_raised. split.
      * intros [= <- <-]. exists [], t, rest, [], [], [], w, l1.
        repeat split; auto. constructor.
      * intros (pre & t0 & post & log1 & pre' & rs & w2 & l2 & Sp & R & X & ->).
        destruct pre as [|p pre]; simpl in Sp; inversion Sp; subst.
        -- inversion R; subst. rewrite E in X. inversion X; subst. reflexivity.
        -- inversion R as [|? ? ? ? la ta ra wa lb tsb rsb wb Ha Hb]; subst.
           rewrite E in Ha. discriminate Ha.
Qed.

End GroupFacts.

(** C1 as amended.  The run of a case in a group is [Test.run].  A run of
    a group returns exactly when its tests, run one after the other in the
    order of the list, all return; each test is logged with its state right
    after its own run, whatever that state is, and the next test is run.
    The group then takes the state [Success] if the predicate holds of the
    list of booleans [result == Success], and [Fail] otherwise, and returns
    it.  A run of a group raises exactly when the run of one of its tests
    does: the tests before it have been run and logged, the exception
    leaves the run of the group, and the tests after it are not run. *)
Theorem C1_group_runs_tests_until_one_raises :
  forall (H : Host) (tests : list Node) (nm : option string) (st : TestState)
         (predicate : list bool -> bool) (w : World H),
    (forall (t : Test) (w0 : World H),
        Node_run (Test_run H) (Case t) w0
        = (events (Test_run H t w0),
           match result (Test_run H t w0) with
           | Ok ((t', s), w') => Ok ((Case t', s), w')
           | Raise e => Raise e
           end)) /\
    (forall log g' s w',
        Node_run (Test_run H) (Group tests nm st predicate) w = (log, Ok ((g', s), w')) <->
        exists tests' results,
          runs_in_order (Node_run (Test_run H)) O tests w log tests' results w' /\
          List.length results = List.length tests /\
          s = (if predicate (map (fun result => TestState_eqb result Success) results)
               then Success else Fail) /\
          g' = Group tests' nm s predicate) /\
    (forall log e,
        Node_run (Test_run H) (Group tests nm st predicate) w = (log, Raise e) <->
        exists pre t post log1 pre' results w1 l2,
          tests = pre ++ t :: post /\
          runs_in_order (Node_run (Test_run H)) O pre w log1 pre' results w1 /\
          Node_run (Test_run H) t w1 = (l2, Raise e) /\
          log = log1 ++ l2).
Proof.
  intros H tests nm st predicate w. split; [|split].
  - intros t w0. cbn [Node_run]. unfold Run_bind, Run_ret.
    destruct (Test_run H t w0) as [l [[[t' s] w']|e]].
    + rewrite Chk_bind_ok. unfold Chk_ret. simpl. rewrite app_nil_r. reflexivity.
    + rewrite Chk_bind_raised. reflexivity.
  - intros log g' s w'. cbn [Node_run]. split.
    + intro E. apply Run_bind_Ok in E.
      destruct E as (l1 & [ts' rs] & w1 & l2 & E1 & E & ->).
      unfold Run_ret, Chk_ret in E. inversion E; subst.
      apply run_tests_runs_in_order in E1. exists ts', rs. rewrite app_nil_r.
      repeat split; try assumption. apply (runs_in_order_length E1).
    + intros (ts' & rs & R & _ & -> & ->).
      apply run_tests_runs_in_order in R. rewrite <- (app_nil_r log).
      eapply Run_bind_intro; [exact R|]. reflexivity.
  - intros log e. cbn [Node_run]. rewrite <- run_tests_raises.
    unfold Run_bind, Run_ret.
    destruct (run_tests (Node_run (Test_run H)) 0 tests w) as [l [[[ts' rs] w']|x]].
    + rewrite Chk_bind_ok. unfold Chk_ret. cbn [fst snd]. split; discriminate.
    + rewrite Chk_bind_raised. split; intros [= <- <-]; reflexivity.
Qed.

(** C1 as stated fails.  In the group of two cases below the first case
    expects a negative number on stdout: [Negative] calls [int] on the text
    [hello], which raises [ValueError].  The exception leaves [Test.run]
    and the run of the group: the second case, which would end in
    [Success], is never started and nothing is logged. *)
Lemma C1_raising_child_ends_the_group :
  Node_run (Test_run Ref.host)
    (TestGroup_init
       [Case (Test_init Ref.host
                (Ref.args "number" (CmdStr "echo hello") Negative ExpNone ExpNone
                          false Waiting));
        Case Ref.greeting]
       None py_any)
    (Ref.world [Ref.exited "hello" "" 0; Ref.exited "hello" "" 0])
  = ([EvSpawn "echo hello" false 5], Raise ValueError) /\
  Node_run (Test_run Ref.host) (Case Ref.greeting) (Ref.world [Ref.exited "hello" "" 0])
  = ([EvSpawn "echo hullo" false 5],
     Ok ((Case (set_state Success
                  (set_captured (OutStr "hello") (OutStr "") 0 Ref.greeting)), Success),
         Ref.world [])).
Proof. split; reflexivity. Qed.

(** The scenario of the specification: a case that succeeds and a case
    that fails, under [any] and under [all] (the default).  Both cases
    are run and logged in either group. *)
Example group_of_Success_and_Fail :
  let passing := Case (Test_init Ref.host (Ref.args "first" (CmdStr "echo hello") (ExpStr "hello") ExpNone ExpNone false Waiting)) in
  let failing := Case (Test_init Ref.host (Ref.args "second" (CmdStr "echo hullo") (ExpStr "hello") ExpNone ExpNone false Waiting)) in
  let w := Ref.world [Ref.exited "hullo" "" 0; Ref.exited "hello" "" 0] in
  let run g := let '(l, r) := Node_run (Test_run Ref.host) g w in
               (l, match r with Ok ((_, s), _) => Some s | Raise _ => None end) in
  run (TestGroup_init [failing; passing] None py_any)
    = ([EvSpawn "echo hullo" false 5; EvLogTest 0 "second" (Some "") Fail;
        EvSpawn "echo hello" false 5; EvLogTest 1 "first" (Some "") Success],
       Some Success) /\
  run (TestGroup_init [failing; passing] None py_all)
    = ([EvSpawn "echo hullo" false 5; EvLogTest 0 "second" (Some "") Fail;
        EvSpawn "echo hello" false 5; EvLogTest 1 "first" (Some "") Success],
       Some Fail).
Proof. split; reflexivity. Qed.

(* ===================================================================== *)
(** * The verdict of a comparison of lines *)
(* ===================================================================== *)

Lemma events_bind {A B} (m : Chk A) (f : A -> Chk B) :
  events (Chk_bind m f) =
    events m ++ match result m with
                | Ok a => events (f a)
                | Raise _ => []
                end.
Proof.
  unfold Chk_bind. destruct m as [l [a|e]]; simpl.
  - destruct (f a). reflexivity.
  - rewrite app_nil_r. reflexivity.
Qed.

(** The loop of [lineComparison]: the verdict is that no line of the diff
    marks a difference, whether the lines are shown or not; they are
    logged only when they are shown. *)
Lemma scan_diff_result kind show lines : forall same,
  result (scan_diff kind show lines same)
  = Ok (same && forallb (fun line => negb (fst (kind line))) lines).
Proof.
  induction lines as [|line rest IH]; intro same; simpl.
  - rewrite andb_true_r. reflexivity.
  - destruct (kind line) as [changed col] eqn:K. rewrite result_bind.
    assert (R : result (if show then Chk_emit [EvLog col (PyStr.rstrip line)]
                        else Chk_ret tt) = Ok tt) by (destruct show; reflexivity).
    rewrite R, IH. simpl. destruct changed, same; reflexivity.
Qed.

Lemma scan_diff_silent kind lines : forall same,
  events (scan_diff kind false lines same) = [].
Proof.
  induction lines as [|line rest IH]; intro same; simpl; [reflexivity|].
  destruct (kind line) as [changed col]. rewrite events_bind. simpl. apply IH.
Qed.

(** [while lines.count("") > 0: lines.remove("")] keeps the lines that
    are not empty, in their order. *)
Lemma remove_first_keeps (y : string) n : forall l,
  y <> EmptyString ->
  Nat.iter n (remove_first EmptyString) (y :: l)
  = y :: Nat.iter n (remove_first EmptyString) l.
Proof.
  induction n as [|n IH]; intros l N; [reflexivity|].
  rewrite !Nat.iter_succ, IH by exact N. simpl.
  destruct (String.eqb_spec y EmptyString); [contradiction|reflexivity].
Qed.

Lemma remove_empty_filter (l : list string) :
  remove_empty l = filter (fun line => negb (String.eqb line EmptyString)) l.
Proof.
  unfold remove_empty. induction l as [|y l IH]; [reflexivity|].
  simpl. destruct (string_dec y EmptyString) as [->|N].
  - rewrite Nat.iter_succ_r. simpl. exact IH.
  - rewrite remove_first_keeps by exact N. rewrite IH.
    destruct (String.eqb_spec y EmptyString); [contradiction|reflexivity].
Qed.

(** X3.  The loop that [lineComparison] runs under [ignoreEmptyLines]
    removes every empty line and nothing else: what is left are the lines
    that are not empty, in their order, and no empty line is among them. *)
Theorem remove_empty_keeps_the_other_lines :
  forall l : list string,
    remove_empty l = filter (fun line => negb (String.eqb line EmptyString)) l /\
    count_occ string_dec (remove_empty l) EmptyString = 0%nat.
Proof.
  intro l. split; [apply remove_empty_filter|].
  rewrite remove_empty_filter. apply count_occ_not_In.
  rewrite filter_In. intros [_ E]. discriminate E.
Qed.

Lemma header_marks_difference fromfile rest :
  fst (diff_line_kind ("--- " ++ fromfile ++ rest)) = true /\
  fst (Legacy.diff_line_kind ("--- " ++ fromfile ++ rest)) = true.
Proof. split; reflexivity. Qed.

Section LineVerdict.

Variable H : Host.
Hypothesis Same : diff_empty_on_equal H.
Hypothesis Header : diff_header_on_unequal H.

Let same_lines (a b : list string) : bool :=
  if list_eq_dec string_dec a b then true else false.

Lemma compared_lines_remove t l :
  (if ignoreEmptyLines t then remove_empty_lines (TextLines l) else TextLines l)
  = TextLines (compared_lines t l).
Proof.
  unfold compared_lines. destruct (ignoreEmptyLines t); [|reflexivity].
  simpl. rewrite remove_empty_filter. reflexivity.
Qed.

Lemma diff_verdict kind show a b fromfile :
  (forall f rest, fst (kind ("--- " ++ f ++ rest)%string) = true) ->
  result (scan_diff kind show (unified_diff H a b fromfile "expectation") true)
  = Ok (same_lines a b).
Proof.
  intro K. unfold same_lines. rewrite scan_diff_result.
  destruct (list_eq_dec string_dec a b) as [->|N].
  - rewrite Same. reflexivity.
  - destruct (Header fromfile "expectation" N) as [rest ->].
    cbn [forallb]. rewrite K. reflexivity.
Qed.

Lemma lineComparison_verdict t e o stream :
  result (lineComparison H t (TextLines e) (TextLines o) stream)
  = Ok (same_lines (compared_lines t o) (compared_lines t e)).
Proof.
  unfold lineComparison. rewrite !compared_lines_remove. simpl diff_input.
  rewrite !Chk_bind_lift_ok. apply diff_verdict.
  intros f rest. apply header_marks_difference.
Qed.

Lemma Legacy_lineComparison_verdict t e o stream :
  result (Legacy.lineComparison H t (TextLines e) (TextLines o) stream)
  = Ok (same_lines (compared_lines t e) (compared_lines t o)).
Proof.
  unfold Legacy.lineComparison. rewrite !compared_lines_remove. simpl diff_input.
  rewrite !Chk_bind_lift_ok. apply diff_verdict.
  intros f rest. apply header_marks_difference.
Qed.

Lemma same_lines_true a b : same_lines a b = true <-> a = b.
Proof.
  unfold same_lines. destruct (list_eq_dec string_dec a b); split;
    intros; auto; try discriminate; contradiction.
Qed.

Lemma same_lines_sym a b : same_lines a b = same_lines b a.
Proof.
  unfold same_lines.
  destruct (list_eq_dec string_dec a b), (list_eq_dec string_dec b a);
    try reflexivity; subst; contradiction.
Qed.

Lemma plain_text_verdict t s out stream :
  PyStr.startswith s "lambda" = false ->
  PyStr.startswith s "regex:" = false ->
  result (check H t (ExpStr s) out stream)
  = Ok (same_lines
          (compared_lines t (PyStr.splitlines (PyStr.replace "$n" (linesep t) s)))
          (compared_lines t (PyStr.splitlines (PyStr.rstrip (py_str out))))).
Proof.
  intros L R. rewrite check_ExpStr_plain by assumption.
  rewrite lineComparison_verdict. apply f_equal, same_lines_sym.
Qed.

Lemma Legacy_plain_text_verdict t s out stream :
  PyStr.startswith s "lambda" = false ->
  PyStr.startswith s "regex:" = false ->
  result (Legacy.check H t (ExpStr s) out stream)
  = Ok (same_lines
          (compared_lines t (PyStr.splitlines (PyStr.replace "$n" (linesep t) s)))
          (compared_lines t (PyStr.splitlines (PyStr.rstrip (py_str out))))).
Proof.
  intros L R.
  cbn [Legacy.check is_None isinstance_Stringifier callable
         isinstance_Expectation isinstance_int orb andb].
  rewrite L, R. apply Legacy_lineComparison_verdict.
Qed.

Lemma Stringifier_verdict t e o stream :
  result (check H t (ExpStringifier e) (OutStr o) stream)
  = Ok (same_lines
          (compared_lines t (PyStr.splitlines (PyStr.strip e)))
          (compared_lines t (PyStr.splitlines (PyStr.strip o)))).
Proof.
  rewrite check_Stringifier_text, lineComparison_verdict.
  apply f_equal, same_lines_sym.
Qed.

End LineVerdict.

Lemma Ref_diff_empty_on_equal : diff_empty_on_equal Ref.host.
Proof. intros a f g. apply Ref_diff_same. Qed.

Lemma Ref_diff_header_on_unequal : diff_header_on_unequal Ref.host.
Proof.
  intros a b f g N. simpl. unfold Ref.diff_lines.
  destruct (list_eq_dec string_dec a b) as [E|_]; [contradiction|].
  eexists. reflexivity.
Qed.

(** X2.  Let [difflib] yield no line for equal inputs and start with the
    header line [--- fromfile] otherwise.  For a text expectation that
    starts neither with [lambda] nor with [regex:], [check] never raises,
    and it returns true exactly when the lines of the expectation, with
    [$n] replaced by the line separator, are the lines of the output
    stripped on the right (empty lines left out on both sides under
    [ignoreEmptyLines]). *)
Theorem plain_text_matches_iff_lines_equal :
  forall (H : Host) (t : Test) (s : string) (out : StreamOutput) (stream : string),
    diff_empty_on_equal H -> diff_header_on_unequal H ->
    PyStr.startswith s "lambda" = false ->
    PyStr.startswith s "regex:" = false ->
    exists b,
      result (check H t (ExpStr s) out stream) = Ok b /\
      (b = true <->
       compared_lines t (PyStr.splitlines (PyStr.replace "$n" (linesep t) s))
       = compared_lines t (PyStr.splitlines (PyStr.rstrip (py_str out)))).
Proof.
  intros H t s out stream Same Header L R.
  eexists. split; [apply (plain_text_verdict Same Header); assumption|].
  destruct (list_eq_dec string_dec _ _); split; intros; auto;
    try discriminate; try contradiction.
Qed.

Lemma plain_text_matches_iff_lines_equal_witness :
  exists b,
    result (check Ref.host Ref.plain (ExpStr "one$ntwo") (OutInt 12) "returnCode") = Ok b /\
    (b = true <->
     compared_lines Ref.plain
       (PyStr.splitlines (PyStr.replace "$n" (linesep Ref.plain) "one$ntwo"))
     = compared_lines Ref.plain (PyStr.splitlines (PyStr.rstrip (py_str (OutInt 12))))).
Proof.
  apply (@plain_text_matches_iff_lines_equal Ref.host Ref.plain "one$ntwo" (OutInt 12)
           "returnCode" Ref_diff_empty_on_equal Ref_diff_header_on_unequal);
    reflexivity.
Defined.

(** X4.  Under the same two facts about [difflib], a [Stringifier]
    matches a text output exactly when the two have the same lines once
    both are stripped of leading and trailing whitespace: around the
    text, whitespace is ignored on both sides. *)
Theorem Stringifier_matches_iff_stripped_lines_equal :
  forall (H : Host) (t : Test) (e o stream : string),
    diff_empty_on_equal H -> diff_header_on_unequal H ->
    exists b,
      result (check H t (ExpStringifier e) (OutStr o) stream) = Ok b /\
      (b = true <->
       compared_lines t (PyStr.splitlines (PyStr.strip e))
       = compared_lines t (PyStr.splitlines (PyStr.strip o))).
Proof.
  intros H t e o stream Same Header.
  eexists. split; [apply (Stringifier_verdict Same Header)|].
  destruct (list_eq_dec string_dec _ _); split; intros; auto;
    try discriminate; try contradiction.
Qed.

Lemma Stringifier_matches_iff_stripped_lines_equal_witness :
  exists b,
    result (check Ref.host Ref.plain (ExpStringifier "  a  ") (OutStr "a") "stdout") = Ok b /\
    (b = true <->
     compared_lines Ref.plain (PyStr.splitlines (PyStr.strip "  a  "))
     = compared_lines Ref.plain (PyStr.splitlines (PyStr.strip "a"))).
Proof.
  apply (@Stringifier_matches_iff_stripped_lines_equal Ref.host Ref.plain "  a  " "a"
           "stdout" Ref_diff_empty_on_equal Ref_diff_header_on_unequal).
Defined.

(** X5.  Under the same two facts the two modules give the same verdict
    for a plain text expectation: that the older module diffs in the
    other direction and looks for inserted lines under [" + "] changes
    what is logged, not the verdict. *)
Theorem plain_text_verdict_same_in_both_modules :
  forall (H : Host) (t : Test) (s : string) (out : StreamOutput) (stream : string),
    diff_empty_on_equal H -> diff_header_on_unequal H ->
    PyStr.startswith s "lambda" = false ->
    PyStr.startswith s "regex:" = false ->
    result (Legacy.check H t (ExpStr s) out stream)
    = result (check H t (ExpStr s) out stream).
Proof.
  intros H t s out stream Same Header L R.
  rewrite (plain_text_verdict Same Header) by assumption.
  apply (Legacy_plain_text_verdict Same Header); assumption.
Qed.

Lemma plain_text_verdict_same_in_both_modules_witness :
  result (Legacy.check Ref.host Ref.diffing (ExpStr "a") (OutStr "c") "stdout")
  = result (check Ref.host Ref.diffing (ExpStr "a") (OutStr "c") "stdout").
Proof.
  apply (@plain_text_verdict_same_in_both_modules Ref.host Ref.diffing "a" (OutStr "c")
           "stdout" Ref_diff_empty_on_equal Ref_diff_header_on_unequal);
    reflexivity.
Defined.

(* ===================================================================== *)
(** * The diff flag *)
(* ===================================================================== *)

Ltac lift_cases :=
  match goal with
  | |- context [Chk_bind (Chk_lift ?r) _] =>
      destruct r; [rewrite !Chk_bind_lift_ok|rewrite !Chk_bind_lift_raise]
  end.

Lemma lineComparison_result (H : Host) t e o stream :
  result (lineComparison H t e o stream)
  = match diff_input (if ignoreEmptyLines t then remove_empty_lines o else o) with
    | Raise x => Raise x
    | Ok a =>
        match diff_input (if ignoreEmptyLines t then remove_empty_lines e else e) with
        | Raise x => Raise x
        | Ok b =>
            Ok (forallb (fun line => negb (fst (diff_line_kind line)))
                        (unified_diff H a b stream "expectation"))
        end
    end.
Proof.
  unfold lineComparison.
  lift_cases; [|reflexivity]. lift_cases; [|reflexivity].
  apply scan_diff_result.
Qed.

Lemma lineComparison_silent (H : Host) t e o stream :
  diff t = false -> events (lineComparison H t e o stream) = [].
Proof.
  intro D. unfold lineComparison. rewrite D.
  lift_cases; [|reflexivity]. lift_cases; [|reflexivity].
  apply scan_diff_silent.
Qed.

Lemma check_result_same_but_diff (H : Host) t1 t2 exp :
  linesep t1 = linesep t2 -> ignoreEmptyLines t1 = ignoreEmptyLines t2 ->
  forall out stream,
    result (check H t1 exp out stream) = result (check H t2 exp out stream).
Proof.
  intros L I.
  induction exp using ExpectationT_nested_ind; intros out stream;
    try reflexivity.
  - cbn [check is_None isinstance_Stringifier].
    lift_cases; [|reflexivity].
    destruct a as [b|e1 o1]; [reflexivity|].
    simpl lineComparison_star. rewrite !lineComparison_result, I. reflexivity.
  - rewrite !check_ExpList. induction H0 as [|x r Hx Hr IH]; [reflexivity|].
    simpl. rewrite !result_bind, Hx.
    destruct (result (check H t2 x out "returnCode")) as [[|]|]; try reflexivity.
    exact IH.
  - rewrite !check_ExpSet. induction H0 as [|x r Hx Hr IH]; [reflexivity|].
    simpl. rewrite !result_bind, Hx.
    destruct (result (check H t2 x out "returnCode")) as [[|]|]; try reflexivity.
    exact IH.
  - cbn [check is_None isinstance_Stringifier callable
           isinstance_Expectation isinstance_int orb andb].
    rewrite L. destruct (PyStr.startswith s "lambda"); [reflexivity|].
    destruct (PyStr.startswith s "regex:"); [reflexivity|].
    rewrite !lineComparison_result, I. reflexivity.
Qed.

Lemma check_silent (H : Host) t exp :
  diff t = false -> forall out stream, events (check H t exp out stream) = [].
Proof.
  intro D.
  induction exp using ExpectationT_nested_ind; intros out stream;
    try reflexivity.
  - cbn [check is_None isinstance_Stringifier].
    lift_cases; [|reflexivity].
    destruct a as [b|e1 o1]; [reflexivity|].
    simpl lineComparison_star. apply lineComparison_silent. exact D.
  - cbn [check is_None isinstance_Stringifier callable
           isinstance_Expectation orb].
    lift_cases; reflexivity.
  - cbn [check is_None isinstance_Stringifier callable
           isinstance_Expectation isinstance_int orb andb].
    destruct (out_is_int out); reflexivity.
  - rewrite check_ExpList. induction H0 as [|x r Hx Hr IH]; [reflexivity|].
    simpl. rewrite events_bind, Hx.
    destruct (result (check H t x out "returnCode")) as [[|]|]; try reflexivity.
    exact IH.
  - rewrite check_ExpSet. induction H0 as [|x r Hx Hr IH]; [reflexivity|].
    simpl. rewrite events_bind, Hx.
    destruct (result (check H t x out "returnCode")) as [[|]|]; try reflexivity.
    exact IH.
  - cbn [check is_None isinstance_Stringifier callable
           isinstance_Expectation isinstance_int orb andb].
    destruct (PyStr.startswith s "lambda").
    + lift_cases; [|reflexivity]. reflexivity.
    + destruct (PyStr.startswith s "regex:").
      * lift_cases; reflexivity.
      * apply lineComparison_silent. exact D.
Qed.

(** X1.  Whatever the expectation and the output, the diff flag of a
    case changes what [check] logs and nothing else: the verdict, or the
    exception, is the same with the flag on and off, and with the flag
    off [check] logs nothing. *)
Theorem diff_flag_only_changes_the_log :
  forall (H : Host) (t : Test) (value : bool) (exp : ExpectationT)
         (out : StreamOutput) (stream : string),
    result (check H (set_diff value t) exp out stream)
    = result (check H t exp out stream) /\
    events (check H (set_diff false t) exp out stream) = [].
Proof.
  intros H t value exp out stream. split.
  - apply check_result_same_but_diff; reflexivity.
  - apply check_silent. reflexivity.
Qed.

(* ===================================================================== *)
(** * Lists and sets: how they compose *)
(* ===================================================================== *)

Section Composition.

Variable H : Host.
Variable t : Test.
Variable out : StreamOutput.

Lemma checkList_app l1 l2 :
  checkList H t (l1 ++ l2) out
  = Chk_bind (checkList H t l1 out)
             (fun ok => if ok then checkList H t l2 out else Chk_ret false).
Proof.
  induction l1 as [|x l1 IH]; simpl.
  - rewrite Chk_bind_ret. reflexivity.
  - destruct (check H t x out "returnCode") as [l [[|]|e]];
      rewrite ?Chk_bind_ok, ?Chk_bind_raised.
    + rewrite IH. destruct (checkList H t l1 out) as [la [[|]|e]];
        rewrite ?Chk_bind_ok, ?Chk_bind_raised; try reflexivity.
      * destruct (checkList H t l2 out) as [lb rb]. rewrite app_assoc. reflexivity.
      * unfold Chk_ret. rewrite app_assoc. reflexivity.
    + unfold Chk_ret. rewrite Chk_bind_ok, !app_nil_r. reflexivity.
    + reflexivity.
Qed.

Lemma checkSet_stops pre e post l1 l2 :
  checkSet H t pre out = (l1, Ok false) ->
  check H t e out "returnCode" = (l2, Ok true) ->
  checkSet H t (pre ++ e :: post) out = (l1 ++ l2, Ok true).
Proof.
  revert l1. induction pre as [|x pre IH]; intros l1 P E; simpl in *.
  - inversion P; subst. rewrite E. rewrite Chk_bind_ok. unfold Chk_ret.
    rewrite app_nil_r. reflexivity.
  - destruct (check H t x out "returnCode") as [lx [[|]|ex]] eqn:X.
    + rewrite Chk_bind_ok in P. unfold Chk_ret in P. discriminate.
    + rewrite Chk_bind_ok in *.
      destruct (checkSet H t pre out) as [lp rp] eqn:C.
      inversion P; subst. rewrite (IH lp eq_refl E). rewrite app_assoc. reflexivity.
    + rewrite Chk_bind_raised in P. discriminate.
Qed.

End Composition.

(** X6.  A list inside a list can be flattened: [check([l1, *l2], out)]
    and [check(l1 + l2, out)] give the same verdict, raise the same
    exception and log the same lines. *)
Theorem nested_list_flattens :
  forall (H : Host) (t : Test) (l1 l2 : list ExpectationT)
         (out : StreamOutput) (stream : string),
    check H t (ExpList (ExpList l1 :: l2)) out stream
    = check H t (ExpList (l1 ++ l2)) out stream.
Proof.
  intros H t l1 l2 out stream. rewrite !check_ExpList, checkList_app.
  cbn [checkList]. rewrite check_ExpList. reflexivity.
Qed.

(** X7.  A set is left at its first element that passes: when the
    elements of [pre] fail and [e] passes, the verdict is true whatever
    follows [e], and what is logged are the lines of [pre] and [e]; so
    with the diff flag on, the diffs of the alternatives that failed
    before [e] are printed. *)
Theorem set_stops_at_first_match :
  forall (H : Host) (t : Test) (pre : list ExpectationT) (e : ExpectationT)
         (post : list ExpectationT) (out : StreamOutput) (stream : string) l1 l2,
    check H t (ExpSet pre) out stream = (l1, Ok false) ->
    check H t e out "returnCode" = (l2, Ok true) ->
    check H t (ExpSet (pre ++ e :: post)) out stream = (l1 ++ l2, Ok true).
Proof.
  intros H t pre e post out stream l1 l2.
  rewrite !check_ExpSet. apply checkSet_stops.
Qed.

Lemma set_stops_at_first_match_witness :
  check Ref.host Ref.diffing (ExpSet ([ExpStr "a"] ++ ExpStr "c" :: [ExpStr "b"]))
        (OutStr "c") "stdout"
  = ([EvLog Red "--- returnCode"; EvLog Green "+++ expectation";
      EvLog Cyan "@@ -1 +1 @@"; EvLog Red "-c"; EvLog Green "+a"] ++ [],
     Ok true).
Proof.
  apply (@set_stops_at_first_match Ref.host Ref.diffing [ExpStr "a"] (ExpStr "c")
           [ExpStr "b"] (OutStr "c") "stdout"); reflexivity.
Defined.

(* ===================================================================== *)
(** * The expectation classes *)
(* ===================================================================== *)

Lemma check_ExpFunc (H : Host) t f out stream :
  check H t (ExpFunc f) out stream = ([], f out).
Proof.
  cbn [check is_None isinstance_Stringifier callable isinstance_Expectation orb].
  simpl call. destruct (f out) as [b|e]; reflexivity.
Qed.

(** X8.  A [Regex] object and a text with the prefix [regex:] are the same
    expectation, for a pattern without [$n]: [check] gives the same
    answer for both, on every output. *)
Theorem Regex_object_is_regex_prefix :
  forall (H : Host) (t : Test) (pattern : string) (e : ExpectationT)
         (out : StreamOutput) (stream : string),
    Regex H pattern = Ok e ->
    PyStr.contains "$n" pattern = false ->
    check H t e out stream = check H t (ExpStr ("regex:" ++ pattern)) out stream.
Proof.
  intros H t pattern e out stream R N. unfold Regex in R.
  destruct (re_compile H pattern true) as [r|x] eqn:C; [|discriminate].
  inversion R; subst. unfold Regex_call. rewrite check_ExpFunc.
  cbn [check is_None isinstance_Stringifier callable
         isinstance_Expectation isinstance_int orb andb].
  change (PyStr.startswith ("regex:" ++ pattern) "lambda") with false.
  change (PyStr.startswith ("regex:" ++ pattern) "regex:")
    with (String.prefix EmptyString pattern).
  assert (P : String.prefix EmptyString pattern = true) by (destruct pattern; reflexivity).
  rewrite P. change (str_drop 6 ("regex:" ++ pattern)) with pattern.
  rewrite replace_absent by exact N. rewrite C, Chk_bind_lift_ok. reflexivity.
Qed.

Lemma Regex_object_is_regex_prefix_witness :
  check Ref.host Ref.plain (Regex_call Ref.host "hel") (OutStr "hello") "stdout"
  = check Ref.host Ref.plain (ExpStr ("regex:" ++ "hel")) (OutStr "hello") "stdout".
Proof.
  apply (@Regex_object_is_regex_prefix Ref.host Ref.plain "hel"
           (Regex_call Ref.host "hel") (OutStr "hello") "stdout"); reflexivity.
Defined.

Lemma all_texts_forallb (p : string -> bool) texts :
  all_texts (fun text => Ok (p text)) texts = Ok (forallb p texts).
Proof.
  induction texts as [|x r IH]; [reflexivity|].
  simpl. destruct (p x); [exact IH|reflexivity].
Qed.

(** X9.  On a text output, [Contains] passes exactly when every one of
    its texts occurs in the output and [ContainsNot] exactly when none
    does.  On an output that is not text (a return code, [None], bytes)
    both raise [TypeError], unless they hold no text at all, in which case
    they pass. *)
Theorem Contains_and_ContainsNot :
  forall (H : Host) (t : Test) (texts : list string) (stream : string),
    (forall s,
        check H t (Contains texts) (OutStr s) stream
        = ([], Ok (forallb (fun text => PyStr.contains text s) texts)) /\
        check H t (ContainsNot texts) (OutStr s) stream
        = ([], Ok (forallb (fun text => negb (PyStr.contains text s)) texts))) /\
    (forall out,
        (forall s, out <> OutStr s) ->
        check H t (Contains texts) out stream
        = ([], match texts with [] => Ok true | _ :: _ => Raise TypeError end) /\
        check H t (ContainsNot texts) out stream
        = ([], match texts with [] => Ok true | _ :: _ => Raise TypeError end)).
Proof.
  intros H t texts stream. split.
  - intro s. unfold Contains, ContainsNot. rewrite !check_ExpFunc. simpl text_in.
    rewrite (all_texts_forallb (fun text => PyStr.contains text s)).
    rewrite (all_texts_forallb (fun text => negb (PyStr.contains text s))).
    auto.
  - intros out N. unfold Contains, ContainsNot. rewrite !check_ExpFunc.
    destruct texts as [|x r]; [auto|].
    destruct out as [|s| |]; try (split; reflexivity).
    exfalso. apply (N s). reflexivity.
Qed.

(** X10.  On an integer return code [n], [NonZero] passes exactly when
    [n] is not 0, that is exactly when the expectation [0] fails, and
    [Negative] passes exactly when [n] is negative; none of them logs or
    raises. *)
Theorem NonZero_and_Negative_on_return_codes :
  forall (H : Host) (t : Test) (n : Z) (stream : string),
    check H t NonZero (OutInt n) stream = ([], Ok (negb (Z.eqb n 0))) /\
    check H t (ExpInt 0) (OutInt n) stream = ([], Ok (Z.eqb n 0)) /\
    check H t Negative (OutInt n) stream = ([], Ok (Z.ltb n 0)) /\
    (result (check H t Negative (OutInt n) stream) = Ok true ->
     result (check H t NonZero (OutInt n) stream) = Ok true).
Proof.
  intros H t n stream. unfold NonZero, Negative. rewrite !check_ExpFunc.
  simpl py_int. split; [reflexivity|]. split; [|split; [reflexivity|]].
  - cbn [check is_None isinstance_Stringifier callable
           isinstance_Expectation isinstance_int out_is_int orb andb exp_eq_out].
    rewrite Z.eqb_sym. reflexivity.
  - simpl. intros [= L]. apply Z.ltb_lt in L.
    destruct (Z.eqb_spec n 0); [lia|reflexivity].
Qed.

(* ===================================================================== *)
(** * More on [Test.runCmd] and [Test.run] *)
(* ===================================================================== *)

Lemma Chk_bind_assoc {A B C} (m : Chk A) (f : A -> Chk B) (g : B -> Chk C) :
  Chk_bind (Chk_bind m f) g = Chk_bind m (fun a => Chk_bind (f a) g).
Proof.
  unfold Chk_bind. destruct m as [l [a|e]]; [|reflexivity].
  destruct (f a) as [l2 [b|e]]; [|reflexivity].
  destruct (g b) as [l3 r]. rewrite app_assoc. reflexivity.
Qed.

Lemma Chk_bind_ext {A B} (m : Chk A) (f g : A -> Chk B) :
  (forall a, f a = g a) -> Chk_bind m f = Chk_bind m g.
Proof.
  intro E. unfold Chk_bind. destruct m as [l [a|e]]; [|reflexivity].
  rewrite E. reflexivity.
Qed.

Lemma execute_joined_Success_silent (H : Host) jv :
  result (execute_joined H jv) = Ok Success -> execute_joined H jv = ([], Ok Success).
Proof.
  unfold execute_joined.
  destruct (jv_proc jv) as [pid|]; [destruct (jv_poll jv)|]; try reflexivity.
  rewrite result_bind. destruct (result (kill_running H jv pid)); discriminate.
Qed.

(** [runCmd] on a command that exits in time: the whole computation. *)
Lemma runCmd_command_exited (H : Host) check_ t c w jv w1 :
  os_join H w (c_cmd c) (c_binary c) (timeout t) = (jv, w1) ->
  result (execute_joined H jv) = Ok Success ->
  let t1 := set_captured (jv_out jv) (jv_err jv) (jv_ret jv) t in
  runCmd_command H check_ t c w =
    Chk_bind (Chk_emit [EvSpawn (c_cmd c) (c_binary c) (timeout t)]) (fun _ =>
    Chk_bind (checks_pass check_ t1) (fun ok =>
    Chk_bind (if ok then Chk_ret Success
              else Chk_lift (failure_state (error t1) (retCode t1))) (fun st =>
    let t2 := set_state st t1 in
    Chk_bind (if pipe t2 || (outputOnFail t2 && TestState_eqb (state t2) Fail)
              then pipe_streams t2 else Chk_ret tt) (fun _ =>
    Chk_ret (t2, w1))))).
Proof.
  intros J E t1. apply execute_joined_Success_silent in E.
  unfold runCmd_command, Command_execute. rewrite J, E.
  rewrite Chk_bind_assoc. apply Chk_bind_ext. intros [].
  unfold Chk_ret at 1. rewrite !Chk_bind_ok.
  cbn [fst snd c_out c_err c_ret app]. rewrite TestState_eqb_refl.
  fold t1. destruct (Chk_bind (checks_pass check_ t1) _) as [l r]. reflexivity.
Qed.

Section TextRuns.

Variable H : Host.
Variable check_ : Test -> ExpectationT -> StreamOutput -> string -> Chk bool.
Hypothesis check_config : forall t1 t2 exp out stream,
  diff t1 = diff t2 -> linesep t1 = linesep t2 ->
  ignoreEmptyLines t1 = ignoreEmptyLines t2 ->
  check_ t1 exp out stream = check_ t2 exp out stream.

(** A run in text capture whose three checks give verdicts. *)
Lemma runCmd_command_text t c w jv w1 out err b1 b2 b3 :
  os_join H w (c_cmd c) (c_binary c) (timeout t) = (jv, w1) ->
  result (execute_joined H jv) = Ok Success ->
  jv_out jv = OutStr out -> jv_err jv = OutStr err ->
  result (check_ t (expectRetCode t) (OutInt (jv_ret jv)) "returnCode") = Ok b1 ->
  result (check_ t (expectStdout t) (OutStr out) "stdout") = Ok b2 ->
  result (check_ t (expectStderr t) (OutStr err) "stderr") = Ok b3 ->
  let st := if b1 && b2 && b3 then Success
            else if PyStr.contains "Assertion" err || PyStr.contains "assertion" err
            then Assertion
            else if PyStr.contains "stackdump" err
                    || PyStr.contains "coredump" err
                    || PyStr.contains "Segmentation Fault" err
                    || (jv_ret jv <? 0)
            then SegFault
            else Fail in
  let t2 := set_state st (set_captured (OutStr out) (OutStr err) (jv_ret jv) t) in
  result (runCmd_command H check_ t c w) = Ok (t2, w1) /\
  events (runCmd_command H check_ t c w)
  = EvSpawn (c_cmd c) (c_binary c) (timeout t)
      :: events (checks_pass check_ t2)
      ++ (if pipe t || (outputOnFail t && TestState_eqb st Fail)
          then events (pipe_streams t2) else []).
Proof.
  intros J E O Er C1 C2 C3 st t2.
  pose (t1 := set_captured (jv_out jv) (jv_err jv) (jv_ret jv) t).
  assert (S : forall ta tb exp o s,
             diff ta = diff tb -> linesep ta = linesep tb ->
             ignoreEmptyLines ta = ignoreEmptyLines tb ->
             check_ ta exp o s = check_ tb exp o s) by exact check_config.
  assert (P1 : checks_pass check_ t1 = checks_pass check_ t2).
  { unfold checks_pass, t1, t2. simpl. rewrite O, Er.
    rewrite (S (set_captured (OutStr out) (OutStr err) (jv_ret jv) t)
               (set_state st (set_captured (OutStr out) (OutStr err) (jv_ret jv) t)))
      by reflexivity.
    apply Chk_bind_ext. intros [|]; [|reflexivity].
    rewrite (S (set_captured (OutStr out) (OutStr err) (jv_ret jv) t)
               (set_state st (set_captured (OutStr out) (OutStr err) (jv_ret jv) t))
               (expectStdout t)) by reflexivity.
    apply Chk_bind_ext. intros [|]; [|reflexivity].
    apply S; reflexivity. }
  assert (P : result (checks_pass check_ t2) = Ok (b1 && b2 && b3)).
  { apply checks_pass_verdicts; unfold t2; simpl;
      rewrite (S _ t) by reflexivity; assumption. }
  rewrite (@runCmd_command_exited H check_ t c w jv w1 J E). fold t1.
  rewrite P1. cbv zeta.
  destruct (checks_pass check_ t2) as [lc rc] eqn:CP. simpl in P. subst rc.
  rewrite Chk_bind_emit, Chk_bind_ok.
  assert (F : (if b1 && b2 && b3 then Chk_ret Success
               else Chk_lift (failure_state (error t1) (retCode t1)))
              = ([], Ok st)).
  { unfold st, t1. simpl. rewrite Er. destruct (b1 && b2 && b3); reflexivity. }
  rewrite F, Chk_bind_ok.
  assert (T : set_state st t1 = t2) by (unfold t1, t2; rewrite O, Er; reflexivity).
  rewrite T.
  change (pipe t2) with (pipe t). change (outputOnFail t2) with (outputOnFail t).
  change (state t2) with st.
  assert (R : result (if pipe t || (outputOnFail t && TestState_eqb st Fail)
                      then pipe_streams t2 else Chk_ret tt) = Ok tt).
  { destruct (pipe t || _); [|reflexivity].
    apply (@pipe_streams_text t2 out err); reflexivity. }
  destruct (pipe t || outputOnFail t && TestState_eqb st Fail).
  - destruct (pipe_streams t2) as [lp rp]. simpl in R. subst rp.
    rewrite Chk_bind_ok. unfold Chk_ret. simpl. rewrite app_nil_r. auto.
  - rewrite Chk_bind_ret. unfold Chk_ret. simpl. auto.
Qed.

End TextRuns.

(** ** When the captured output is echoed *)

Lemma no_write_events {A} (m : Chk A) :
  all_events (fun ev => is_write ev = false) m -> existsb is_write (events m) = false.
Proof.
  unfold all_events. induction 1 as [|ev l E F IH]; [reflexivity|].
  simpl. rewrite E. exact IH.
Qed.

Lemma is_log_no_write {A} (m : Chk A) :
  all_events is_log m -> all_events (fun ev => is_write ev = false) m.
Proof. apply all_events_impl. intros [] L; simpl in *; auto; contradiction. Qed.

Lemma execute_joined_no_write (H : Host) jv :
  all_events (fun ev => is_write ev = false) (execute_joined H jv).
Proof.
  unfold execute_joined.
  destruct (jv_proc jv) as [pid|]; [destruct (jv_poll jv)|]; auto with evs.
  apply all_events_bind; [|auto with evs].
  unfold kill_running. destruct (win32 H).
  - apply all_events_emit. repeat constructor.
  - apply all_events_bind; [apply all_events_emit; repeat constructor|intros _].
    apply all_events_bind; [auto with evs|intro c].
    assert (K : forall p s b, all_events (fun ev => is_write ev = false) (os_kill p s b)).
    { intros p s b. unfold os_kill. apply all_events_bind.
      - apply all_events_emit. repeat constructor.
      - intros _. destruct b; auto with evs. }
    apply all_events_bind; [apply K|intros _].
    destruct (jv_poll2 jv); [auto with evs|apply K].
Qed.

Lemma Command_execute_no_write (H : Host) c q w :
  all_events (fun ev => is_write ev = false) (Command_execute H c q w).
Proof.
  unfold Command_execute. destruct (os_join H w (c_cmd c) (c_binary c) q) as [jv w'].
  apply all_events_bind; [apply all_events_emit; repeat constructor|intros _].
  apply all_events_bind; [apply execute_joined_no_write|auto with evs].
Qed.

Lemma checks_pass_log (H : Host) t : all_events is_log (checks_pass (check H) t).
Proof.
  unfold checks_pass.
  apply all_events_bind; [apply check_log|intros [|]; [|auto with evs]].
  apply all_events_bind; [apply check_log|intros [|]; [|auto with evs]].
  apply check_log.
Qed.

Lemma pipe_streams_writes t l r :
  pipe_streams t = (l, r) -> existsb is_write l = true.
Proof.
  unfold pipe_streams. rewrite Chk_bind_emit.
  destruct (Chk_bind (Chk_lift (out_splitlines (output t))) _) as [l2 r2].
  intros [= <- _]. reflexivity.
Qed.

Lemma runCmd_command_echo (H : Host) t c w l t' w' :
  runCmd_command H (check H) t c w = (l, Ok (t', w')) ->
  existsb is_write l
  = (pipe t && ran_to_end (state t')) || (outputOnFail t && TestState_eqb (state t') Fail).
Proof.
  unfold runCmd_command. intro E.
  apply Chk_bind_Ok in E. destruct E as (l1 & [[cmdRet c'] w1] & l2 & E1 & E2 & ->).
  pose proof (Command_execute_no_write H c (timeout t) w) as N1.
  apply no_write_events in N1. rewrite E1 in N1. simpl in N1.
  assert (S : cmdRet = Success \/ cmdRet = Timeout).
  { apply (@Command_execute_state H c (timeout t) w cmdRet c' w1). rewrite E1. reflexivity. }
  rewrite existsb_app, N1. simpl orb at 1.
  destruct S as [-> | ->]; cbn [TestState_eqb TestState_value Z.eqb] in E2.
  - apply Chk_bind_Ok in E2. destruct E2 as (lc & ok & l3 & Ec & E3 & ->).
    pose proof (no_write_events (is_log_no_write (checks_pass_log H
                  (set_captured (c_out c') (c_err c') (c_ret c') t)))) as Nc.
    rewrite Ec in Nc. simpl in Nc. rewrite existsb_app, Nc. simpl orb at 1.
    apply Chk_bind_Ok in E3. destruct E3 as (ls & st & l4 & Es & E4 & ->).
    assert (Ls : ls = [] /\ (st = Success \/ st = Assertion \/ st = SegFault \/ st = Fail)).
    { destruct ok.
      - inversion Es. auto.
      - unfold Chk_lift in Es. inversion Es. split; [reflexivity|].
        right. eapply failure_state_post_run. eassumption. }
    destruct Ls as [-> Ls]. simpl app.
    cbv zeta in E4. apply Chk_bind_Ok in E4. destruct E4 as (lp & u & l5 & Ep & E5 & ->).
    inversion E5; subst l5 t' w'. rewrite app_nil_r.
    cbn [pipe outputOnFail state set_state set_captured] in *.
    assert (R : ran_to_end st = true) by (destruct Ls as [-> | [-> | [-> | ->]]]; reflexivity).
    rewrite R, andb_true_r.
    destruct (pipe t || outputOnFail t && TestState_eqb st Fail).
    + eapply pipe_streams_writes. eassumption.
    + inversion Ep. reflexivity.
  - inversion E2; subst. simpl. rewrite !andb_false_r. reflexivity.
Qed.

(** X11.  When [runCmd] returns, the captured output has been echoed to
    [sys.stdout] and [sys.stderr] exactly in two cases: [pipe] is set and the
    command line was started and ran to its end (the state is neither
    [Timeout] nor [Error]); or [outputOnFail] is set and the state is
    [Fail].  With [outputOnFail] alone a run that ends in [Assertion],
    [SegFault] or [Timeout] echoes nothing. *)
Theorem echo_of_captured_output :
  forall (H : Host) (t : Test) (command : string) (w : World H) l t' w',
    runCmd H t command w = (l, Ok (t', w')) ->
    existsb is_write l
    = (pipe t && ran_to_end (state t'))
      || (outputOnFail t && TestState_eqb (state t') Fail).
Proof.
  intros H t command w l t' w'. unfold runCmd, runCmd_with.
  destruct (PyStr.contains "$DUT" command); [destruct (DUT t)|];
    try apply runCmd_command_echo.
  unfold Run_ret, Chk_ret. intros [= <- <- <-]. simpl.
  rewrite !andb_false_r. reflexivity.
Qed.

Lemma echo_of_captured_output_witness :
  existsb is_write
    (events (runCmd Ref.host Ref.on_fail "echo hullo"
               (Ref.world [Ref.exited "hullo" "Assertion failed" 1]))) = false /\
  existsb is_write
    (events (runCmd Ref.host Ref.on_fail "echo hullo"
               (Ref.world [Ref.exited "hullo" "" 0]))) = true.
Proof.
  split.
  - exact (@echo_of_captured_output Ref.host Ref.on_fail "echo hullo"
             (Ref.world [Ref.exited "hullo" "Assertion failed" 1]) _ _ _ eq_refl).
  - exact (@echo_of_captured_output Ref.host Ref.on_fail "echo hullo"
             (Ref.world [Ref.exited "hullo" "" 0]) _ _ _ eq_refl).
Defined.

(** ** [ExpectFile] against a stream captured as text *)

Lemma checks_pass_ExpectFile (H : Host) t content :
  (expectStdout t = ExpectFile content /\ exists o, output t = OutStr o)
  \/ (expectStderr t = ExpectFile content /\ exists e, error t = OutStr e) ->
  forall ok, result (checks_pass (check H) t) = Ok ok -> ok = false.
Proof.
  intros D ok. unfold checks_pass. rewrite result_bind.
  destruct (result (check H t (expectRetCode t) (OutInt (retCode t)) "returnCode"))
    as [[|]|x]; try discriminate.
  2: { simpl. intros [= <-]. reflexivity. }
  rewrite result_bind.
  destruct D as [[E [o O]] | [E [e O]]].
  - rewrite E, O. unfold ExpectFile. rewrite check_ExpFunc. simpl.
    intros [= <-]. reflexivity.
  - destruct (result (check H t (expectStdout t) (output t) "stdout"))
      as [[|]|x]; try discriminate.
    + rewrite E, O. unfold ExpectFile. rewrite check_ExpFunc. simpl.
      intros [= <-]. reflexivity.
    + simpl. intros [= <-]. reflexivity.
Qed.

(** X12.  The content of an [ExpectFile] is read as [bytes], and [bytes]
    are never equal to a text.  So a case whose expectation for stdout or
    for stderr is an [ExpectFile], run with its streams captured as text
    (which is how every command line without [$DUT] is run), never ends in
    [Success], whatever the command writes: a run that returns ends in
    [Assertion], [SegFault], [Fail] or [Timeout]. *)
Theorem ExpectFile_never_passes_in_text_capture :
  forall (H : Host) (t : Test) (command cmdline : string) (bin : bool)
         (w w1 : World H) (jv : JoinView) (content out err : string),
    command_line t command = Some (cmdline, bin) ->
    os_join H w cmdline bin (timeout t) = (jv, w1) ->
    jv_out jv = OutStr out ->
    jv_err jv = OutStr err ->
    expectStdout t = ExpectFile content \/ expectStderr t = ExpectFile content ->
    forall t' w',
      result (runCmd H t command w) = Ok (t', w') ->
      state t' = Assertion \/ state t' = SegFault \/ state t' = Fail \/ state t' = Timeout.
Proof.
  intros H t command cmdline bin w w1 jv content out err CL J O Er D t' w' R.
  unfold runCmd in R.
  rewrite (@runCmd_with_command_line H (check H) t command cmdline bin CL) in R.
  unfold runCmd_command, Command_execute in R. cbn [c_cmd c_binary Command_init] in R.
  rewrite J in R.
  apply Chk_bind_result_Ok in R. destruct R as ([[st c'] w2] & E1 & R).
  apply Chk_bind_result_Ok in E1. destruct E1 as ([] & _ & E1).
  apply Chk_bind_result_Ok in E1. destruct E1 as (st0 & E0 & E1).
  inversion E1; subst st0 c' w2. clear E1.
  destruct (execute_joined_state _ _ E0) as [-> | ->];
    cbn [TestState_eqb TestState_value Z.eqb c_out c_err c_ret] in R.
  - apply Chk_bind_result_Ok in R. destruct R as (ok & Eok & R).
    apply (@checks_pass_ExpectFile H _ content) in Eok.
    + subst ok. apply Chk_bind_result_Ok in R. destruct R as (st & Est & R).
      simpl in Est. apply failure_state_post_run in Est.
      apply Chk_bind_result_Ok in R. destruct R as (u & _ & R).
      inversion R; subst. simpl. tauto.
    + simpl. rewrite O, Er. destruct D; [left|right]; eauto.
  - inversion R. simpl. tauto.
Qed.

Lemma ExpectFile_never_passes_in_text_capture_witness :
  exists t',
    result (runCmd Ref.host file_case "echo hello"
              (Ref.world [Ref.exited ("hello" ++ Ref.LF) "" 0]))
    = Ok (t', Ref.world []) /\ state t' = Fail.
Proof.
  eexists. split; [reflexivity|].
  destruct (@ExpectFile_never_passes_in_text_capture Ref.host file_case
              "echo hello" "echo hello" false
              (Ref.world [Ref.exited ("hello" ++ Ref.LF) "" 0]) (Ref.world [])
              (Ref.exited ("hello" ++ Ref.LF) "" 0) ("hello" ++ Ref.LF)
              ("hello" ++ Ref.LF) ""
              eq_refl eq_refl eq_refl eq_refl (or_introl eq_refl) _ _ eq_refl)
    as [E|[E|[E|E]]]; try discriminate E.
  exact E.
Defined.

(** ** A list of command lines *)

Lemma same_setup_inv t1 t2 :
  same_setup t1 t2 ->
  t2 = set_state (state t2) (set_captured (output t2) (error t2) (retCode t2) t1).
Proof.
  unfold same_setup. destruct t1, t2. unfold set_state, set_captured. simpl.
  intros [= -> -> -> -> -> -> -> -> -> -> -> -> -> -> ->]. reflexivity.
Qed.

Lemma same_setup_trans t1 t2 t3 : same_setup t1 t2 -> same_setup t2 t3 -> same_setup t1 t3.
Proof. unfold same_setup. intros -> ->. reflexivity. Qed.

(** [runCmd] writes the four fields only. *)
Lemma runCmd_same_setup (H : Host) check_ t c w t' w' :
  result (runCmd_with H check_ t c w) = Ok (t', w') -> same_setup t t'.
Proof.
  assert (C : forall cm, result (runCmd_command H check_ t cm w) = Ok (t', w') ->
                         same_setup t t').
  { intros cm E. unfold runCmd_command in E.
    apply Chk_bind_result_Ok in E. destruct E as ([[st c'] w1] & _ & E).
    destruct (TestState_eqb st Success).
    - apply Chk_bind_result_Ok in E. destruct E as (ok & _ & E).
      apply Chk_bind_result_Ok in E. destruct E as (st1 & _ & E).
      apply Chk_bind_result_Ok in E. destruct E as (u & _ & E).
      inversion E; subst. reflexivity.
    - inversion E; subst. reflexivity. }
  unfold runCmd_with.
  destruct (PyStr.contains "$DUT" c); [destruct (DUT t)|]; try apply C.
  intros [= <- <-]. reflexivity.
Qed.

Lemma runCmds_same_setup (H : Host) check_ l : forall t w t' w',
  result (runCmds_with H check_ t l w) = Ok (t', w') -> same_setup t t'.
Proof.
  induction l as [|c rest IH]; intros t w t' w' E.
  - inversion E; subst. reflexivity.
  - simpl in E. unfold Run_bind in E.
    apply Chk_bind_result_Ok in E. destruct E as ([t1 w1] & E1 & E). simpl in E.
    apply runCmd_same_setup in E1. apply IH in E.
    eapply same_setup_trans; eassumption.
Qed.

(** What [runCmd] does and the state it sets do not depend on the four
    fields as they were before. *)
Lemma runCmd_fresh (H : Host) t s o e r c w :
  let t2 := set_state s (set_captured o e r t) in
  events (runCmd H t2 c w) = events (runCmd H t c w) /\
  verdict (result (runCmd H t2 c w)) = verdict (result (runCmd H t c w)).
Proof.
  intro t2.
  assert (C : forall cm,
             events (runCmd_command H (check H) t2 cm w)
             = events (runCmd_command H (check H) t cm w) /\
             verdict (result (runCmd_command H (check H) t2 cm w))
             = verdict (result (runCmd_command H (check H) t cm w))).
  { intro cm. unfold runCmd_command.
    change (timeout t2) with (timeout t).
    rewrite !events_bind, !result_bind.
    destruct (Command_execute H cm (timeout t) w) as [l1 [[[st c'] w1]|x]];
      cbn [events result fst snd]; [|auto].
    destruct (TestState_eqb st Success); [|split; reflexivity].
    assert (P : checks_pass (check H) (set_captured (c_out c') (c_err c') (c_ret c') t2)
                = checks_pass (check H) (set_captured (c_out c') (c_err c') (c_ret c') t)).
    { unfold checks_pass. cbn [expectRetCode expectStdout expectStderr output error retCode
                                 set_captured set_state t2].
      rewrite (@check_same_config H (set_captured (c_out c') (c_err c') (c_ret c') t2)
                 (set_captured (c_out c') (c_err c') (c_ret c') t))
        by reflexivity.
      apply Chk_bind_ext. intros [|]; [|reflexivity].
      rewrite (@check_same_config H (set_captured (c_out c') (c_err c') (c_ret c') t2)
                 (set_captured (c_out c') (c_err c') (c_ret c') t) (expectStdout t))
        by reflexivity.
      apply Chk_bind_ext. intros [|]; [|reflexivity].
      apply check_same_config; reflexivity. }
    rewrite P. split; reflexivity. }
  unfold runCmd, runCmd_with. change (DUT t2) with (DUT t).
  change (binary t2) with (binary t).
  destruct (PyStr.contains "$DUT" c); [destruct (DUT t)|]; try apply C.
  split; reflexivity.
Qed.

Lemma runCmds_app (H : Host) check_ l1 l2 : forall t w,
  runCmds_with H check_ t (l1 ++ l2) w
  = Chk_bind (runCmds_with H check_ t l1 w)
             (fun r => runCmds_with H check_ (fst r) l2 (snd r)).
Proof.
  induction l1 as [|c rest IH]; intros t w.
  - simpl. unfold Run_ret. rewrite Chk_bind_ret. reflexivity.
  - simpl. unfold Run_bind. rewrite Chk_bind_assoc.
    apply Chk_bind_ext. intros [t1 w1]. apply IH.
Qed.

Lemma runCmds_one (H : Host) check_ t c w :
  runCmds_with H check_ t [c] w = runCmd_with H check_ t c w.
Proof.
  simpl. unfold Run_bind, Run_ret, Chk_bind, Chk_ret.
  destruct (runCmd_with H check_ t c w) as [l [[t1 w1]|x]]; [|reflexivity].
  simpl. rewrite app_nil_r. reflexivity.
Qed.

(** X13.  In a case with a list of command lines every command is run,
    whatever the state the one before it has left, and the case does not
    keep the states of the earlier ones: after the commands [l], the run of
    the last command [c] does, and leaves as state, what it would on the
    case as it was before [l].  A failure of an earlier command is
    forgotten when the last command passes. *)
Theorem last_command_decides :
  forall (H : Host) (t : Test) (l : list string) (c : string) (w : World H) t1 w1,
    result (runCmds H t l w) = Ok (t1, w1) ->
    events (runCmds H t (l ++ [c]) w)
    = events (runCmds H t l w) ++ events (runCmd H t c w1) /\
    verdict (result (runCmds H t (l ++ [c]) w)) = verdict (result (runCmd H t c w1)).
Proof.
  intros H t l c w t1 w1 R. unfold runCmds in *.
  pose proof (@runCmds_same_setup H (check H) l t w t1 w1 R) as S. apply same_setup_inv in S.
  rewrite runCmds_app, events_bind, result_bind, R. cbn [fst snd].
  rewrite runCmds_one. fold (runCmd H t1 c w1). rewrite S.
  destruct (@runCmd_fresh H t (state t1) (output t1) (error t1) (retCode t1) c w1)
    as [E V].
  cbv zeta in E, V. rewrite E, V. split; reflexivity.
Qed.

Lemma last_command_decides_witness :
  verdict (result (runCmds Ref.host Ref.greeting (["echo hullo"] ++ ["echo hello"])
                     (Ref.world [Ref.exited "hullo" "" 0; Ref.exited "hello" "" 0])))
  = Ok (Success, Ref.world []).
Proof.
  exact (proj2 (@last_command_decides Ref.host Ref.greeting ["echo hullo"] "echo hello"
                  (Ref.world [Ref.exited "hullo" "" 0; Ref.exited "hello" "" 0])
                  _ _ eq_refl)).
Defined.

(** ** The limit of the echo: [Test.pipeOutputStream] *)

Lemma total_length_nonneg lines : 0 <= total_length lines.
Proof. induction lines as [|x r IH]; simpl; lia. Qed.

Lemma total_length_app a b : total_length (a ++ b) = total_length a + total_length b.
Proof. induction a as [|x r IH]; simpl; lia. Qed.

Lemma pipe_text_all limit stream color lines : forall bytes,
  bytes + total_length lines <= limit ->
  pipe_text limit stream color lines bytes = (map (write_line stream color) lines, Ok tt).
Proof.
  induction lines as [|line rest IH]; intros bytes L; [reflexivity|].
  simpl in *. rewrite Chk_bind_emit.
  pose proof (total_length_nonneg rest) as N.
  destruct (Z.gtb_spec (bytes + Z.of_nat (String.length line)) limit) as [G|G]; [lia|].
  rewrite IH by lia. reflexivity.
Qed.

Lemma pipe_text_stops limit stream color lines : forall bytes,
  bytes <= limit -> limit < bytes + total_length lines ->
  exists pre line post,
    lines = pre ++ line :: post /\
    bytes + total_length pre <= limit /\
    limit < bytes + total_length (pre ++ [line]) /\
    pipe_text limit stream color lines bytes
    = (map (write_line stream color) (pre ++ [line])
         ++ [EvStopped stream (bytes + total_length (pre ++ [line]))], Ok tt).
Proof.
  induction lines as [|line rest IH]; intros bytes B L; [simpl in L; lia|].
  simpl in L. cbn [pipe_text]. rewrite Chk_bind_emit.
  destruct (Z.gtb_spec (bytes + Z.of_nat (String.length line)) limit) as [G|G].
  - exists [], line, rest. simpl. rewrite !Z.add_0_r.
    repeat split; lia.
  - destruct (IH (bytes + Z.of_nat (String.length line))) as (pre & x & post & E & P & Q & R);
      try lia.
    exists (line :: pre), x, post. subst rest. simpl.
    repeat split; try lia.
    rewrite R. simpl. rewrite Z.add_assoc. reflexivity.
Qed.

(** X14.  The echo of a stream writes the lines one by one and counts
    their characters.  If all the lines together have at most [pipeLimit]
    characters, every line is written and nothing else.  Otherwise the echo
    stops with the first line at which the count exceeds [pipeLimit]: that
    line is still written in full, followed by the notice with the count
    reached, so more than [pipeLimit] characters are written, and no line
    after it is. *)
Theorem pipeOutputStream_stops_past_the_limit :
  forall (t : Test) (stream : Stream) (color : Color) (lines : list string),
    0 <= pipeLimit t ->
    (total_length lines <= pipeLimit t ->
     pipeOutputStream t stream (TextLines lines) color
     = (map (write_line stream color) lines, Ok tt)) /\
    (pipeLimit t < total_length lines ->
     exists pre line post,
       lines = pre ++ line :: post /\
       total_length pre <= pipeLimit t /\
       pipeLimit t < total_length (pre ++ [line]) /\
       pipeOutputStream t stream (TextLines lines) color
       = (map (write_line stream color) (pre ++ [line])
            ++ [EvStopped stream (total_length (pre ++ [line]))], Ok tt)).
Proof.
  intros t stream color lines L. unfold pipeOutputStream. split; intro T.
  - apply pipe_text_all. lia.
  - destruct (@pipe_text_stops (pipeLimit t) stream color lines 0) as
      (pre & line & post & E & P & Q & R); try lia.
    exists pre, line, post. repeat split; try lia; assumption.
Qed.

Lemma pipeOutputStream_stops_past_the_limit_witness :
  pipeOutputStream (Ref.plain) Stdout (TextLines ["one"; "two"]) Green
  = ([EvWrite Stdout Green "one "; EvWrite Stdout Green "two "], Ok tt).
Proof.
  apply (proj1 (@pipeOutputStream_stops_past_the_limit Ref.plain Stdout Green ["one"; "two"]
                  ltac:(simpl; lia))).
  simpl. lia.
Defined.

(** ** Groups with cases that are not run *)

Lemma Node_run_skipped (H : Host) t w l n r w' :
  state t = Disabled \/ state t = InfoOnly ->
  Node_run (Test_run H) (Case t) w = (l, Ok ((n, r), w')) ->
  TestState_eqb r Success = false.
Proof.
  intros S E. cbn [Node_run] in E. apply Run_bind_Ok in E.
  destruct E as (l1 & [t1 r1] & w1 & l2 & E1 & E & ->).
  unfold Run_ret, Chk_ret in E. inversion E; subst. clear E.
  unfold Test_run, run_with in E1. destruct S as [S|S]; rewrite S in E1; simpl in E1.
  - unfold Run_ret, Chk_ret in E1. inversion E1. reflexivity.
  - apply Run_bind_Ok in E1. destruct E1 as (l3 & [] & w2 & l4 & _ & E & _).
    unfold Run_ret, Chk_ret in E. inversion E. reflexivity.
Qed.

Lemma runs_in_order_skipped (H : Host) t nr ts w log ts' rs w' :
  runs_in_order (Node_run (Test_run H)) nr ts w log ts' rs w' ->
  In (Case t) ts -> state t = Disabled \/ state t = InfoOnly ->
  py_all (map (fun result => TestState_eqb result Success) rs) = false.
Proof.
  intros R I S. induction R as [|nr t0 ts w l1 t' r w1 l2 ts' rs w2 E R IH].
  - destruct I.
  - simpl. destruct I as [-> | I].
    + rewrite (@Node_run_skipped H t w l1 t' r w1 S E). reflexivity.
    + rewrite (IH I). apply andb_false_r.
Qed.

(** X15.  A case in state [Disabled] or [InfoOnly] is not run, and its
    [run] returns that state, which is not [Success].  So a group with the
    predicate [all], the default, that has such a case among its tests
    never ends in [Success]: when its run returns, the state is [Fail],
    whatever the other tests do. *)
Theorem skipped_case_fails_group :
  forall (H : Host) (tests : list Node) (nm : option string) (st : TestState)
         (t : Test) (w : World H) log g' s w',
    In (Case t) tests ->
    state t = Disabled \/ state t = InfoOnly ->
    Node_run (Test_run H) (Group tests nm st py_all) w = (log, Ok ((g', s), w')) ->
    s = Fail /\ node_state g' = Fail.
Proof.
  intros H tests nm st t w log g' s w' I S E. cbn [Node_run] in E.
  apply Run_bind_Ok in E. destruct E as (l1 & [ts' rs] & w1 & l2 & E1 & E & ->).
  apply run_tests_runs_in_order in E1.
  unfold Run_ret, Chk_ret in E. inversion E; subst. simpl.
  unfold group_state. rewrite (@runs_in_order_skipped H t _ _ _ _ _ _ _ E1 I S). auto.
Qed.

Lemma skipped_case_fails_group_witness :
  exists log g',
    Node_run (Test_run Ref.host)
      (TestGroup_init [Case Ref.greeting; Case (set_state Disabled Ref.plain)] None py_all)
      (Ref.world [Ref.exited "hello" "" 0])
    = (log, Ok ((g', Fail), Ref.world [])).
Proof.
  eexists _, _.
  pose proof (@skipped_case_fails_group Ref.host
                [Case Ref.greeting; Case (set_state Disabled Ref.plain)] None Waiting
                (set_state Disabled Ref.plain) (Ref.world [Ref.exited "hello" "" 0])
                _ _ _ _ (or_intror (or_introl eq_refl)) (or_introl eq_refl) eq_refl) as [E _].
  rewrite <- E. reflexivity.
Defined.

(** ** The attribute [cmd] of a group *)

Section Node_nested.

Variable P : Node -> Prop.
Hypothesis PCase : forall t, P (Case t).
Hypothesis PGroup : forall tests nm st p, Forall P tests -> P (Group tests nm st p).

Fixpoint Node_nested_ind (n : Node) : P n :=
  match n with
  | Case t => PCase t
  | Group tests nm st p =>
      PGroup nm st p
        ((fix all (ts : list Node) : Forall P ts :=
            match ts with
            | [] => Forall_nil P
            | x :: r => Forall_cons x (Node_nested_ind x) (all r)
            end) tests)
  end.

End Node_nested.

Lemma node_cmd_Group tests nm st p :
  node_cmd (Group tests nm st p)
  = match cmd_strings tests with
    | Ok cs => Ok (CmdStr (join " --> " cs))
    | Raise e => Raise e
    end.
Proof.
  cbn [node_cmd].
  match goal with |- match ?f tests with _ => _ end = _ =>
    assert (E : f tests = cmd_strings tests) end.
  { induction tests as [|t rest IH]; [reflexivity|].
    cbn [cmd_strings]. rewrite <- IH. reflexivity. }
  rewrite E. reflexivity.
Qed.

Lemma cases_Group tests nm st p :
  cases (Group tests nm st p) = flat_map cases tests.
Proof.
  cbn [cases]. induction tests as [|t rest IH]; [reflexivity|].
  cbn [flat_map]. rewrite <- IH. reflexivity.
Qed.

Lemma node_cmd_cases n :
  (forallb (fun t => is_CmdStr (cmd t)) (cases n) = true /\
   exists c, node_cmd n = Ok (CmdStr c))
  \/ (forallb (fun t => is_CmdStr (cmd t)) (cases n) = false /\
      (node_cmd n = Raise TypeError
       \/ exists c, node_cmd n = Ok c /\ is_CmdStr c = false)).
Proof.
  induction n as [t|tests nm st p IH] using Node_nested_ind.
  - simpl. destruct (cmd t) as [|c|l]; simpl; eauto 6.
  - rewrite node_cmd_Group, cases_Group.
    assert (G : (forallb (fun t => is_CmdStr (cmd t)) (flat_map cases tests) = true /\
                 exists cs, cmd_strings tests = Ok cs)
                \/ (forallb (fun t => is_CmdStr (cmd t)) (flat_map cases tests) = false /\
                    cmd_strings tests = Raise TypeError)).
    { induction IH as [|x rest Hx Hr IHr]; [left; simpl; eauto|].
      cbn [flat_map cmd_strings]. rewrite forallb_app.
      destruct Hx as [[F [c E]] | [F [E | [c [E N]]]]]; rewrite F, E.
      - destruct IHr as [[F2 [cs E2]] | [F2 E2]]; rewrite F2, E2; simpl; eauto.
      - right. auto.
      - right. destruct c; try discriminate; auto. }
    destruct G as [[F [cs E]] | [F E]]; rewrite F, E; eauto.
Qed.

(** X16.  The attribute [cmd] of a group is a text exactly when every case
    in the group, at any depth, has one command line as its command: it is
    then the command texts of its tests joined by an arrow.  If some case
    has a list of command lines or no command, reading [cmd] raises
    [TypeError]. *)
Theorem group_cmd_is_text_or_TypeError :
  forall (tests : list Node) (nm : option string) (st : TestState)
         (p : list bool -> bool),
    (forallb (fun t => is_CmdStr (cmd t)) (cases (Group tests nm st p)) = true /\
     exists cs, cmd_strings tests = Ok cs /\
                node_cmd (Group tests nm st p) = Ok (CmdStr (join " --> " cs)))
    \/ (forallb (fun t => is_CmdStr (cmd t)) (cases (Group tests nm st p)) = false /\
        node_cmd (Group tests nm st p) = Raise TypeError).
Proof.
  intros tests nm st p.
  destruct (node_cmd_cases (Group tests nm st p)) as [[F [c E]] | [F [E | [c [E N]]]]].
  - left. split; [exact F|]. rewrite node_cmd_Group in *.
    destruct (cmd_strings tests) as [cs|x]; [|discriminate]. eauto.
  - right. auto.
  - rewrite node_cmd_Group in E. destruct (cmd_strings tests); [|discriminate].
    inversion E; subst. discriminate.
Qed.

(** ** What the bad word search logs *)

Lemma line_hits_In (H : Host) words fname nr line f n text pat :
  In (f, n, text, pat) (line_hits H words fname nr line) <->
  f = relpath H fname /\ n = nr /\ text = PyStr.rstrip line /\
  exists r, In (pat, r) words /\ re_search H r line = true.
Proof.
  unfold line_hits. rewrite in_flat_map. split.
  - intros [[p r] [I M]]. simpl in M.
    destruct (re_search H r line) eqn:S; [|destruct M].
    destruct M as [M|[]]. inversion M; subst. eauto 6.
  - intros (-> & -> & -> & r & I & S). exists (pat, r). split; [exact I|].
    simpl. rewrite S. left. reflexivity.
Qed.

Lemma lines_hits_In (H : Host) words fname lines f n text pat : forall nr,
  In (f, n, text, pat) (lines_hits H words fname nr lines) <->
  f = relpath H fname /\ text = PyStr.rstrip (nth (n - nr) lines "") /\
  (nr <= n < nr + List.length lines)%nat /\
  exists r, In (pat, r) words /\ re_search H r (nth (n - nr) lines "") = true.
Proof.
  induction lines as [|line rest IH]; intro nr; cbn [lines_hits].
  - split; [intros []|]. simpl. intros (_ & _ & L & _). lia.
  - rewrite in_app_iff, line_hits_In, IH. split.
    + intros [(-> & -> & -> & r & I & S) | (-> & -> & L & r & I & S)].
      * rewrite Nat.sub_diag. simpl. repeat split; try lia. eauto.
      * replace (n - nr)%nat with (Datatypes.S (n - Datatypes.S nr)) by lia.
        simpl. repeat split; try lia. eauto.
    + intros (-> & -> & L & r & I & S). simpl in L.
      destruct (Nat.eq_dec n nr) as [->|N].
      * left. rewrite Nat.sub_diag in *. simpl in *. repeat split. eauto.
      * right. replace (n - nr)%nat with (Datatypes.S (n - Datatypes.S nr)) in * by lia.
        simpl in *. repeat split; try lia. eauto.
Qed.

Lemma files_hits_In (H : Host) w words files f n text pat : forall hits,
  files_hits H w words files = Ok hits ->
  (In (f, n, text, pat) hits <->
   exists fname lines r,
     In fname files /\ readlines H w fname = Ok lines /\
     f = relpath H fname /\ (n < List.length lines)%nat /\
     text = PyStr.rstrip (nth n lines "") /\
     In (pat, r) words /\ re_search H r (nth n lines "") = true).
Proof.
  induction files as [|fname rest IH]; intros hits E; simpl in E.
  - inversion E; subst. split; [intros []|]. intros (x & _ & _ & [] & _).
  - destruct (readlines H w fname) as [lines|] eqn:R; [|discriminate].
    destruct (files_hits H w words rest) as [hs|]; [|discriminate].
    inversion E; subst. rewrite in_app_iff, lines_hits_In, (IH hs eq_refl).
    rewrite Nat.sub_0_r. split.
    + intros [(-> & -> & L & r & I & S) | (g & ls & r & I & Rg & -> & L & -> & Iw & S)].
      * exists fname, lines, r. simpl. repeat split; auto; lia.
      * exists g, ls, r. simpl. repeat split; auto.
    + intros (g & ls & r & [<- | I] & Rg & -> & L & -> & Iw & S).
      * left. rewrite R in Rg. inversion Rg; subst. repeat split; try lia. eauto.
      * right. exists g, ls, r. repeat split; auto.
Qed.

Lemma log_hit_In f n text pat hits :
  In (EvLogHit f n text pat) (map log_hit hits) <-> In (f, n, text, pat) hits.
Proof.
  rewrite in_map_iff. split.
  - intros ([[[f' n'] text'] pat'] & E & I). simpl in E. inversion E; subst. exact I.
  - intro I. exists (f, n, text, pat). auto.
Qed.

(** X17.  What a case named [Badword] logs.  Let its words compile and
    let the description select [files] under the directory of the DUT.  If
    the run returns, a hit [(file, nr, text, pattern)] is logged exactly
    when [file] is the relative path of one of the files, [nr] is the number
    of one of its lines counted from zero, [text] is that line without its
    trailing whitespace, and [pattern] is one of the words and is found in
    that line. *)
Theorem badword_log_lists_the_matches :
  forall (H : Host) (t : Test) (w : World H) log t' s w'
         items words dut pattern files,
    name t = "Badword" -> state t <> Disabled -> state t <> InfoOnly ->
    Test_run H t w = (log, Ok ((t', s), w')) ->
    cmd_items (cmd t) = Ok items ->
    compile_words H items = Ok words ->
    DUT t = Some dut -> descr t = Some pattern ->
    path_glob H w (path_parent H dut) pattern = Ok files ->
    forall f n text pat,
      In (EvLogHit f n text pat) log <->
      exists fname lines r,
        In fname files /\ readlines H w fname = Ok lines /\
        f = relpath H fname /\ (n < List.length lines)%nat /\
        text = PyStr.rstrip (nth n lines "") /\
        In (pat, r) words /\ re_search H r (nth n lines "") = true.
Proof.
  intros H t w log t' s w' items words dut pattern files N D I E E1 E2 E3 E4 E5 f n text pat.
  unfold Test_run in E. rewrite run_with_Badword in E by assumption.
  apply Run_bind_Ok in E. destruct E as (l1 & t1 & w1 & l2 & B & R & ->).
  unfold Run_ret, Chk_ret in R. inversion R; subst. clear R. rewrite app_nil_r.
  apply badword_Ok in B.
  destruct B as (items' & words' & dut' & pattern' & files' & hits
                 & F1 & F2 & F3 & F4 & F5 & F6 & _ & V).
  rewrite E1 in F1. inversion F1; subst items'.
  rewrite E2 in F2. inversion F2; subst words'.
  rewrite E3 in F3. inversion F3; subst dut'.
  rewrite E4 in F4. inversion F4; subst pattern'.
  rewrite E5 in F5. inversion F5; subst files'.
  assert (L : l1 = map log_hit hits).
  { destruct (badword_verdict_cases t hits) as [[-> C] | [_ C]];
      rewrite C in V; inversion V; reflexivity. }
  rewrite L, log_hit_In. apply files_hits_In. exact F6.
Qed.

Lemma badword_log_lists_the_matches_witness :
  In (EvLogHit "main.c" 1 "/* TODO remove */" "TODO")
     (events (Test_run Ref.host Ref.badword_case Ref.tree)).
Proof.
  assert (D : Waiting <> Disabled) by discriminate.
  assert (I : Waiting <> InfoOnly) by discriminate.
  apply (proj2 (@badword_log_lists_the_matches Ref.host Ref.badword_case Ref.tree
                  _ _ _ _ ["TODO"] [("TODO", "TODO")] "./dut" "*.c" ["main.c"]
                  eq_refl D I eq_refl eq_refl eq_refl eq_refl eq_refl eq_refl
                  "main.c" 1%nat "/* TODO remove */" "TODO")).
  exists "main.c", ["int x;"; "/* TODO remove */"; "return x;"], "TODO".
  simpl. repeat split; auto.
Defined.

(** ** [class BadWord] *)

(** X18.  [BadWord.run] tests [self.path is None] the wrong way round.
    For an object built without a path, the default, the run raises
    [TypeError] once the words are compiled: it reads no file and logs
    nothing.  For an object built with a path the path is not used: the
    files searched are those that the pattern selects under the current
    directory, and the run returns [BadWord] if some word is found in some
    line of one of them and [Clean] otherwise. *)
Theorem BadWord_object_never_searches_its_path :
  forall (H : Host) (name descr pattern : string) (words : list string)
         (w : World H) (ws : list (string * regex H)),
    compile_words H words = Ok ws ->
    BadWord_run H (BadWord_init name descr None pattern words) w = ([], Raise TypeError) /\
    (forall (p : string) files contents,
        path_glob H w "." pattern = Ok files ->
        read_all H w files = Ok contents ->
        result (BadWord_run H (BadWord_init name descr (Some p) pattern words) w)
        = Ok (if has_match H ws contents then BadWord else Clean, w)).
Proof.
  intros H name descr pattern words w ws C. unfold BadWord_run, BadWord_init.
  cbn [bw_words bw_path bw_pattern bw_DUT BadWord_searchpath].
  rewrite C, !Chk_bind_lift_ok. split.
  - rewrite Chk_bind_lift_raise. reflexivity.
  - intros p files contents G R.
    destruct (files_hits_read_all H w ws files R) as (hits & F & M).
    rewrite G, Chk_bind_lift_ok, F, Chk_bind_lift_ok.
    rewrite nonempty_length, M.
    destruct (has_match H ws contents); [|reflexivity].
    rewrite Chk_bind_emit. reflexivity.
Qed.

Lemma BadWord_object_never_searches_its_path_witness :
  result (BadWord_run Ref.host (BadWord_init "words" "" (Some "/nowhere") "*.c" ["TODO"])
            Ref.tree)
  = Ok (BadWord, Ref.tree).
Proof.
  exact (proj2 (@BadWord_object_never_searches_its_path Ref.host "words" "" "*.c" ["TODO"]
                  Ref.tree [("TODO", "TODO")] eq_refl)
           "/nowhere" ["main.c"] [["int x;"; "/* TODO remove */"; "return x;"]]
           eq_refl eq_refl).
Defined.

(* ===================================================================== *)
(** * The grid of [testGrid.py] *)
(* ===================================================================== *)

Section GridFacts.

Variable A : Type.

Lemma getitem_valid (l : list A) i :
  0 <= i < Z.of_nat (List.length l) -> exists x, Grid.getitem l i = Some x.
Proof.
  intros [L U]. unfold Grid.getitem.
  destruct (Z.ltb_spec i (- Z.of_nat (List.length l))); [lia|].
  destruct (Z.leb_spec (Z.of_nat (List.length l)) i); [lia|].
  destruct (Z.ltb_spec i 0); [lia|]. simpl.
  destruct (nth_error l (Z.to_nat i)) as [x|] eqn:E; [eauto|].
  apply nth_error_None in E. lia.
Qed.

Lemma getitem_beyond (l : list A) i :
  Z.of_nat (List.length l) <= i -> Grid.getitem l i = None.
Proof.
  intro U. unfold Grid.getitem.
  destruct (Z.leb_spec (Z.of_nat (List.length l)) i); [|lia].
  rewrite orb_true_r. reflexivity.
Qed.

Lemma getitems_None (l : list A) idx :
  Forall (fun i => 0 <= i) idx ->
  (Grid.getitems l idx = None <-> exists i, In i idx /\ Z.of_nat (List.length l) <= i).
Proof.
  induction 1 as [|i rest L F IH]; simpl.
  - split; [discriminate|]. intros (i & [] & _).
  - destruct (Z.le_gt_cases (Z.of_nat (List.length l)) i) as [U|U].
    + rewrite (@getitem_beyond l i U). split; [eauto|reflexivity].
    + destruct (@getitem_valid l i) as [x E]; [lia|]. rewrite E.
      destruct (Grid.getitems l rest) as [xs|].
      * split; [discriminate|]. intros (j & [<- | I] & Uj); [lia|].
        assert (C : Some xs = None) by (apply (proj2 IH); eauto).
        discriminate C.
      * split; [|reflexivity]. intros _.
        destruct (proj1 IH eq_refl) as (j & I & Uj). eauto.
Qed.

Lemma In_range a b i : In i (Grid.range a b) <-> a <= i < b.
Proof.
  unfold Grid.range. rewrite in_map_iff. split.
  - intros (k & <- & I). apply in_seq in I. lia.
  - intros [L U]. exists (Z.to_nat (i - a)). split; [lia|]. apply in_seq. lia.
Qed.

Lemma range_nonneg a b : 0 <= a -> Forall (fun i => 0 <= i) (Grid.range a b).
Proof. intro L. apply Forall_forall. intros i I. apply In_range in I. lia. Qed.

(** When [scroll] raises. *)
Lemma scroll_None (g : Grid.TestGrid A) lower upper :
  Grid.visible g = (lower, upper) -> 0 <= lower ->
  (Grid.scroll g = None
   <-> upper = Z.of_nat (List.length (Grid.rows g)) /\ lower <= upper).
Proof.
  intros V L. unfold Grid.scroll. rewrite V.
  set (len := Z.of_nat (List.length (Grid.rows g))).
  set (up := if upper >? len then len - 1 else upper).
  assert (N : Grid.getitems (Grid.rows g) (Grid.range lower (up + 1)) = None
              <-> upper = len /\ lower <= upper).
  { rewrite (@getitems_None (Grid.rows g) _ (@range_nonneg lower (up + 1) L)). fold len.
    unfold up. destruct (Z.gtb_spec upper len) as [G|G].
    - split; [|lia]. intros (i & I & U). apply In_range in I. lia.
    - split.
      + intros (i & I & U). apply In_range in I. lia.
      + intros [-> U]. exists len. rewrite In_range. lia. }
  destruct (Grid.getitems (Grid.rows g) (Grid.range lower (up + 1))) as [xs|].
  - split; [discriminate|]. intro C. apply N in C. discriminate.
  - split; [|reflexivity]. intros _. apply N. reflexivity.
Qed.

Lemma scroll_Some (g : Grid.TestGrid A) lower upper :
  Grid.visible g = (lower, upper) -> 0 <= lower ->
  upper < Z.of_nat (List.length (Grid.rows g)) ->
  exists shown,
    Grid.getitems (Grid.rows g) (Grid.range lower (upper + 1)) = Some shown /\
    Grid.scroll g
    = Some {| Grid.rows := Grid.rows g; Grid.visible := (lower, upper);
              Grid.packed := shown |}.
Proof.
  intros V L U. unfold Grid.scroll. rewrite V.
  destruct (Z.gtb_spec upper (Z.of_nat (List.length (Grid.rows g)))) as [G|G]; [lia|].
  destruct (Grid.getitems (Grid.rows g) (Grid.range lower (upper + 1))) as [xs|] eqn:E.
  - eauto.
  - apply (@getitems_None (Grid.rows g) _ (@range_nonneg lower (upper + 1) L)) in E.
    destruct E as (i & I & Ui). apply In_range in I. lia.
Qed.

Lemma skipn_nth_error (l : list A) : forall k x,
  nth_error l k = Some x -> skipn k l = x :: skipn (S k) l.
Proof.
  induction l as [|y l IH]; intros [|k] x E; simpl in E; try discriminate.
  - inversion E. reflexivity.
  - apply IH in E. exact E.
Qed.

Lemma getitem_nth_error (l : list A) i x :
  0 <= i -> Grid.getitem l i = Some x -> nth_error l (Z.to_nat i) = Some x.
Proof.
  intro L. unfold Grid.getitem.
  destruct (_ || _); [discriminate|].
  destruct (Z.ltb_spec i 0); [lia|]. auto.
Qed.

(** The rows at the numbers of a range that starts at zero or above are a
    segment of the list. *)
Lemma getitems_segment (l : list A) a n : forall s xs,
  0 <= a ->
  Grid.getitems l (map (fun k => a + Z.of_nat k) (seq s n)) = Some xs ->
  xs = firstn n (skipn (Z.to_nat a + s) l).
Proof.
  induction n as [|n IH]; intros s xs L E; simpl in E.
  - inversion E. reflexivity.
  - destruct (Grid.getitem l (a + Z.of_nat s)) as [x|] eqn:G; [|discriminate].
    destruct (Grid.getitems l (map (fun k => a + Z.of_nat k) (seq (S s) n)))
      as [ys|] eqn:R; [|discriminate].
    inversion E; subst xs. apply getitem_nth_error in G; [|lia].
    replace (Z.to_nat (a + Z.of_nat s)) with (Z.to_nat a + s)%nat in G by lia.
    rewrite (skipn_nth_error l _ G), firstn_cons. f_equal.
    replace (S (Z.to_nat a + s)) with (Z.to_nat a + S s)%nat by lia.
    apply IH; assumption.
Qed.

(** [scroll] on a window that lies within the rows packs its rows. *)
Lemma scroll_window (g : Grid.TestGrid A) lower :
  Grid.visible g = (lower, lower + 9) -> 0 <= lower ->
  lower + 9 < Z.of_nat (List.length (Grid.rows g)) ->
  Grid.scroll g
  = Some {| Grid.rows := Grid.rows g; Grid.visible := (lower, lower + 9);
            Grid.packed := window (Grid.rows g) lower |}.
Proof.
  intros V L U.
  destruct (@scroll_Some g lower (lower + 9) V L U) as (shown & S1 & S2).
  rewrite S2. unfold Grid.range in S1.
  apply getitems_segment in S1; [|exact L].
  replace (Z.to_nat (lower + 9 + 1 - lower)) with 10%nat in S1 by lia.
  rewrite Nat.add_0_r in S1. subst shown. reflexivity.
Qed.

Lemma window_app (l : list A) y lower :
  0 <= lower -> lower + 9 < Z.of_nat (List.length l) ->
  window (l ++ [y]) lower = window l lower.
Proof.
  intros L U. unfold window. rewrite skipn_app, firstn_app.
  rewrite length_skipn.
  replace (10 - (List.length l - Z.to_nat lower))%nat with 0%nat by lia.
  simpl. rewrite app_nil_r. reflexivity.
Qed.

Lemma window_length (l : list A) lower :
  0 <= lower -> lower + 9 < Z.of_nat (List.length l) ->
  List.length (window l lower) = 10%nat.
Proof.
  intros L U. unfold window. rewrite length_firstn, length_skipn. lia.
Qed.

(** What the two buttons do to a grid that satisfies the invariant. *)
Lemma grid_invariant_scrollUp (g : Grid.TestGrid A) lower :
  Grid.visible g = (lower, lower + 9) -> 0 <= lower ->
  Grid.scrollUp g
  = Some (if lower + 9 <? Z.of_nat (List.length (Grid.rows g)) - 1
          then {| Grid.rows := Grid.rows g; Grid.visible := (lower + 1, lower + 1 + 9);
                  Grid.packed := window (Grid.rows g) (lower + 1) |}
          else g).
Proof.
  intros V L. unfold Grid.scrollUp. rewrite V.
  destruct (Z.ltb_spec (lower + 9) (Z.of_nat (List.length (Grid.rows g)) - 1)) as [G|G];
    [|reflexivity].
  replace (lower + 9 + 1) with (lower + 1 + 9) by lia.
  rewrite (@scroll_window {| Grid.rows := Grid.rows g;
                             Grid.visible := (lower + 1, lower + 1 + 9);
                             Grid.packed := Grid.packed g |} (lower + 1));
    simpl; try lia; reflexivity.
Qed.

Lemma grid_invariant_scrollDown (g : Grid.TestGrid A) lower :
  Grid.visible g = (lower, lower + 9) -> 0 <= lower ->
  (lower = 0 \/ lower + 9 < Z.of_nat (List.length (Grid.rows g))) ->
  Grid.scrollDown g
  = Some (if lower >? 0
          then {| Grid.rows := Grid.rows g; Grid.visible := (lower - 1, lower - 1 + 9);
                  Grid.packed := window (Grid.rows g) (lower - 1) |}
          else g).
Proof.
  intros V L B. unfold Grid.scrollDown. rewrite V.
  destruct (Z.gtb_spec lower 0) as [G|G]; [|reflexivity].
  destruct B as [B|B]; [lia|].
  replace (lower + 9 - 1) with (lower - 1 + 9) by lia.
  rewrite (@scroll_window {| Grid.rows := Grid.rows g;
                             Grid.visible := (lower - 1, lower - 1 + 9);
                             Grid.packed := Grid.packed g |} (lower - 1));
    simpl; try lia; reflexivity.
Qed.

Lemma grid_invariant_step (g g' : Grid.TestGrid A) :
  grid_invariant g -> Grid.step g g' -> grid_invariant g'.
Proof.
  intros (lower & V & L & P) St. destruct St as [g g' E|g g' E|g row].
  - rewrite (grid_invariant_scrollUp g V L) in E.
    destruct (Z.ltb_spec (lower + 9) (Z.of_nat (List.length (Grid.rows g)) - 1)) as [G|G];
      inversion E; subst g'.
    + exists (lower + 1). simpl. split; [reflexivity|]. split; [lia|].
      right. split; [lia|reflexivity].
    + exists lower. auto.
  - rewrite (grid_invariant_scrollDown g V L) in E by (destruct P as [[P _]|[P _]]; auto).
    destruct (Z.gtb_spec lower 0) as [G|G]; inversion E; subst g'.
    + exists (lower - 1). simpl. split; [reflexivity|]. split; [lia|].
      right. split; [|reflexivity]. destruct P as [[P _]|[P _]]; lia.
    + exists lower. auto.
  - exists lower. unfold Grid.addRow. simpl. rewrite length_app. simpl List.length.
    split; [exact V|]. split; [exact L|].
    destruct P as [P|[P1 P2]]; [left; exact P|right].
    split; [lia|]. rewrite window_app by assumption. exact P2.
Qed.

Lemma grid_invariant_reachable (g : Grid.TestGrid A) :
  Grid.reachable g -> grid_invariant g.
Proof.
  induction 1 as [|g g' R IH St].
  - exists 0. simpl. split; [reflexivity|]. split; [lia|]. auto.
  - eapply grid_invariant_step; eassumption.
Qed.

Lemma reachable_addRows (l : list A) : forall g,
  Grid.reachable g -> Grid.reachable (addRows l g).
Proof.
  induction l as [|x l IH]; intros g R; [exact R|].
  simpl. apply IH. apply Grid.reach_step with (g := g); [exact R|apply Grid.step_add].
Qed.

End GridFacts.

(** X19.  In a grid that is built from a new grid by [addRow] and by the
    two scroll buttons, neither button ever raises [IndexError].  The
    window always spans ten row numbers and starts at zero or above.
    [scrollUp] moves the window up by one row when there is a row beyond
    it and [scrollDown] moves it down by one row when it does not start at
    zero; a button that moves the window unpacks every row and packs
    exactly the ten rows of the new window, and otherwise it changes
    nothing.  [addRow] packs nothing: the rows packed are none at all while
    the window is where it was at first and no scroll has moved it, and
    otherwise they are the ten rows of the window. *)
Theorem grid_scrolling_is_safe :
  forall (A : Type) (g : Grid.TestGrid A),
    Grid.reachable g ->
    exists lower,
      Grid.visible g = (lower, lower + 9) /\ 0 <= lower /\
      ((lower = 0 /\ Grid.packed g = [])
       \/ (lower + 9 < Z.of_nat (List.length (Grid.rows g)) /\
           List.length (Grid.packed g) = 10%nat /\
           Grid.packed g = window (Grid.rows g) lower)) /\
      Grid.scrollUp g
      = Some (if lower + 9 <? Z.of_nat (List.length (Grid.rows g)) - 1
              then {| Grid.rows := Grid.rows g; Grid.visible := (lower + 1, lower + 1 + 9);
                      Grid.packed := window (Grid.rows g) (lower + 1) |}
              else g) /\
      Grid.scrollDown g
      = Some (if lower >? 0
              then {| Grid.rows := Grid.rows g; Grid.visible := (lower - 1, lower - 1 + 9);
                      Grid.packed := window (Grid.rows g) (lower - 1) |}
              else g).
Proof.
  intros A g R. apply grid_invariant_reachable in R.
  destruct R as (lower & V & L & P).
  exists lower. split; [exact V|]. split; [exact L|]. split; [|split].
  - destruct P as [P|[P1 P2]]; [left; exact P|right].
    split; [exact P1|]. split; [|exact P2].
    rewrite P2. apply window_length; assumption.
  - apply grid_invariant_scrollUp; assumption.
  - apply grid_invariant_scrollDown; try assumption.
    destruct P as [[P _]|[P _]]; auto.
Qed.

(** Eleven rows, numbered from 0: nothing is packed; [scrollUp] packs the
    rows 1 to 10, and [scrollDown] after it the rows 0 to 9. *)
Lemma grid_scrolling_is_safe_witness :
  Grid.packed (addRows (seq 0 11) (Grid.TestGrid_init nat)) = [] /\
  Grid.scrollUp (addRows (seq 0 11) (Grid.TestGrid_init nat))
  = Some {| Grid.rows := seq 0 11; Grid.visible := (1, 10); Grid.packed := seq 1 10 |}.
Proof.
  destruct (@grid_scrolling_is_safe nat (addRows (seq 0 11) (Grid.TestGrid_init nat))
              (reachable_addRows (seq 0 11) (Grid.reach_init nat)))
    as (lower & V & L & P & U & D).
  split; [reflexivity|].
  assert (Z0 : lower = 0) by (simpl in V; inversion V; reflexivity).
  rewrite U, Z0. reflexivity.
Defined.

(** X20.  For a grid in any state whose window [(lower, upper)] starts at
    zero or above: the button for [scrollUp] never raises, and the button
    for [scrollDown] raises [IndexError] exactly when [lower] is positive
    and the grid has [upper - 1] rows.  [scroll] lowers the upper end of
    the window only when it is greater than the number of rows, not when it
    is equal to it.  The case arises after [clear], which empties the rows
    and keeps the window. *)
Theorem scrollDown_raises_IndexError_iff :
  forall (A : Type) (g : Grid.TestGrid A) (lower upper : Z),
    Grid.visible g = (lower, upper) -> 0 <= lower -> lower <= upper ->
    (exists g', Grid.scrollUp g = Some g') /\
    (Grid.scrollDown g = None
     <-> 0 < lower /\ upper - 1 = Z.of_nat (List.length (Grid.rows g))).
Proof.
  intros A g lower upper V L U. split.
  - unfold Grid.scrollUp. rewrite V.
    destruct (Z.ltb_spec upper (Z.of_nat (List.length (Grid.rows g)) - 1)) as [G|G];
      [|eauto].
    destruct (@scroll_Some A {| Grid.rows := Grid.rows g;
                                Grid.visible := (lower + 1, upper + 1);
                                Grid.packed := Grid.packed g |} (lower + 1) (upper + 1))
      as (shown & S1 & S2); simpl; try lia; try reflexivity.
    eauto.
  - unfold Grid.scrollDown. rewrite V.
    destruct (Z.gtb_spec lower 0) as [G|G].
    + rewrite (@scroll_None A {| Grid.rows := Grid.rows g;
                                 Grid.visible := (lower - 1, upper - 1);
                                 Grid.packed := Grid.packed g |} (lower - 1) (upper - 1));
        simpl; try lia; try reflexivity.
    + split; [discriminate|lia].
Qed.

Lemma scrollDown_raises_IndexError_iff_witness :
  Grid.scrollDown
    {| Grid.rows := [1; 2; 3; 4; 5; 6; 7; 8; 9]%nat; Grid.visible := (1, 10);
       Grid.packed := [] |} = None.
Proof.
  apply (proj2 (@scrollDown_raises_IndexError_iff nat
                  {| Grid.rows := [1; 2; 3; 4; 5; 6; 7; 8; 9]%nat; Grid.visible := (1, 10);
                     Grid.packed := [] |} 1 10 eq_refl ltac:(lia) ltac:(lia))).
  simpl. lia.
Defined.

(** Eleven rows, one scroll up, [clear], nine rows: the next scroll down
    raises. *)
Example scrollDown_after_clear :
  match Grid.scrollUp (Nat.iter 11 (Grid.addRow 0%nat) (Grid.TestGrid_init nat)) with
  | Some g => Grid.scrollDown (Nat.iter 9 (Grid.addRow 0%nat) (Grid.clear g))
  | None => None
  end = None /\
  Grid.scrollUp (Nat.iter 11 (Grid.addRow 0%nat) (Grid.TestGrid_init nat)) <> None.
Proof. split; [reflexivity|discriminate]. Qed.


(** ** A run whose checks all pass *)

(** X22.  Let the command of a case be run and exit within the timeout,
    with its streams captured as text, and let the three checks all pass.
    Then [runCmd] returns and the state is [Success], whatever stderr holds
    and whatever the sign of the exit code: the search for [Assertion] and
    the like is made only when a check fails.  The run starts the command,
    then logs what the three checks log, in the order return code, stdout,
    stderr, and then echoes the captured output if and only if [pipe] is
    set. *)
Theorem passing_checks_give_Success :
  forall (H : Host) (t : Test) (command cmdline : string) (bin : bool)
         (w w1 : World H) (jv : JoinView) (out err : string),
    command_line t command = Some (cmdline, bin) ->
    os_join H w cmdline bin (timeout t) = (jv, w1) ->
    result (execute_joined H jv) = Ok Success ->
    jv_out jv = OutStr out ->
    jv_err jv = OutStr err ->
    result (check H t (expectRetCode t) (OutInt (jv_ret jv)) "returnCode") = Ok true ->
    result (check H t (expectStdout t) (OutStr out) "stdout") = Ok true ->
    result (check H t (expectStderr t) (OutStr err) "stderr") = Ok true ->
    let t2 := set_state Success (set_captured (OutStr out) (OutStr err) (jv_ret jv) t) in
    result (runCmd H t command w) = Ok (t2, w1) /\
    events (runCmd H t command w)
    = EvSpawn cmdline bin (timeout t)
        :: (events (check H t (expectRetCode t) (OutInt (jv_ret jv)) "returnCode")
            ++ events (check H t (expectStdout t) (OutStr out) "stdout")
            ++ events (check H t (expectStderr t) (OutStr err) "stderr"))
        ++ (if pipe t then events (pipe_streams t2) else []).
Proof.
  intros H t command cmdline bin w w1 jv out err CL J E O Er C1 C2 C3 t2.
  unfold runCmd. rewrite (@runCmd_with_command_line H (check H) t command cmdline bin CL).
  destruct (@runCmd_command_text H (check H)
              (fun ta tb exp o s D L I => @check_same_config H ta tb exp D L I o s) t
              (Command_init cmdline bin) w jv w1 out err true true true
              J E O Er C1 C2 C3) as [R V].
  cbn [andb] in R, V. fold t2 in R, V. split; [exact R|].
  rewrite V. cbn [c_cmd c_binary Command_init TestState_eqb TestState_value Z.eqb].
  rewrite andb_false_r, orb_false_r. f_equal. f_equal.
  unfold checks_pass.
  rewrite !(@check_same_config H t2 t) by reflexivity.
  cbn [expectRetCode expectStdout expectStderr output error retCode t2 set_state
       set_captured].
  rewrite events_bind, C1, events_bind, C2. reflexivity.
Qed.

Lemma passing_checks_give_Success_witness :
  exists t',
    result (runCmd Ref.host
              (Test_init Ref.host
                 (Ref.args "abort" (CmdStr "./abort") (ExpStr "hello") ExpNone (ExpInt (-6))
                           false Waiting))
              "./abort" (Ref.world [Ref.exited "hello" "Assertion failed" (-6)]))
    = Ok (t', Ref.world []) /\ state t' = Success.
Proof.
  eexists. split; [|shelve].
  exact (proj1 (@passing_checks_give_Success Ref.host
                  (Test_init Ref.host
                     (Ref.args "abort" (CmdStr "./abort") (ExpStr "hello") ExpNone
                               (ExpInt (-6)) false Waiting))
                  "./abort" "./abort"
                  false (Ref.world [Ref.exited "hello" "Assertion failed" (-6)])
                  (Ref.world []) (Ref.exited "hello" "Assertion failed" (-6))
                  "hello" "Assertion failed"
                  eq_refl eq_refl eq_refl eq_refl eq_refl eq_refl eq_refl eq_refl)).
  Unshelve. reflexivity.
Defined.
